(** * Bayesian Knowledge Tracing core of the Ed-tech backend

    A shallow embedding of
    - [BKTModel.update_mastery] and [BKTModel.select_next_question]
      (Backend/backend/src/bkt_model.py), and
    - [select_assessment_questions] (Backend/backend/src/routes/assessment.py).

    Modelling conventions.
    - Python floats are modelled by exact rationals [Q]; decimal literals
      such as [0.2] denote the rational 2/10.  Equality of results is
      stated with [==] ([Qeq]) or, where both sides are built by the same
      operations, with Leibniz equality.  Rounding is not part of this
      model: [Binary64.update_mastery] is the same update on binary64
      numbers, used to evaluate it at given inputs, and the theorems state
      an inequality between results only where rounding leaves it intact.
    - A Python dict is modelled by the list of its items in iteration
      (insertion) order, because [min] over a dict breaks ties by that order.
    - A question is a dict read through [q.get(key)]: every field the code
      reads is an [option string], [None] standing for a missing key.
    - [random.choice] and [random.shuffle] take their draws from an explicit
      argument. *)

From Stdlib Require Import QArith Qminmax Qround Qabs Lqa Lia ZArith Ascii Sorted Floats.
From stdpp Require Import base list strings pretty.

Open Scope Q_scope.

(** ** Python numeric built-ins *)

(** [x < y] on floats, as a boolean. *)
Definition Qltb (x y : Q) : bool :=
  match x ?= y with Lt => true | _ => false end.

(** [min(a, b)] returns the first argument unless the second is strictly
    smaller; [max(a, b)] returns the first unless the second is strictly
    larger. *)
Definition py_min (a b : Q) : Q := if Qltb b a then b else a.
Definition py_max (a b : Q) : Q := if Qltb a b then b else a.

(** ** The model instance: [BKTModel.__init__] *)

Record BKTModel : Type := mkBKTModel {
  p_init : Q;
  p_learn : Q;
  p_slip : Q;
  p_guess : Q
}.

(** [BKTModel()] with the default arguments. *)
Definition default_model : BKTModel := mkBKTModel 0.3 0.2 0.1 0.25.

(** [initialize_skill]: the skill name is ignored. *)
Definition initialize_skill (self : BKTModel) (skill_name : option string) : Q :=
  p_init self.

(** ** [BKTModel.update_mastery] *)

(** Truthiness of an optional string argument: [None] and the empty string
    are false. *)
Definition truthy (s : option string) : bool :=
  match s with
  | Some s => negb (String.eqb s EmptyString)
  | None => false
  end.

(** Lines 193-207: the pair [(p_slip, p_learn)] after the difficulty
    adjustment. [p_guess] is read from the instance and never adjusted. *)
Definition adjust_parameters (self : BKTModel) (question_difficulty : option string)
  : Q * Q :=
  if truthy question_difficulty then
    if bool_decide (question_difficulty = Some "hard"%string) then
      (py_min (p_slip self * 1.5) 0.2, py_min (p_learn self * 1.2) 0.3)
    else if bool_decide (question_difficulty = Some "easy"%string) then
      (py_max (p_slip self * 0.7) 0.05, py_max (p_learn self * 0.8) 0.1)
    else if bool_decide (question_difficulty = Some "very_easy"%string) then
      (py_max (p_slip self * 0.5) 0.03, py_max (p_learn self * 0.6) 0.05)
    else (p_slip self, p_learn self)
  else (p_slip self, p_learn self).

Definition adjusted_p_slip (self : BKTModel) (d : option string) : Q :=
  fst (adjust_parameters self d).
Definition adjusted_p_learn (self : BKTModel) (d : option string) : Q :=
  snd (adjust_parameters self d).

(** Lines 210-221: numerator and denominator of Bayes' rule. *)
Definition bayes_numerator (current_mastery : Q) (is_correct : bool) (p_slip : Q) : Q :=
  if is_correct then current_mastery * (1 - p_slip)
  else current_mastery * p_slip.

Definition bayes_denominator (current_mastery : Q) (is_correct : bool)
    (p_slip p_guess : Q) : Q :=
  if is_correct then
    current_mastery * (1 - p_slip) + (1 - current_mastery) * p_guess
  else
    current_mastery * p_slip + (1 - current_mastery) * (1 - p_guess).

(** Line 224: [numerator / denominator if denominator > 0 else current_mastery]. *)
Definition p_known_given_response (current_mastery : Q) (is_correct : bool)
    (p_slip p_guess : Q) : Q :=
  let numerator := bayes_numerator current_mastery is_correct p_slip in
  let denominator := bayes_denominator current_mastery is_correct p_slip p_guess in
  if Qltb 0 denominator then numerator / denominator else current_mastery.

Definition update_mastery (self : BKTModel) (current_mastery : Q)
    (is_correct : bool) (question_difficulty : option string) : Q :=
  let '(p_slip, p_learn) := adjust_parameters self question_difficulty in
  let p_guess := p_guess self in
  let posterior := p_known_given_response current_mastery is_correct p_slip p_guess in
  let new_mastery := posterior + (1 - posterior) * p_learn in
  py_min (py_max new_mastery 0.0) 1.0.

(** The denominator that a call of [update_mastery] computes. *)
Definition update_denominator (self : BKTModel) (current_mastery : Q)
    (is_correct : bool) (question_difficulty : option string) : Q :=
  bayes_denominator current_mastery is_correct
    (adjusted_p_slip self question_difficulty) (p_guess self).

(** ** [update_mastery] on binary64 numbers

    Lines 193-230 once more, with the IEEE 754 binary64 operations that
    CPython uses for [float], rounding to nearest. *)

Set Warnings "-inexact-float".

Module Binary64.

Record BKTModel : Type := mkBKTModel {
  p_init : float;
  p_learn : float;
  p_slip : float;
  p_guess : float
}.

Definition default_model : BKTModel := mkBKTModel 0.3 0.2 0.1 0.25.

Definition py_min (a b : float) : float := if (b <? a)%float then b else a.
Definition py_max (a b : float) : float := if (a <? b)%float then b else a.

Definition adjust_parameters (self : BKTModel) (question_difficulty : option string)
  : float * float :=
  if truthy question_difficulty then
    if bool_decide (question_difficulty = Some "hard"%string) then
      (py_min (p_slip self * 1.5) 0.2, py_min (p_learn self * 1.2) 0.3)%float
    else if bool_decide (question_difficulty = Some "easy"%string) then
      (py_max (p_slip self * 0.7) 0.05, py_max (p_learn self * 0.8) 0.1)%float
    else if bool_decide (question_difficulty = Some "very_easy"%string) then
      (py_max (p_slip self * 0.5) 0.03, py_max (p_learn self * 0.6) 0.05)%float
    else (p_slip self, p_learn self)
  else (p_slip self, p_learn self).

Definition update_mastery (self : BKTModel) (current_mastery : float)
    (is_correct : bool) (question_difficulty : option string) : float :=
  let '(p_slip, p_learn) := adjust_parameters self question_difficulty in
  let p_guess := p_guess self in
  let numerator :=
    (if is_correct then current_mastery * (1 - p_slip)
     else current_mastery * p_slip)%float in
  let denominator :=
    (if is_correct then
       current_mastery * (1 - p_slip) + (1 - current_mastery) * p_guess
     else
       current_mastery * p_slip + (1 - current_mastery) * (1 - p_guess))%float in
  let p_known_given_response :=
    (if 0 <? denominator then numerator / denominator else current_mastery)%float in
  let new_mastery :=
    (p_known_given_response + (1 - p_known_given_response) * p_learn)%float in
  py_min (py_max new_mastery 0.0) 1.0.

End Binary64.

(** ** The update rule as the specification words it

    The specification describes [update] over the difficulty levels
    [very_easy], [easy], [medium], [hard] and an absent level, with
    mathematical [min], [max] and [clamp]. *)

Inductive Difficulty : Type := very_easy | easy | medium | hard | absent.

Definition difficulty_arg (d : Difficulty) : option string :=
  match d with
  | very_easy => Some "very_easy"%string
  | easy => Some "easy"%string
  | medium => Some "medium"%string
  | hard => Some "hard"%string
  | absent => None
  end.

Definition spec_p_slip (self : BKTModel) (d : Difficulty) : Q :=
  match d with
  | hard => Qmin (p_slip self * 1.5) 0.2
  | easy => Qmax (p_slip self * 0.7) 0.05
  | very_easy => Qmax (p_slip self * 0.5) 0.03
  | medium | absent => p_slip self
  end.

Definition spec_p_learn (self : BKTModel) (d : Difficulty) : Q :=
  match d with
  | hard => Qmin (p_learn self * 1.2) 0.3
  | easy => Qmax (p_learn self * 0.8) 0.1
  | very_easy => Qmax (p_learn self * 0.6) 0.05
  | medium | absent => p_learn self
  end.

Definition spec_denominator (current : Q) (is_correct : bool) (p_slip' p_guess : Q) : Q :=
  if is_correct then current * (1 - p_slip') + (1 - current) * p_guess
  else current * p_slip' + (1 - current) * (1 - p_guess).

Definition spec_posterior (current : Q) (is_correct : bool) (p_slip' p_guess : Q) : Q :=
  if is_correct then
    (current * (1 - p_slip')) / (current * (1 - p_slip') + (1 - current) * p_guess)
  else
    (current * p_slip') / (current * p_slip' + (1 - current) * (1 - p_guess)).

Definition spec_clamp (x lo hi : Q) : Q := Qmin (Qmax x lo) hi.

Definition spec_update (self : BKTModel) (current : Q) (is_correct : bool)
    (d : Difficulty) : Q :=
  let posterior := spec_posterior current is_correct (spec_p_slip self d) (p_guess self) in
  spec_clamp (posterior + (1 - posterior) * spec_p_learn self d) 0 1.

(** ** Questions and dicts *)

(** A question record. [q_id], [q_skill] and [q_difficulty] are the keys the
    selection code reads with [q.get]; [q_text] stands for the rest of the
    record, which takes part in the equality test [q not in selected]. *)
Record Question : Type := mkQuestion {
  q_id : option string;
  q_text : string;
  q_skill : option string;
  q_difficulty : option string
}.

#[global] Instance Question_eq_dec : EqDecision Question.
Proof. solve_decision. Defined.

(** [d.get(k)] on the item list of a dict. *)
Fixpoint dict_get {V : Type} (d : list (string * V)) (k : string) : option V :=
  match d with
  | [] => None
  | (k', v) :: d' => if String.eqb k' k then Some v else dict_get d' k
  end.

(** [min(seq, key=key)]: the first element whose key is minimal; [None] for
    an empty sequence (the [default=None] of the second call site). *)
Fixpoint min_by {A : Type} (key : A -> Q) (best : A) (rest : list A) : A :=
  match rest with
  | [] => best
  | x :: rest' => min_by key (if Qltb (key x) (key best) then x else best) rest'
  end.

Definition py_min_by {A : Type} (key : A -> Q) (seq : list A) : option A :=
  match seq with
  | [] => None
  | x :: rest => Some (min_by key x rest)
  end.

(** [random.choice] on the non-empty sequence [x :: xs], with draw [rnd]. *)
Definition random_choice {A : Type} (rnd : nat) (x : A) (xs : list A) : A :=
  nth (rnd mod S (length xs)) (x :: xs) x.

(** ** String formatting *)

(** Rounding to the nearest integer, ties to even. *)
Definition round_half_even (q : Q) : Z :=
  let f := Qfloor q in
  match (q - inject_Z f ?= 0.5)%Q with
  | Lt => f
  | Gt => (f + 1)%Z
  | Eq => if Z.even f then f else (f + 1)%Z
  end.

(** The format specification [:.2f], on the exact rational: sign, integer
    part, and two decimals rounded to nearest with ties to even. *)
Definition format_2f (x : Q) : string :=
  let cents := round_half_even (Qabs x * 100) in
  (if Qltb x 0 then "-" else EmptyString) +:+ pretty (cents / 100)%Z +:+ "." +:+
  (if (cents mod 100 <? 10)%Z then "0" else EmptyString) +:+ pretty (cents mod 100)%Z.

(** ** [BKTModel.select_next_question] *)

(** Lines 257-261: the exclusion filter runs only for a non-empty
    [exclude_ids]. *)
Definition filter_excluded (available_questions : list Question)
    (exclude_ids : option (list string)) : list Question :=
  match exclude_ids with
  | Some (i :: ids) =>
      filter (fun q => q_id q ∉ (Some <$> i :: ids)) available_questions
  | _ => available_questions
  end.

(** Lines 267-271. *)
Definition weak_skills (skill_masteries : list (string * Q)) (threshold : Q)
  : list (string * Q) :=
  filter (fun sm => Qltb sm.2 threshold = true) skill_masteries.

(** Line 275: [min(weak_skills.keys(), key=lambda k: weak_skills[k])]. *)
Definition target_skill_of (weak : list (string * Q)) : option string :=
  py_min_by (fun k => default 0 (dict_get weak k)) weak.*1.

(** Lines 288-296. *)
Definition preferred_difficulties_for (mastery : Q) : list string :=
  if Qltb mastery 0.3 then ["very_easy"; "easy"]%string
  else if Qltb mastery 0.6 then ["easy"; "medium"]%string
  else ["medium"; "hard"]%string.

(** [q.get('skill', 'unknown')]. *)
Definition skill_or_unknown (q : Question) : string :=
  default "unknown"%string (q_skill q).

(** The grouping loop shared by both selectors (bkt_model.py 315-320,
    assessment.py 274-279): a dict from skill to the questions carrying it,
    keys in order of first appearance. *)
Fixpoint group_append (skill : string) (q : Question)
    (groups : list (string * list Question)) : list (string * list Question) :=
  match groups with
  | [] => [(skill, [q])]
  | (k, qs) :: rest =>
      if String.eqb k skill then (k, qs ++ [q]) :: rest
      else (k, qs) :: group_append skill q rest
  end.

Definition group_by_skill (questions : list Question)
  : list (string * list Question) :=
  foldl (fun groups q => group_append (skill_or_unknown q) q groups) [] questions.

Definition reason_targeting_with_difficulty
    (target_skill : string) (mastery : Q) (question : Question) : string :=
  "Targeting weak skill: " +:+ target_skill +:+ " (mastery: " +:+
  format_2f mastery +:+ ") with " +:+ default "medium"%string (q_difficulty question) +:+
  " difficulty".

Definition reason_targeting (target_skill : string) (mastery : Q) : string :=
  "Targeting weak skill: " +:+ target_skill +:+ " (mastery: " +:+
  format_2f mastery +:+ ")".

Definition reason_balancing (least_practiced : string) (mastery : Q) : string :=
  "Balancing skill exposure: " +:+ least_practiced +:+ " (mastery: " +:+
  format_2f mastery +:+ ")".

Definition reason_random : string :=
  "Random selection (all skills above threshold or no skill match)".

(** Lines 313-339: strategies 2 and 3, on the filtered pool [q0 :: qs]. *)
Definition select_by_exploration (skill_masteries : list (string * Q))
    (q0 : Question) (qs : list Question) (rnd : nat) : option Question * string :=
  let available_questions := q0 :: qs in
  let skill_groups := group_by_skill available_questions in
  let fallback := (Some (random_choice rnd q0 qs), reason_random) in
  if bool_decide (1 < length skill_groups)%nat then
    match skill_masteries with
    | [] => fallback
    | _ :: _ =>
        let least_practiced :=
          py_min_by (fun s => default 0 (dict_get skill_masteries s))
            (filter (fun s => is_Some (dict_get skill_masteries s)) skill_groups.*1) in
        match least_practiced with
        | Some s =>
            if negb (String.eqb s EmptyString) then
              match dict_get skill_groups s with
              | Some (g0 :: gs) =>
                  let question := random_choice rnd g0 gs in
                  let mastery := default 0 (dict_get skill_masteries s) in
                  (Some question, reason_balancing s mastery)
              | _ => fallback
              end
            else fallback
        | None => fallback
        end
    end
  else fallback.

(** Lines 273-311: strategy 1, returning [None] when it falls through. *)
Definition select_weak_skill (weak : list (string * Q))
    (available_questions : list Question) (rnd : nat)
  : option (option Question * string) :=
  match target_skill_of weak with
  | Some target_skill =>
      let matching_questions :=
        filter (fun q => q_skill q = Some target_skill) available_questions in
      match matching_questions with
      | m0 :: ms =>
          let mastery := default 0 (dict_get weak target_skill) in
          let preferred_difficulties := preferred_difficulties_for mastery in
          let preferred_questions :=
            filter (fun q => q_difficulty q ∈ (Some <$> preferred_difficulties))
              matching_questions in
          match preferred_questions with
          | p0 :: ps =>
              let question := random_choice rnd p0 ps in
              Some (Some question,
                    reason_targeting_with_difficulty target_skill mastery question)
          | [] =>
              let question := random_choice rnd m0 ms in
              Some (Some question, reason_targeting target_skill mastery)
          end
      | [] => None
      end
  | None => None
  end.

Definition select_next_question (self : BKTModel)
    (skill_masteries : list (string * Q)) (available_questions : list Question)
    (threshold difficulty_weight : Q) (exclude_ids : option (list string))
    (rnd : nat) : option Question * string :=
  match available_questions with
  | [] => (None, "No questions available"%string)
  | _ :: _ =>
      match filter_excluded available_questions exclude_ids with
      | [] => (None, "No questions available after filtering"%string)
      | q0 :: qs =>
          match select_weak_skill (weak_skills skill_masteries threshold)
                  (q0 :: qs) rnd with
          | Some decision => decision
          | None => select_by_exploration skill_masteries q0 qs rnd
          end
      end
  end.

(** ** Reading the strategy off the reason string *)

Definition is_step1_reason (reason : string) : Prop :=
  exists rest, reason = ("Targeting weak skill: " +:+ rest)%string.
Definition is_step2_reason (reason : string) : Prop :=
  exists rest, reason = ("Balancing skill exposure: " +:+ rest)%string.
Definition is_step3_reason (reason : string) : Prop :=
  reason = "Random selection (all skills above threshold or no skill match)"%string.

(** The preferred difficulty band as the specification words it. *)
Definition spec_preferred_band (m : Q) (d : string) : Prop :=
  (m < 0.3 /\ (d = "very_easy" \/ d = "easy"))%string \/
  (0.3 <= m /\ m < 0.6 /\ (d = "easy" \/ d = "medium"))%string \/
  (0.6 <= m /\ (d = "medium" \/ d = "hard"))%string.

(** ** [select_assessment_questions] *)

(** The sort key of lines 288-293 and 304-309: the difficulty rank, with 2 for
    a missing or unknown difficulty. *)
Definition difficulty_rank (q : Question) : Z :=
  let d := default "medium"%string (q_difficulty q) in
  if String.eqb d "very_easy" then 0
  else if String.eqb d "easy" then 1
  else if String.eqb d "medium" then 2
  else if String.eqb d "hard" then 3
  else 2.

(** [list.sort(key=...)] is stable: equal keys keep their order. *)
Fixpoint insert_by_rank (x : Question) (l : list Question) : list Question :=
  match l with
  | [] => [x]
  | y :: l' =>
      if (difficulty_rank x <=? difficulty_rank y)%Z then x :: y :: l'
      else y :: insert_by_rank x l'
  end.

Definition sort_by_difficulty (l : list Question) : list Question :=
  foldr insert_by_rank [] l.

(** The extended slice [l[::step]] for [step >= 1]; [skip] counts the
    elements to pass over before the next one taken. *)
Fixpoint slice_step_from {A : Type} (step skip : nat) (l : list A) : list A :=
  match l with
  | [] => []
  | x :: l' =>
      match skip with
      | O => x :: slice_step_from step (step - 1) l'
      | S k => slice_step_from step k l'
      end
  end.

Definition slice_step {A : Type} (step : nat) (l : list A) : list A :=
  slice_step_from step 0 l.

(** The slice [l[:n]] for an integer [n]; a negative [n] counts from the
    end. *)
Definition py_take {A : Type} (n : Z) (l : list A) : list A :=
  if (0 <=? n)%Z then take (Z.to_nat n) l
  else take (length l - Z.to_nat (- n)) l.

(** [x[i], x[j] = x[j], x[i]]. *)
Definition swap {A : Type} (x : list A) (i j : nat) : list A :=
  match x !! i, x !! j with
  | Some xi, Some xj => <[j:=xi]> (<[i:=xj]> x)
  | _, _ => x
  end.

(** [random.shuffle]: for [i] from [len(x) - 1] down to 1, swap [x[i]] with
    [x[j]] for a drawn [j <= i]. [rnd i] is the draw made at index [i]. *)
Fixpoint shuffle_from {A : Type} (rnd : nat -> nat) (i : nat) (x : list A) : list A :=
  match i with
  | O => x
  | S i' => shuffle_from rnd i' (swap x i (rnd i mod (i + 1)))
  end.

Definition shuffle {A : Type} (rnd : nat -> nat) (x : list A) : list A :=
  shuffle_from rnd (length x - 1) x.

(** Lines 286-297: each group sorted in place. *)
Definition sort_groups (skills : list (string * list Question))
  : list (string * list Question) :=
  (fun g => (g.1, sort_by_difficulty g.2)) <$> skills.

(** Lines 296-297, for one sorted group. *)
Definition pick_from_group (questions_per_skill : Z) (skill_questions : list Question)
  : list Question :=
  let step := Z.max 1 (Z.of_nat (length skill_questions) / questions_per_skill) in
  take (Z.to_nat questions_per_skill) (slice_step (Z.to_nat step) skill_questions).

(** Lines 281-297: the first pass over the sorted groups. *)
Definition first_pass (questions_per_skill : Z)
    (skills : list (string * list Question)) : list Question :=
  concat ((fun g => pick_from_group questions_per_skill g.2) <$> skills).

(** Lines 299-312: the fill from the questions not yet selected. *)
Definition fill_remaining (count : Z) (skills : list (string * list Question))
    (selected : list Question) : list Question :=
  if bool_decide (Z.of_nat (length selected) < count)%Z then
    let remaining := filter (fun q => q ∉ selected) (concat skills.*2) in
    let remaining := sort_by_difficulty remaining in
    selected ++ py_take (count - Z.of_nat (length selected)) remaining
  else selected.

(** The selection before the final shuffle, for a non-empty pool. *)
Definition assessment_selection (questions : list Question) (count : Z)
  : list Question :=
  let count := Z.min count (Z.of_nat (length questions)) in
  let skills := group_by_skill questions in
  let skills_count := Z.of_nat (length skills) in
  let questions_per_skill := Z.max 1 (count / skills_count) in
  let skills := sort_groups skills in
  let selected := first_pass questions_per_skill skills in
  let selected := fill_remaining count skills selected in
  py_take count selected.

Definition select_assessment_questions (questions : list Question) (count : Z)
    (rnd : nat -> nat) : list Question :=
  match questions with
  | [] => []
  | _ :: _ => shuffle rnd (assessment_selection questions count)
  end.

(** ** [BKTModel.analyze_assessment_results] *)

(** An answer record as [submit_assessment_answer] stores it; [a_is_correct]
    is the key read with [a.get('is_correct', False)]. *)
Record Answer : Type := mkAnswer {
  a_user_answer : string;
  a_is_correct : option bool;
  a_timestamp : string
}.

Definition answer_correct (a : Answer) : bool := default false (a_is_correct a).

(** [(part / whole) * 100 if whole > 0 else 0]. *)
Definition percentage_of (part whole : nat) : Q :=
  if (0 <? whole)%nat then
    (inject_Z (Z.of_nat part) / inject_Z (Z.of_nat whole)) * 100
  else 0.

Record SkillAnalysis : Type := mkSkillAnalysis {
  strengths : list string;
  weaknesses : list string;
  needs_practice : list string
}.

(** Lines 67-77: one pass over the items, appending to one of three lists. *)
Definition classify_skill (acc : SkillAnalysis) (item : string * Q) : SkillAnalysis :=
  let '(skill, mastery) := item in
  if negb (Qltb mastery 0.75) then
    mkSkillAnalysis (strengths acc ++ [skill]) (weaknesses acc) (needs_practice acc)
  else if negb (Qltb 0.4 mastery) then
    mkSkillAnalysis (strengths acc) (weaknesses acc ++ [skill]) (needs_practice acc)
  else
    mkSkillAnalysis (strengths acc) (weaknesses acc) (needs_practice acc ++ [skill]).

Definition analyze_skills (skill_masteries : list (string * Q)) : SkillAnalysis :=
  foldl classify_skill (mkSkillAnalysis [] [] []) skill_masteries.

(** One entry of [performance_by_difficulty]. *)
Record DifficultyStats : Type := mkDifficultyStats {
  ds_total : nat;
  ds_correct : nat
}.

(** Lines 80-85. *)
Definition performance_init : list (string * DifficultyStats) :=
  [("very_easy"%string, mkDifficultyStats 0 0); ("easy"%string, mkDifficultyStats 0 0);
   ("medium"%string, mkDifficultyStats 0 0); ("hard"%string, mkDifficultyStats 0 0)].

(** Lines 90-93: the entry of [difficulty], when there is one, counts the
    answer. *)
Definition record_answer (difficulty : string) (correct : bool)
    (perf : list (string * DifficultyStats)) : list (string * DifficultyStats) :=
  (fun e : string * DifficultyStats =>
     if String.eqb e.1 difficulty then
       (e.1, mkDifficultyStats (S (ds_total e.2))
               (if correct then S (ds_correct e.2) else ds_correct e.2))
     else e) <$> perf.

(** Lines 87-93, for one answer. *)
Definition record_item (question_details : list (string * Question))
    (perf : list (string * DifficultyStats)) (item : string * Answer)
  : list (string * DifficultyStats) :=
  match dict_get question_details item.1 with
  | Some details =>
      record_answer (default "medium"%string (q_difficulty details))
        (answer_correct item.2) perf
  | None => perf
  end.

Definition performance_by_difficulty (answers : list (string * Answer))
    (question_details : list (string * Question)) : list (string * DifficultyStats) :=
  foldl (record_item question_details) performance_init answers.

(** [sum(values) / len(values) if values else 0], summed and divided
    exactly; in binary64 the quotient can leave the range of the values by
    one unit in the last place. *)
Definition overall_mastery_of (skill_masteries : list (string * Q)) : Q :=
  match skill_masteries with
  | [] => 0
  | _ :: _ =>
      foldl Qplus 0 skill_masteries.*2
      / inject_Z (Z.of_nat (length skill_masteries))
  end.

Record Score : Type := mkScore {
  score_correct : nat;
  score_total : nat;
  score_percentage : Q
}.

Record Analysis : Type := mkAnalysis {
  an_score : Score;
  an_skill_analysis : SkillAnalysis;
  an_difficulty_analysis : list (string * (DifficultyStats * Q));
  an_overall_mastery : Q
}.

Definition analyze_assessment_results (self : BKTModel)
    (skill_masteries : list (string * Q)) (answers : list (string * Answer))
    (question_details : list (string * Question)) : Analysis :=
  let total_questions := length answers in
  let correct_count := length (filter (fun a => answer_correct a = true) answers.*2) in
  let score_percentage := percentage_of correct_count total_questions in
  let performance := performance_by_difficulty answers question_details in
  mkAnalysis
    (mkScore correct_count total_questions score_percentage)
    (analyze_skills skill_masteries)
    ((fun e : string * DifficultyStats =>
        (e.1, (e.2, percentage_of (ds_correct e.2) (ds_total e.2)))) <$> performance)
    (overall_mastery_of skill_masteries).

(** ** [BKTModel.generate_learning_recommendations] *)

(** A recommended module. [r_recommended_duration] is the key that
    [generate_learning_path] adds afterwards. *)
Record Recommendation : Type := mkRecommendation {
  r_id : string;
  r_title : string;
  r_type : string;
  r_skill : string;
  r_mastery_level : string;
  r_priority : string;
  r_description : string;
  r_recommended_duration : option string
}.

(** [skill.replace('_', ' ')]. *)
Fixpoint replace_underscores (s : string) : string :=
  match s with
  | EmptyString => EmptyString
  | String c rest =>
      String (if Ascii.eqb c "_"%char then " "%char else c) (replace_underscores rest)
  end.

(** [sorted(items, key=lambda x: x[1])], a stable sort. *)
Fixpoint insert_by_mastery (x : string * Q) (l : list (string * Q)) : list (string * Q) :=
  match l with
  | [] => [x]
  | y :: l' =>
      if Qltb y.2 x.2 then y :: insert_by_mastery x l' else x :: y :: l'
  end.

Definition sort_by_mastery (l : list (string * Q)) : list (string * Q) :=
  foldr insert_by_mastery [] l.

(** Lines 138-171, for one skill. *)
Definition recommend (subject : string) (item : string * Q) : Recommendation :=
  let '(skill, mastery) := item in
  let name := replace_underscores skill in
  if Qltb mastery 0.4 then
    mkRecommendation (subject +:+ "_remedial_" +:+ skill)
      ("Building foundations in " +:+ name) "remedial" skill "basic" "high"
      ("Focus on fundamentals of " +:+ name +:+ " to build a solid foundation") None
  else if Qltb mastery 0.7 then
    mkRecommendation (subject +:+ "_practice_" +:+ skill)
      ("Practicing " +:+ name) "practice" skill "intermediate" "medium"
      ("Reinforce your understanding of " +:+ name +:+ " through targeted practice")
      None
  else
    mkRecommendation (subject +:+ "_advanced_" +:+ skill)
      ("Advanced " +:+ name) "advanced" skill "advanced" "low"
      ("Deepen your expertise in " +:+ name +:+ " with advanced concepts") None.

Definition generate_learning_recommendations (self : BKTModel)
    (skill_masteries : list (string * Q)) (subject : string) : list Recommendation :=
  recommend subject <$> sort_by_mastery skill_masteries.

(** ** [generate_learning_path] *)

(** Lines 354-360. *)
Definition add_duration (module : Recommendation) : Recommendation :=
  let duration :=
    if String.eqb (r_type module) "remedial" then "2 hours"%string
    else if String.eqb (r_type module) "practice" then "3 hours"%string
    else "4 hours"%string in
  mkRecommendation (r_id module) (r_title module) (r_type module) (r_skill module)
    (r_mastery_level module) (r_priority module) (r_description module)
    (Some duration).

(** [s.split()[0]] for a string without leading white space: the characters
    before the first blank. *)
Fixpoint first_word (s : string) : string :=
  match s with
  | EmptyString => EmptyString
  | String c rest =>
      if Ascii.eqb c " "%char then EmptyString else String c (first_word rest)
  end.

(** [int(s)] on a string of decimal digits; [None] where [int] raises. *)
Definition digit_of (c : ascii) : option Z :=
  let n := Z.of_N (Ascii.N_of_ascii c) in
  if ((48 <=? n) && (n <=? 57))%Z then Some (n - 48)%Z else None.

Fixpoint parse_digits (acc : Z) (s : string) : option Z :=
  match s with
  | EmptyString => Some acc
  | String c rest =>
      match digit_of c with
      | Some d => parse_digits (10 * acc + d) rest
      | None => None
      end
  end.

Definition py_int (s : string) : option Z :=
  match s with
  | EmptyString => None
  | _ => parse_digits 0 s
  end.

(** Line 363: the hours of one module; [None] where the code raises (a
    module without duration, or one that does not start with a number). *)
Definition module_hours (module : Recommendation) : option Z :=
  match r_recommended_duration module with
  | Some d => py_int (first_word d)
  | None => None
  end.

Fixpoint sum_hours (modules : list Recommendation) : option Z :=
  match modules with
  | [] => Some 0%Z
  | m :: rest =>
      match module_hours m, sum_hours rest with
      | Some h, Some t => Some (h + t)%Z
      | _, _ => None
      end
  end.

(** [', '.join(l)]. *)
Fixpoint join_comma (l : list string) : string :=
  match l with
  | [] => EmptyString
  | [x] => x
  | x :: rest => x +:+ ", " +:+ join_comma rest
  end.

(** [s or d]: the empty string is false. *)
Definition str_or (s d : string) : string :=
  if String.eqb s EmptyString then d else s.

(** The format specification [:.1%], on the exact rational: the product by
    100 is exact here, where CPython rounds it to binary64 before it picks
    the digit, so that the digit can differ when the product is a tie. *)
Definition format_1pct (x : Q) : string :=
  let tenths := round_half_even (Qabs x * 1000) in
  (if Qltb x 0 then "-" else EmptyString) +:+ pretty (tenths / 10)%Z +:+ "." +:+
  pretty (tenths mod 10)%Z +:+ "%".

Record LearningPath : Type := mkLearningPath {
  lp_subject : string;
  lp_strengths : list string;
  lp_areas_for_improvement : list string;
  lp_estimated_completion_time : string;
  lp_modules : list Recommendation;
  lp_recommendation_reason : string;
  lp_performance_by_difficulty : list (string * (DifficultyStats * Q));
  lp_overall_score : Score
}.

(** [None] stands for an exception raised while summing the hours. *)
Definition generate_learning_path (skill_masteries : list (string * Q))
    (answers : list (string * Answer)) (question_details : list (string * Question))
    (subject : string) : option LearningPath :=
  let bkt := default_model in
  let analysis := analyze_assessment_results bkt skill_masteries answers question_details in
  let modules := generate_learning_recommendations bkt skill_masteries subject in
  let modules := add_duration <$> modules in
  match sum_hours modules with
  | Some total_hours =>
      Some (mkLearningPath subject
              (strengths (an_skill_analysis analysis))
              (weaknesses (an_skill_analysis analysis))
              (pretty total_hours +:+ " hours")
              modules
              ("This personalized learning path is designed based on your assessment results. "
               +:+ "You showed strong understanding in "
               +:+ str_or (join_comma (strengths (an_skill_analysis analysis))) "some areas"
               +:+ " and need more practice in "
               +:+ str_or (join_comma (weaknesses (an_skill_analysis analysis))) "a few topics"
               +:+ ". Overall mastery: " +:+ format_1pct (an_overall_mastery analysis)
               +:+ ".")
              (an_difficulty_analysis analysis)
              (an_score analysis))
  | None => None
  end.

(** ** The assessment session: [submit_assessment_answer] *)

(** The outcome of a request handler: a response, an [HTTPException] with
    its status code and detail, or another Python exception. *)
Inductive Outcome (A : Type) : Type :=
  | Ok (response : A)
  | HTTPError (status_code : Z) (detail : string)
  | Raised (exception : string).
Arguments Ok {A} response.
Arguments HTTPError {A} status_code detail.
Arguments Raised {A} exception.

(** [d[k] = v] on the item list of a dict: an existing key keeps its place. *)
Fixpoint dict_set {V : Type} (d : list (string * V)) (k : string) (v : V)
  : list (string * V) :=
  match d with
  | [] => [(k, v)]
  | (k', v') :: d' =>
      if String.eqb k' k then (k', v) :: d' else (k', v') :: dict_set d' k v
  end.

(** [l[i]] for an integer index: a negative index counts from the end;
    [None] where Python raises [IndexError]. *)
Definition py_list_get {A : Type} (l : list A) (i : Z) : option A :=
  if (0 <=? i)%Z then l !! Z.to_nat i
  else if (0 <=? Z.of_nat (length l) + i)%Z then l !! Z.to_nat (Z.of_nat (length l) + i)
  else None.

(** A question document as the handlers read it: the keys of [Question] and
    the keys [text], [options] and [correct_answer]. *)
Record StoredQuestion : Type := mkStoredQuestion {
  sq_fields : Question;
  sq_text : option string;
  sq_options : option (list string);
  sq_correct_answer : option string
}.

(** The assessment document written by [start_assessment]. *)
Record Assessment : Type := mkAssessment {
  as_assessment_id : string;
  as_user_id : string;
  as_subject : string;
  as_questions : list string;
  as_current_index : Z;
  as_answers : list (string * Answer);
  as_skill_masteries : list (string * Q);
  as_status : string;
  as_created_at : string;
  as_updated_at : string;
  as_completed_at : option string
}.

Record AssessmentAnswerRequest : Type := mkAssessmentAnswerRequest {
  req_assessment_id : string;
  req_question_id : string;
  req_answer : string
}.

Record NextQuestion : Type := mkNextQuestion {
  nq_id : string;
  nq_text : string;
  nq_options : list string;
  nq_skill : option string
}.

Record AnswerResponse : Type := mkAnswerResponse {
  resp_is_correct : bool;
  resp_correct_answer : string;
  resp_skill : string;
  resp_assessment_id : string;
  resp_is_complete : bool;
  resp_current_question_index : option Z;
  resp_total_questions : option nat;
  resp_next_question : option NextQuestion;
  resp_message : option string
}.

(** Lines 152-172: the response built after the assessment was saved. *)
Definition answer_response (find_question : string -> option StoredQuestion)
    (request : AssessmentAnswerRequest) (assessment : Assessment)
    (is_correct : bool) (correct_answer skill : string) (is_complete : bool)
  : Outcome AnswerResponse :=
  if is_complete then
    Ok (mkAnswerResponse is_correct correct_answer skill (req_assessment_id request)
          true None None None (Some "Assessment complete!"%string))
  else
    match py_list_get (as_questions assessment) (as_current_index assessment) with
    | None => Raised "IndexError"
    | Some next_question_id =>
        match find_question next_question_id with
        | None => Raised "TypeError"
        | Some next_question =>
            match q_id (sq_fields next_question), sq_text next_question with
            | Some id, Some text =>
                Ok (mkAnswerResponse is_correct correct_answer skill
                      (req_assessment_id request) false
                      (Some (as_current_index assessment))
                      (Some (length (as_questions assessment)))
                      (Some (mkNextQuestion id text
                               (default [] (sq_options next_question))
                               (q_skill (sq_fields next_question))))
                      None)
            | _, _ => Raised "KeyError"
            end
        end
    end.

(** [submit_assessment_answer]. [assessment] is what [find_one] returns for
    the assessment id, [find_question] the lookup of a question by id,
    [normalize] stands for [s.strip().lower()], and the three time stamps
    are the values of the three [datetime.utcnow().isoformat()] calls. The
    first component of the result is the document passed to [update_one],
    when the handler gets that far. *)
Definition submit_assessment_answer (normalize : string -> string)
    (assessment : option Assessment)
    (find_question : string -> option StoredQuestion)
    (request : AssessmentAnswerRequest) (t_answer t_completed t_updated : string)
  : option Assessment * Outcome AnswerResponse :=
  match assessment with
  | None => (None, HTTPError 404 "Assessment not found")
  | Some assessment =>
      if negb (String.eqb (as_status assessment) "in_progress") then
        (None, HTTPError 400 "Assessment is already complete")
      else
        match find_question (req_question_id request) with
        | None => (None, HTTPError 404 "Question not found")
        | Some question =>
            let current_index := as_current_index assessment in
            let questions := as_questions assessment in
            if (Z.of_nat (length questions) <=? current_index)%Z then
              (None, HTTPError 400 "Invalid question for this assessment step")
            else
              match py_list_get questions current_index with
              | None => (None, Raised "IndexError")
              | Some expected =>
                  if negb (String.eqb expected (req_question_id request)) then
                    (None, HTTPError 400 "Invalid question for this assessment step")
                  else
                    match sq_correct_answer question with
                    | None => (None, Raised "KeyError")
                    | Some correct_answer =>
                        let is_correct :=
                          String.eqb (normalize (req_answer request))
                            (normalize correct_answer) in
                        let skill := skill_or_unknown (sq_fields question) in
                        let difficulty :=
                          default "medium"%string (q_difficulty (sq_fields question)) in
                        let current_mastery :=
                          default (initialize_skill default_model (Some skill))
                            (dict_get (as_skill_masteries assessment) skill) in
                        let new_mastery :=
                          update_mastery default_model current_mastery is_correct
                            (Some difficulty) in
                        let skill_masteries :=
                          dict_set (as_skill_masteries assessment) skill new_mastery in
                        let answers :=
                          dict_set (as_answers assessment) (req_question_id request)
                            (mkAnswer (req_answer request) (Some is_correct) t_answer) in
                        let new_index := (current_index + 1)%Z in
                        let is_complete :=
                          (Z.of_nat (length questions) <=? new_index)%Z in
                        let saved :=
                          mkAssessment (as_assessment_id assessment)
                            (as_user_id assessment) (as_subject assessment)
                            questions new_index answers skill_masteries
                            (if is_complete then "completed"%string
                             else as_status assessment)
                            (as_created_at assessment) t_updated
                            (if is_complete then Some t_completed
                             else as_completed_at assessment) in
                        (Some saved,
                         answer_response find_question request saved is_correct
                           correct_answer skill is_complete)
                    end
              end
        end
  end.

(** The state of an assessment between two requests: in progress with the
    index inside the question list, or completed with the index at its end;
    there are never more answers than questions asked, every answered id is
    one of the questions already asked, and every mastery is a probability. *)
Definition assessment_invariant (a : Assessment) : Prop :=
  ((as_status a = "in_progress"%string /\
    (0 <= as_current_index a < Z.of_nat (length (as_questions a)))%Z) \/
   (as_status a = "completed"%string /\
    as_current_index a = Z.of_nat (length (as_questions a)) /\
    is_Some (as_completed_at a))) /\
  (forall k, k ∈ (as_answers a).*1 ->
     k ∈ take (Z.to_nat (as_current_index a)) (as_questions a)) /\
  (forall s v, (s, v) ∈ as_skill_masteries a -> 0 <= v <= 1).

(** ** The in-memory database ([database.py]) *)

(** The values held by documents. Python's [==] on them is decidable
    equality; [VStr s] is the string [s] as a value, [VZero] the integer
    [0] and [py_add] the operator [+], [None] where it raises. *)
Class PyValue (Value : Type) : Type := {
  value_eq_dec :: EqDecision Value;
  VStr : string -> Value;
  VZero : Value;
  py_add : Value -> Value -> option Value
}.

(** A document is a dict, kept as its items in insertion order. *)
Definition Document (Value : Type) : Type := list (string * Value).

(** [InMemoryDatabase]: the two dicts every [InMemoryCollection] shares with
    its database. *)
Record InMemoryDatabase (Value : Type) : Type := mkInMemoryDatabase {
  collections : list (string * list (Document Value));
  id_counters : list (string * Z)
}.
Arguments mkInMemoryDatabase {Value} collections id_counters.
Arguments collections {Value} self : rename.
Arguments id_counters {Value} self : rename.

(** [InMemoryDatabase.get_collection]: the database after the call; the
    collection object returned is the name together with this database. *)
Definition get_collection {Value : Type} (self : InMemoryDatabase Value)
    (name : string) : InMemoryDatabase Value :=
  match dict_get (collections self) name with
  | None =>
      mkInMemoryDatabase (dict_set (collections self) name [])
        (dict_set (id_counters self) name 1%Z)
  | Some _ => self
  end.

(** [_match_filter], the same in [InMemoryCollection] and [InMemoryCursor]. *)
Definition match_filter `{PyValue Value} (doc filter_dict : Document Value) : bool :=
  match filter_dict with
  | [] => true
  | _ =>
      forallb (fun item =>
                 match dict_get doc item.1 with
                 | None => false
                 | Some value => bool_decide (value = item.2)
                 end) filter_dict
  end.

(** Lines 86-88 and 95-97: a document without [_id] gets the counter of the
    collection as a string, and the counter moves on. [None] is the
    [KeyError] of a collection name without a counter. *)
Definition assign_id `{PyValue Value} (self : InMemoryDatabase Value)
    (name : string) (document : Document Value)
  : option (InMemoryDatabase Value * Document Value) :=
  match dict_get document "_id" with
  | Some _ => Some (self, document)
  | None =>
      match dict_get (id_counters self) name with
      | None => None
      | Some counter =>
          Some (mkInMemoryDatabase (collections self)
                  (dict_set (id_counters self) name (counter + 1)%Z),
                dict_set document "_id" (VStr (pretty counter)))
      end
  end.

(** [self.collections[self.name].append(document.copy())]. *)
Definition append_copy {Value : Type} (self : InMemoryDatabase Value)
    (name : string) (document : Document Value)
  : option (InMemoryDatabase Value) :=
  match dict_get (collections self) name with
  | None => None
  | Some docs =>
      Some (mkInMemoryDatabase
              (dict_set (collections self) name (docs ++ [document]))
              (id_counters self))
  end.

(** [insert_one]: the database after the call and, when it returns, the
    caller's document as the call leaves it with [inserted_id]. *)
Definition insert_one `{PyValue Value} (self : InMemoryDatabase Value)
    (name : string) (document : Document Value)
  : InMemoryDatabase Value * Outcome (Document Value * Value) :=
  match assign_id self name document with
  | None => (self, Raised "KeyError")
  | Some (self, document) =>
      match append_copy self name document with
      | None => (self, Raised "KeyError")
      | Some self' =>
          match dict_get document "_id" with
          | None => (self', Raised "KeyError")
          | Some inserted_id => (self', Ok (document, inserted_id))
          end
      end
  end.

(** The loop of [insert_many], with the documents already handled and their
    ids. *)
Fixpoint insert_many_loop `{PyValue Value} (self : InMemoryDatabase Value)
    (name : string) (documents handled : list (Document Value))
    (inserted_ids : list Value)
  : InMemoryDatabase Value * Outcome (list (Document Value) * list Value) :=
  match documents with
  | [] => (self, Ok (handled, inserted_ids))
  | doc :: documents =>
      match dict_get doc "_id" with
      | Some id =>
          match dict_get (collections self) name with
          | None => (self, Raised "KeyError")
          | Some docs =>
              insert_many_loop
                (mkInMemoryDatabase
                   (dict_set (collections self) name (docs ++ [doc]))
                   (id_counters self))
                name documents (handled ++ [doc]) (inserted_ids ++ [id])
          end
      | None =>
          match dict_get (id_counters self) name with
          | None => (self, Raised "KeyError")
          | Some counter =>
              let id := VStr (pretty counter) in
              let doc := dict_set doc "_id" id in
              let self :=
                mkInMemoryDatabase (collections self)
                  (dict_set (id_counters self) name (counter + 1)%Z) in
              match dict_get (collections self) name with
              | None => (self, Raised "KeyError")
              | Some docs =>
                  insert_many_loop
                    (mkInMemoryDatabase
                       (dict_set (collections self) name (docs ++ [doc]))
                       (id_counters self))
                    name documents (handled ++ [doc]) (inserted_ids ++ [id])
              end
          end
      end
  end.

Definition insert_many `{PyValue Value} (self : InMemoryDatabase Value)
    (name : string) (documents : list (Document Value))
  : InMemoryDatabase Value * Outcome (list (Document Value) * list Value) :=
  insert_many_loop self name documents [] [].

(** [find_one]: a copy of the first document that matches. *)
Definition find_one `{PyValue Value} (self : InMemoryDatabase Value)
    (name : string) (filter_dict : Document Value)
  : Outcome (option (Document Value)) :=
  match dict_get (collections self) name with
  | None => Raised "KeyError"
  | Some docs => Ok (List.find (fun doc => match_filter doc filter_dict) docs)
  end.

Record InMemoryCursor (Value : Type) : Type := mkInMemoryCursor {
  cursor_data : list (Document Value);
  cursor_index : Z
}.
Arguments mkInMemoryCursor {Value} cursor_data cursor_index.
Arguments cursor_data {Value} self : rename.
Arguments cursor_index {Value} self : rename.

(** [find]: [filter_dict or {}], then the cursor over the matching copies. *)
Definition find `{PyValue Value} (self : InMemoryDatabase Value)
    (name : string) (filter_dict : option (Document Value))
  : Outcome (InMemoryCursor Value) :=
  let filter_dict := default [] filter_dict in
  match dict_get (collections self) name with
  | None => Raised "KeyError"
  | Some docs =>
      Ok (mkInMemoryCursor
            (filter (fun doc => match_filter doc filter_dict = true) docs) 0)
  end.

(** [InMemoryCursor.to_list]: everything, or the slice [data[:length]]. *)
Definition to_list {Value : Type} (self : InMemoryCursor Value)
    (length : option Z) : list (Document Value) :=
  match length with
  | None => cursor_data self
  | Some length => py_take length (cursor_data self)
  end.

(** [doc.update(other)]. *)
Definition dict_update {V : Type} (doc other : list (string * V))
  : list (string * V) :=
  foldl (fun doc item => dict_set doc item.1 item.2) doc other.

(** The [$inc] loop on a document; [false] when [+] raises, which leaves
    the document as the loop changed it so far. *)
Fixpoint apply_inc `{PyValue Value} (doc inc : Document Value)
  : Document Value * bool :=
  match inc with
  | [] => (doc, true)
  | (key, value) :: inc =>
      match py_add (default VZero (dict_get doc key)) value with
      | None => (doc, false)
      | Some sum => apply_inc (dict_set doc key sum) inc
      end
  end.

(** The update argument: its keys [$set] and [$inc], when present. *)
Record Update (Value : Type) : Type := mkUpdate {
  upd_set : option (Document Value);
  upd_inc : option (Document Value)
}.
Arguments mkUpdate {Value} upd_set upd_inc.
Arguments upd_set {Value} u.
Arguments upd_inc {Value} u.

(** The loop of [update_one] over the documents of the collection, which
    are changed in place. *)
Fixpoint update_first `{PyValue Value} (docs : list (Document Value))
    (filter_dict : Document Value) (update : Update Value)
  : list (Document Value) * Outcome Z :=
  match docs with
  | [] => ([], Ok 0%Z)
  | doc :: docs =>
      if match_filter doc filter_dict then
        let doc :=
          match upd_set update with
          | Some fields => dict_update doc fields
          | None => doc
          end in
        match upd_inc update with
        | Some inc =>
            let '(doc, ok) := apply_inc doc inc in
            (doc :: docs, if ok then Ok 1%Z else Raised "TypeError")
        | None => (doc :: docs, Ok 1%Z)
        end
      else
        let '(docs, result) := update_first docs filter_dict update in
        (doc :: docs, result)
  end.

(** [update_one]: the database after the call and [modified_count]. *)
Definition update_one `{PyValue Value} (self : InMemoryDatabase Value)
    (name : string) (filter_dict : Document Value) (update : Update Value)
  : InMemoryDatabase Value * Outcome Z :=
  match dict_get (collections self) name with
  | None => (self, Raised "KeyError")
  | Some docs =>
      let '(docs, result) := update_first docs filter_dict update in
      (mkInMemoryDatabase (dict_set (collections self) name docs)
         (id_counters self), result)
  end.

(** [delete_many]: the database after the call and [deleted_count]. *)
Definition delete_many `{PyValue Value} (self : InMemoryDatabase Value)
    (name : string) (filter_dict : Document Value)
  : InMemoryDatabase Value * Outcome Z :=
  match dict_get (collections self) name with
  | None => (self, Raised "KeyError")
  | Some docs =>
      let original_count := length docs in
      let remaining :=
        filter (fun doc => match_filter doc filter_dict <> true) docs in
      (mkInMemoryDatabase (dict_set (collections self) name remaining)
         (id_counters self),
       Ok (Z.of_nat original_count - Z.of_nat (length remaining))%Z)
  end.

(** [count_documents]: [sum(1 for doc in ... if ...)]. *)
Definition count_documents `{PyValue Value} (self : InMemoryDatabase Value)
    (name : string) (filter_dict : Document Value) : Outcome Z :=
  match dict_get (collections self) name with
  | None => Raised "KeyError"
  | Some docs =>
      Ok (foldl Z.add 0%Z
            ((fun _ => 1%Z) <$>
             filter (fun doc => match_filter doc filter_dict = true) docs))
  end.

(** [_load_fallback_questions]: the questions of the file, each with its
    key as [id] when it has none. *)
Definition load_fallback_questions `{PyValue Value}
    (questions_data : list (string * Document Value)) : list (Document Value) :=
  (fun item =>
     match dict_get item.2 "id" with
     | Some _ => item.2
     | None => dict_set item.2 "id" (VStr item.1)
     end) <$> questions_data.

(** [InMemoryDatabase.__init__]. [questions_data] is the content of the
    first fallback file found; [None] when there is no file or loading it
    fails, which leaves the questions empty. *)
Definition new_database `{PyValue Value}
    (questions_data : option (list (string * Document Value)))
  : InMemoryDatabase Value :=
  mkInMemoryDatabase
    [("questions"%string, default [] (load_fallback_questions <$> questions_data));
     ("sessions"%string, []); ("attempts"%string, []); ("user_skills"%string, [])]
    [("questions"%string, 1%Z); ("sessions"%string, 1%Z); ("attempts"%string, 1%Z);
     ("user_skills"%string, 1%Z)].

(** Every collection has its id counter. *)
Definition counters_cover {Value : Type} (self : InMemoryDatabase Value) : Prop :=
  forall name, is_Some (dict_get (collections self) name) ->
               is_Some (dict_get (id_counters self) name).

(** The ids the collection has handed out or may hand out later do not
    occur yet: a stored [_id] that is the string of a number is the string
    of a number below the counter. *)
Definition ids_below_counter `{PyValue Value} (self : InMemoryDatabase Value)
    (name : string) : Prop :=
  forall docs counter doc n,
    dict_get (collections self) name = Some docs ->
    dict_get (id_counters self) name = Some counter ->
    doc ∈ docs -> dict_get doc "_id" = Some (VStr (pretty n)) ->
    (n < counter)%Z.

(** A small value type for examples: strings and integers. *)
Inductive Scalar : Type :=
  | SStr (s : string)
  | SInt (n : Z).

#[export] Instance Scalar_eq_dec : EqDecision Scalar.
Proof. solve_decision. Defined.

#[export] Instance Scalar_PyValue : PyValue Scalar := {
  VStr := SStr;
  VZero := SInt 0;
  py_add x y :=
    match x, y with
    | SInt a, SInt b => Some (SInt (a + b))
    | SStr a, SStr b => Some (SStr (a +:+ b))
    | _, _ => None
    end
}.

(** Each group is non-empty and holds questions of its own skill. *)
Definition groups_consistent (groups : list (string * list Question)) : Prop :=
  Forall (fun g => g.2 <> [] /\ Forall (fun q => skill_or_unknown q = g.1) g.2) groups.

(** * Properties of [update_mastery] *)

(** The default model on mastery 0.5: a correct answer gives
    0.45 / 0.575 = 18/23 as posterior and 19/23 after learning; an incorrect
    one gives 2/17 and 5/17; a hard question answered correctly 17/22 and
    91/110. *)
Example update_mastery_correct : update_mastery default_model 0.5 true None == 19 # 23.
Proof. reflexivity. Qed.

Example update_mastery_incorrect : update_mastery default_model 0.5 false None == 5 # 17.
Proof. reflexivity. Qed.

Example update_mastery_hard :
  update_mastery default_model 0.5 true (Some "hard"%string) == 91 # 110.
Proof. reflexivity. Qed.

Example update_mastery_unknown_difficulty :
  update_mastery default_model 0.5 true (Some "expert"%string)
  = update_mastery default_model 0.5 true None.
Proof. reflexivity. Qed.

Lemma Qltb_lt (x y : Q) : Qltb x y = true <-> x < y.
Proof.
  unfold Qltb. rewrite Qlt_alt. destruct (x ?= y); split; congruence.
Qed.

Lemma Qltb_ge (x y : Q) : Qltb x y = false <-> y <= x.
Proof.
  split.
  - intros H. apply Qnot_lt_le. intros Hlt. apply Qltb_lt in Hlt. congruence.
  - intros H. destruct (Qltb x y) eqn:E; [|reflexivity].
    apply Qltb_lt in E. lra.
Qed.

Lemma py_min_Qmin (a b : Q) : py_min a b = Qmin a b.
Proof.
  unfold py_min, Qltb, Qmin, GenericMinMax.gmin.
  rewrite <- (Qcompare_antisym a b). destruct (a ?= b); reflexivity.
Qed.

Lemma py_max_Qmax (a b : Q) : py_max a b = Qmax a b.
Proof.
  unfold py_max, Qltb, Qmax, GenericMinMax.gmax. destruct (a ?= b); reflexivity.
Qed.

(** Case analysis on every float comparison of the goal, innermost first. *)
Ltac qltb_cases :=
  repeat match goal with
  | |- context [Qltb ?x ?y] =>
      lazymatch x with context [Qltb _ _] => fail | _ => idtac end;
      lazymatch y with context [Qltb _ _] => fail | _ => idtac end;
      let E := fresh "E" in
      destruct (Qltb x y) eqn:E; [apply Qltb_lt in E | apply Qltb_ge in E]
  end.

Lemma clamp_range (x : Q) : 0 <= py_min (py_max x 0.0) 1.0 <= 1.
Proof. unfold py_min, py_max. qltb_cases; lra. Qed.

Lemma clamp_id (x : Q) : 0 <= x <= 1 -> py_min (py_max x 0.0) 1.0 == x.
Proof. intros H. unfold py_min, py_max. qltb_cases; lra. Qed.

Lemma clamp_mono (x y : Q) :
  x <= y -> py_min (py_max x 0.0) 1.0 <= py_min (py_max y 0.0) 1.0.
Proof. intros H. unfold py_min, py_max. qltb_cases; lra. Qed.

Lemma clamp_spec_clamp (x : Q) : py_min (py_max x 0.0) 1.0 == spec_clamp x 0 1.
Proof.
  unfold spec_clamp. rewrite <- py_min_Qmin, <- py_max_Qmax.
  unfold py_min, py_max. qltb_cases; lra.
Qed.

Lemma update_mastery_unfold (self : BKTModel) (c : Q) (b : bool) (d : option string) :
  update_mastery self c b d =
  let posterior :=
    p_known_given_response c b (adjusted_p_slip self d) (p_guess self) in
  py_min (py_max (posterior + (1 - posterior) * adjusted_p_learn self d) 0.0) 1.0.
Proof.
  unfold update_mastery, adjusted_p_slip, adjusted_p_learn.
  destruct (adjust_parameters self d); reflexivity.
Qed.

Lemma adjusted_p_slip_spec (self : BKTModel) (d : Difficulty) :
  adjusted_p_slip self (difficulty_arg d) = spec_p_slip self d.
Proof.
  destruct d; unfold adjusted_p_slip; cbn;
    rewrite ?py_min_Qmin, ?py_max_Qmax; reflexivity.
Qed.

Lemma adjusted_p_learn_spec (self : BKTModel) (d : Difficulty) :
  adjusted_p_learn self (difficulty_arg d) = spec_p_learn self d.
Proof.
  destruct d; unfold adjusted_p_learn; cbn;
    rewrite ?py_min_Qmin, ?py_max_Qmax; reflexivity.
Qed.

(** Any difficulty string other than the three adjusted levels, the empty
    string and a missing argument all leave the base parameters. *)
Lemma adjust_parameters_other (self : BKTModel) (d : option string) :
  d <> Some "hard"%string -> d <> Some "easy"%string ->
  d <> Some "very_easy"%string ->
  adjust_parameters self d = (p_slip self, p_learn self).
Proof.
  intros H1 H2 H3. unfold adjust_parameters.
  rewrite !bool_decide_eq_false_2 by assumption.
  destruct (truthy d); reflexivity.
Qed.

(** C1. [update_mastery] is the two-stage Bayesian filter of the
    specification: for every mastery in [0,1], every answer and every
    difficulty among very_easy, easy, medium, hard and absent, the adjusted
    slip and learning parameters are the clamped values the specification
    lists ([p_guess] is the instance's own), and whenever the Bayes
    denominator is positive the result is
    [clamp(posterior + (1 - posterior) * p_learn', 0, 1)] with the posterior
    given by Bayes' rule. *)
Theorem update_mastery_two_stage_filter
    (self : BKTModel) (current_mastery : Q) (is_correct : bool) (d : Difficulty) :
  0 <= current_mastery <= 1 ->
  adjusted_p_slip self (difficulty_arg d) = spec_p_slip self d /\
  adjusted_p_learn self (difficulty_arg d) = spec_p_learn self d /\
  (0 < spec_denominator current_mastery is_correct (spec_p_slip self d) (p_guess self) ->
   update_mastery self current_mastery is_correct (difficulty_arg d)
   == spec_update self current_mastery is_correct d).
Proof.
  intros _. split; [apply adjusted_p_slip_spec|].
  split; [apply adjusted_p_learn_spec|].
  intros Hden. rewrite update_mastery_unfold. cbv zeta.
  rewrite adjusted_p_slip_spec, adjusted_p_learn_spec.
  unfold spec_update. rewrite clamp_spec_clamp.
  unfold p_known_given_response.
  replace (bayes_denominator current_mastery is_correct (spec_p_slip self d) (p_guess self))
    with (spec_denominator current_mastery is_correct (spec_p_slip self d) (p_guess self))
    by reflexivity.
  apply Qltb_lt in Hden. rewrite Hden.
  destruct is_correct; reflexivity.
Qed.

Lemma update_mastery_two_stage_filter_witness :
  let self := default_model in
  0 <= 0.5 <= 1 /\
  0 < spec_denominator 0.5 true (spec_p_slip self hard) (p_guess self) /\
  update_mastery self 0.5 true (Some "hard"%string) == spec_update self 0.5 true hard.
Proof.
  assert (H : 0 <= 0.5 <= 1) by (split; discriminate).
  split; [exact H|]. split; [reflexivity|].
  apply (update_mastery_two_stage_filter default_model 0.5 true hard H).
  reflexivity.
Defined.

(** C2. Range invariant: for every mastery in [0,1], every answer and every
    difficulty argument (any string, or none), the result of
    [update_mastery] lies in [0,1]. *)
Theorem update_mastery_range
    (self : BKTModel) (current_mastery : Q) (is_correct : bool)
    (question_difficulty : option string) :
  0 <= current_mastery <= 1 ->
  0 <= update_mastery self current_mastery is_correct question_difficulty <= 1.
Proof.
  intros _. rewrite update_mastery_unfold. apply clamp_range.
Qed.

Lemma update_mastery_range_witness :
  0 <= 0.5 <= 1 /\
  0 <= update_mastery default_model 0.5 false (Some "easy"%string) <= 1.
Proof.
  assert (H : 0 <= 0.5 <= 1) by (split; discriminate).
  split; [exact H|].
  apply (update_mastery_range default_model 0.5 false (Some "easy"%string) H).
Defined.

(** ** The zero-denominator guard *)

Lemma p_known_given_response_fallback (c : Q) (b : bool) (s g : Q) :
  bayes_denominator c b s g <= 0 -> p_known_given_response c b s g = c.
Proof.
  intros H. unfold p_known_given_response. apply Qltb_ge in H. rewrite H.
  reflexivity.
Qed.

(** C3, as stated, fails: with [p_guess = 0], mastery 0 and a correct
    answer the denominator is exactly zero, yet the call returns
    [p_learn = 0.2], not the input 0. *)
Lemma zero_denominator_not_noop :
  let self := mkBKTModel 0.3 0.2 0.1 0 in
  update_denominator self 0 true None == 0 /\
  update_mastery self 0 true None == 0.2 /\
  ~ update_mastery self 0 true None == 0.
Proof.
  split; [reflexivity|]. split; [reflexivity|]. discriminate.
Qed.

(** C3, amended. Whenever the Bayes denominator is exactly zero, the
    posterior falls back to the unmodified input mastery and the learning
    transition and the clamp are still applied: the call returns
    [clamp(current + (1 - current) * p_learn', 0, 1)]. *)
Theorem zero_denominator_keeps_prior
    (self : BKTModel) (current_mastery : Q) (is_correct : bool)
    (question_difficulty : option string) :
  update_denominator self current_mastery is_correct question_difficulty == 0 ->
  p_known_given_response current_mastery is_correct
    (adjusted_p_slip self question_difficulty) (p_guess self) = current_mastery /\
  update_mastery self current_mastery is_correct question_difficulty =
  py_min (py_max (current_mastery +
                  (1 - current_mastery) * adjusted_p_learn self question_difficulty)
                 0.0) 1.0.
Proof.
  intros H. unfold update_denominator in H.
  assert (Hp : p_known_given_response current_mastery is_correct
                 (adjusted_p_slip self question_difficulty) (p_guess self)
               = current_mastery)
    by (apply p_known_given_response_fallback; lra).
  split; [exact Hp|].
  rewrite update_mastery_unfold. cbv zeta. rewrite Hp. reflexivity.
Qed.

Lemma zero_denominator_keeps_prior_witness :
  let self := mkBKTModel 0.3 0.2 0.1 0 in
  update_denominator self 0 true None == 0 /\
  update_mastery self 0 true None =
  py_min (py_max (0 + (1 - 0) * adjusted_p_learn self None) 0.0) 1.0.
Proof.
  assert (H : update_denominator (mkBKTModel 0.3 0.2 0.1 0) 0 true None == 0)
    by reflexivity.
  split; [exact H|].
  apply (zero_denominator_keeps_prior (mkBKTModel 0.3 0.2 0.1 0) 0 true None H).
Defined.

(** ** Full mastery *)

Lemma clamp_one (x : Q) : x == 1 -> py_min (py_max x 0.0) 1.0 == 1.
Proof. intros H. unfold py_min, py_max. qltb_cases; lra. Qed.

Lemma p_known_given_response_one (b : bool) (s g : Q) :
  p_known_given_response 1 b s g == 1.
Proof.
  unfold p_known_given_response, bayes_numerator, bayes_denominator.
  destruct b; qltb_cases; try reflexivity; field; lra.
Qed.

(** Mastery 1 is a fixed point of the update for every parameter choice. *)
Lemma update_mastery_one (self : BKTModel) (b : bool) (d : option string) :
  update_mastery self 1 b d == 1.
Proof.
  rewrite update_mastery_unfold. cbv zeta. apply clamp_one.
  rewrite p_known_given_response_one. ring.
Qed.

(** C10. Full mastery is absorbing: with base parameters [0 < p_slip < 1]
    and [p_guess < 1], for every answer and every difficulty argument,
    [update_mastery(1.0, is_correct, difficulty) = 1.0]. *)
Theorem full_mastery_absorbing
    (self : BKTModel) (is_correct : bool) (question_difficulty : option string) :
  0 < p_slip self < 1 -> p_guess self < 1 ->
  update_mastery self 1 is_correct question_difficulty == 1.
Proof. intros _ _. apply update_mastery_one. Qed.

Lemma full_mastery_absorbing_witness :
  0 < p_slip default_model < 1 /\ p_guess default_model < 1 /\
  update_mastery default_model 1 false (Some "hard"%string) == 1.
Proof.
  assert (H1 : 0 < p_slip default_model < 1) by (split; reflexivity).
  assert (H2 : p_guess default_model < 1) by reflexivity.
  split; [exact H1|]. split; [exact H2|].
  apply (full_mastery_absorbing default_model false (Some "hard"%string) H1 H2).
Defined.

(** ** Evidence ordering *)

Section EvidenceOrdering.
Variables (p s g : Q).
Hypothesis Hp : 0 <= p <= 1.
Hypothesis Hsg : s + g < 1.

(** A correct answer never lowers the posterior below the prior. *)
Lemma posterior_correct_ge : p <= p_known_given_response p true s g.
Proof.
  unfold p_known_given_response, bayes_numerator, bayes_denominator.
  qltb_cases; [|lra].
  apply Qle_shift_div_l; [assumption|].
  assert (H : 0 <= p * (1 - p) * (1 - s - g)).
  { apply Qmult_le_0_compat; [apply Qmult_le_0_compat|]; lra. }
  lra.
Qed.

(** An incorrect answer never raises it. *)
Lemma posterior_incorrect_le : p_known_given_response p false s g <= p.
Proof.
  unfold p_known_given_response, bayes_numerator, bayes_denominator.
  qltb_cases; [|lra].
  apply Qle_shift_div_r; [assumption|].
  assert (H : 0 <= p * (1 - p) * (1 - s - g)).
  { apply Qmult_le_0_compat; [apply Qmult_le_0_compat|]; lra. }
  lra.
Qed.

(** The two denominators add up to one, so one of them is positive. *)
Lemma bayes_denominators_sum :
  bayes_denominator p true s g + bayes_denominator p false s g == 1.
Proof. unfold bayes_denominator. ring. Qed.

Lemma posterior_correct_gt :
  0 < p -> p < 1 -> 0 < bayes_denominator p true s g ->
  p < p_known_given_response p true s g.
Proof.
  intros Hp0 Hp1 Hd. unfold p_known_given_response.
  pose proof Hd as Hd'. apply Qltb_lt in Hd'. rewrite Hd'.
  unfold bayes_numerator, bayes_denominator in *.
  apply Qlt_shift_div_l; [assumption|].
  assert (H : 0 < p * (1 - p) * (1 - s - g)).
  { apply Qmult_lt_0_compat; [apply Qmult_lt_0_compat|]; lra. }
  lra.
Qed.

Lemma posterior_incorrect_lt :
  0 < p -> p < 1 -> 0 < bayes_denominator p false s g ->
  p_known_given_response p false s g < p.
Proof.
  intros Hp0 Hp1 Hd. unfold p_known_given_response.
  pose proof Hd as Hd'. apply Qltb_lt in Hd'. rewrite Hd'.
  unfold bayes_numerator, bayes_denominator in *.
  apply Qlt_shift_div_r; [assumption|].
  assert (H : 0 < p * (1 - p) * (1 - s - g)).
  { apply Qmult_lt_0_compat; [apply Qmult_lt_0_compat|]; lra. }
  lra.
Qed.

(** Strictly inside the unit interval the two posteriors differ. *)
Lemma posterior_strict :
  0 < p -> p < 1 ->
  p_known_given_response p false s g < p_known_given_response p true s g.
Proof.
  intros Hp0 Hp1.
  pose proof bayes_denominators_sum as Hsum.
  pose proof posterior_correct_ge as Hc.
  pose proof posterior_incorrect_le as Hi.
  destruct (Qlt_le_dec 0 (bayes_denominator p true s g)) as [Hd|Hd].
  - pose proof (posterior_correct_gt Hp0 Hp1 Hd). lra.
  - assert (Hd' : 0 < bayes_denominator p false s g) by lra.
    pose proof (posterior_incorrect_lt Hp0 Hp1 Hd'). lra.
Qed.

(** With probabilities as parameters the posterior is a probability. *)
Lemma posterior_unit_interval (b : bool) :
  0 <= s -> 0 <= g -> 0 <= p_known_given_response p b s g <= 1.
Proof.
  intros Hs Hg. unfold p_known_given_response.
  destruct (Qltb 0 (bayes_denominator p b s g)) eqn:E; [|exact Hp].
  apply Qltb_lt in E. unfold bayes_numerator, bayes_denominator in *.
  assert (H1 : 0 <= p * s) by (apply Qmult_le_0_compat; lra).
  assert (H2 : 0 <= p * (1 - s)) by (apply Qmult_le_0_compat; lra).
  assert (H3 : 0 <= (1 - p) * g) by (apply Qmult_le_0_compat; lra).
  assert (H4 : 0 <= (1 - p) * (1 - g)) by (apply Qmult_le_0_compat; lra).
  destruct b; (split; [apply Qle_shift_div_l | apply Qle_shift_div_r]);
    try assumption; lra.
Qed.

End EvidenceOrdering.

(** The learning transition is monotone in the posterior when
    [p_learn <= 1], strictly so when [p_learn < 1]. *)
Lemma learning_transition_mono (x y l : Q) :
  l <= 1 -> x <= y -> x + (1 - x) * l <= y + (1 - y) * l.
Proof.
  intros Hl Hxy.
  assert (H : 0 <= (y - x) * (1 - l)) by (apply Qmult_le_0_compat; lra).
  lra.
Qed.

Lemma learning_transition_strict (x y l : Q) :
  l < 1 -> x < y -> x + (1 - x) * l < y + (1 - y) * l.
Proof.
  intros Hl Hxy.
  assert (H : 0 < (y - x) * (1 - l)) by (apply Qmult_lt_0_compat; lra).
  lra.
Qed.

Lemma learning_transition_unit_interval (x l : Q) :
  0 <= x <= 1 -> 0 <= l <= 1 -> 0 <= x + (1 - x) * l <= 1.
Proof.
  intros Hx Hl.
  assert (H1 : 0 <= (1 - x) * l) by (apply Qmult_le_0_compat; lra).
  assert (H2 : 0 <= (1 - x) * (1 - l)) by (apply Qmult_le_0_compat; lra).
  lra.
Qed.

Lemma clamp_strict (x y : Q) :
  x < y -> x < 1 -> 0 < y ->
  py_min (py_max x 0.0) 1.0 < py_min (py_max y 0.0) 1.0.
Proof. intros H1 H2 H3. unfold py_min, py_max. qltb_cases; lra. Qed.

Lemma adjust_parameters_hard (self : BKTModel) :
  adjust_parameters self (Some "hard"%string)
  = (py_min (p_slip self * 1.5) 0.2, py_min (p_learn self * 1.2) 0.3).
Proof. reflexivity. Qed.

Lemma adjust_parameters_easy (self : BKTModel) :
  adjust_parameters self (Some "easy"%string)
  = (py_max (p_slip self * 0.7) 0.05, py_max (p_learn self * 0.8) 0.1).
Proof. reflexivity. Qed.

Lemma adjust_parameters_very_easy (self : BKTModel) :
  adjust_parameters self (Some "very_easy"%string)
  = (py_max (p_slip self * 0.5) 0.03, py_max (p_learn self * 0.6) 0.05).
Proof. reflexivity. Qed.

Lemma adjust_parameters_none (self : BKTModel) :
  adjust_parameters self None = (p_slip self, p_learn self).
Proof. reflexivity. Qed.

(** The adjustment has four outcomes, whatever the difficulty string. *)
Lemma adjust_parameters_cases (self : BKTModel) (d : option string) :
  adjust_parameters self d = adjust_parameters self (Some "hard"%string) \/
  adjust_parameters self d = adjust_parameters self (Some "easy"%string) \/
  adjust_parameters self d = adjust_parameters self (Some "very_easy"%string) \/
  adjust_parameters self d = adjust_parameters self None.
Proof.
  destruct (decide (d = Some "hard"%string)) as [->|H1]; [left; reflexivity|].
  destruct (decide (d = Some "easy"%string)) as [->|H2]; [right; left; reflexivity|].
  destruct (decide (d = Some "very_easy"%string)) as [->|H3];
    [right; right; left; reflexivity|].
  right; right; right. rewrite (adjust_parameters_other self d H1 H2 H3). reflexivity.
Qed.

Lemma default_model_regime (d : option string) :
  0 < adjusted_p_slip default_model d < 1 /\
  adjusted_p_slip default_model d + p_guess default_model < 1 /\
  0.12 <= adjusted_p_learn default_model d <= 1.
Proof.
  unfold adjusted_p_slip, adjusted_p_learn.
  destruct (adjust_parameters_cases default_model d) as [-> | [-> | [-> | ->]]];
    repeat split; try reflexivity; discriminate.
Qed.

(** C4, as stated, fails at the ends of the unit interval: with the default
    parameters ([p_slip + p_guess = 0.35 < 1]) and mastery 0, a correct and
    an incorrect answer both give 0.2, and at mastery 1 both give 1. It also
    fails inside the interval when [p_learn = 1]: both answers give 1. *)
Lemma evidence_ordering_ties :
  let sure_learner := mkBKTModel 0.3 1 0.1 0.25 in
  (0 <= 0 <= 1 /\
   adjusted_p_slip default_model None + p_guess default_model < 1 /\
   update_mastery default_model 0 true None == 0.2 /\
   update_mastery default_model 0 false None == 0.2 /\
   ~ update_mastery default_model 0 false None < update_mastery default_model 0 true None) /\
  (0 <= 1 <= 1 /\
   ~ update_mastery default_model 1 false None < update_mastery default_model 1 true None) /\
  (0 <= 0.5 <= 1 /\
   adjusted_p_slip sure_learner None + p_guess sure_learner < 1 /\
   ~ update_mastery sure_learner 0.5 false None < update_mastery sure_learner 0.5 true None).
Proof.
  intros sure_learner. split; [|split].
  - split; [split; discriminate|]. split; [reflexivity|].
    split; [reflexivity|]. split; [reflexivity|]. discriminate.
  - split; [split; discriminate|]. discriminate.
  - split; [split; discriminate|]. split; [reflexivity|]. discriminate.
Qed.

(** In binary64 the tie is not confined to the ends: with the default
    parameters and mastery 1e-18 the two posteriors differ by less than the
    spacing of the numbers near 0.2, and both answers give 0.2. *)
Example binary64_evidence_tie :
  Binary64.update_mastery Binary64.default_model 1e-18 true None = 0.2%float /\
  Binary64.update_mastery Binary64.default_model 1e-18 false None = 0.2%float.
Proof. split; vm_compute; reflexivity. Qed.

(** Away from the ends of the unit interval and from [p_slip + p_guess = 1]
    each posterior keeps a distance from the prior. *)
Lemma posterior_gap (p s g : Q) :
  0 <= s -> 0 <= g -> s + g <= 0.99 -> 0.000001 <= p <= 0.999999 ->
  p_known_given_response p false s g + 0.000000009 <= p /\
  p + 0.000000009 <= p_known_given_response p true s g.
Proof.
  intros Hs Hg Hsg [Hp0 Hp1].
  assert (Hu : 0 <= (p - 0.000001) * (0.999999 - p))
    by (apply Qmult_le_0_compat; lra).
  assert (Hn : 0 <= (p * (1 - p) - 0.000001 * 0.999999) * (1 - s - g))
    by (apply Qmult_le_0_compat; lra).
  assert (Hps : 0 <= p * s) by (apply Qmult_le_0_compat; lra).
  assert (Hps' : 0 < p * (1 - s)) by (apply Qmult_lt_0_compat; lra).
  assert (Hpg : 0 <= (1 - p) * g) by (apply Qmult_le_0_compat; lra).
  assert (Hpg' : 0 < (1 - p) * (1 - g)) by (apply Qmult_lt_0_compat; lra).
  unfold p_known_given_response, bayes_numerator, bayes_denominator.
  rewrite (proj2 (Qltb_lt 0 (p * s + (1 - p) * (1 - g))) ltac:(lra)).
  rewrite (proj2 (Qltb_lt 0 (p * (1 - s) + (1 - p) * g)) ltac:(lra)).
  split.
  - assert (Hd : p * s + (1 - p) * (1 - g) <= 1).
    { assert (0 <= p * (1 - s)) by lra. assert (0 <= (1 - p) * g) by lra. lra. }
    assert (Hm : 0 <= (p * (1 - p) * (1 - s - g))
                      * (1 - (p * s + (1 - p) * (1 - g)))).
    { apply Qmult_le_0_compat; [|lra]. lra. }
    assert (Hle : p * s / (p * s + (1 - p) * (1 - g)) <= p - 0.000000009);
      [|lra].
    apply Qle_shift_div_r; [lra|]. lra.
  - assert (Hd : p * (1 - s) + (1 - p) * g <= 1).
    { assert (0 <= (1 - p) * (1 - g)) by lra. lra. }
    assert (Hm : 0 <= (p * (1 - p) * (1 - s - g))
                      * (1 - (p * (1 - s) + (1 - p) * g))).
    { apply Qmult_le_0_compat; [|lra]. lra. }
    apply Qle_shift_div_l; [lra|]. lra.
Qed.

(** C4, amended. With the default parameters a correct answer gives at
    least the mastery an incorrect one gives, for every [p] in [0,1] and
    every difficulty argument. For any parameters it gives strictly more
    whenever the adjusted parameters are probabilities with
    [p_slip' + p_guess <= 0.99] and [p_learn' <= 0.99] and [p] lies between
    0.000001 and 0.999999: the two results are then at least 1e-10 apart,
    a distance that rounding to binary64 does not close. *)
Theorem evidence_ordering
    (self : BKTModel) (p : Q) (question_difficulty : option string) :
  0 <= p <= 1 ->
  update_mastery default_model p false question_difficulty
  <= update_mastery default_model p true question_difficulty /\
  (0 <= adjusted_p_slip self question_difficulty ->
   0 <= p_guess self ->
   adjusted_p_slip self question_difficulty + p_guess self <= 0.99 ->
   0 <= adjusted_p_learn self question_difficulty <= 0.99 ->
   0.000001 <= p <= 0.999999 ->
   update_mastery self p false question_difficulty
   < update_mastery self p true question_difficulty /\
   0.0000000001 <= update_mastery self p true question_difficulty
                   - update_mastery self p false question_difficulty).
Proof.
  intros Hp. split.
  - destruct (default_model_regime question_difficulty) as (_ & Hsg & Hl).
    rewrite !update_mastery_unfold. cbv zeta.
    apply clamp_mono, learning_transition_mono; [lra|].
    pose proof (posterior_correct_ge p _ _ Hp Hsg).
    pose proof (posterior_incorrect_le p _ _ Hp Hsg). lra.
  - intros Hs Hg Hsg Hl Hp'.
    assert (Hgap : 0.0000000001
                   <= update_mastery self p true question_difficulty
                      - update_mastery self p false question_difficulty); [|split; lra].
    rewrite !update_mastery_unfold. cbv zeta.
    set (s := adjusted_p_slip self question_difficulty) in *.
    set (l := adjusted_p_learn self question_difficulty) in *.
    set (g := p_guess self) in *.
    assert (Hsg' : s + g < 1) by lra.
    destruct (posterior_gap p s g Hs Hg Hsg Hp') as [Hx Hy].
    pose proof (posterior_unit_interval p s g Hp Hsg' false Hs Hg) as Hx01.
    pose proof (posterior_unit_interval p s g Hp Hsg' true Hs Hg) as Hy01.
    set (x := p_known_given_response p false s g) in *.
    set (y := p_known_given_response p true s g) in *.
    rewrite (clamp_id (y + (1 - y) * l))
      by (apply learning_transition_unit_interval; lra).
    rewrite (clamp_id (x + (1 - x) * l))
      by (apply learning_transition_unit_interval; lra).
    assert (H : 0 <= (y - x - 0.000000018) * (1 - l))
      by (apply Qmult_le_0_compat; lra).
    lra.
Qed.

Lemma evidence_ordering_witness :
  0 <= 0.5 <= 1 /\
  update_mastery default_model 0.5 false (Some "hard"%string)
  <= update_mastery default_model 0.5 true (Some "hard"%string) /\
  update_mastery default_model 0.5 false (Some "hard"%string)
  < update_mastery default_model 0.5 true (Some "hard"%string).
Proof.
  assert (H : 0 <= 0.5 <= 1) by (split; discriminate).
  split; [exact H|].
  destruct (evidence_ordering default_model 0.5 (Some "hard"%string) H) as [H1 H2].
  split; [exact H1|].
  apply (fun H3 H4 H5 H6 H7 => proj1 (H2 H3 H4 H5 H6 H7));
    [discriminate|discriminate|discriminate|split; discriminate|split; discriminate].
Defined.

(** * Properties of [select_next_question] *)

Example format_2f_examples :
  format_2f 0.2 = "0.20"%string /\ format_2f 0.125 = "0.12"%string /\
  format_2f 0.857 = "0.86"%string /\ format_2f 1 = "1.00"%string.
Proof. repeat split; reflexivity. Qed.

Example select_next_question_balancing :
  let q1 := mkQuestion (Some "q1") "2 + 2 = ?" (Some "algebra") (Some "easy") in
  let q2 := mkQuestion (Some "q2") "area?" (Some "geometry") (Some "hard") in
  select_next_question default_model
    [("algebra"%string, 0.9); ("geometry"%string, 0.85)] [q1; q2] 0.8 0.3 None 4
  = (Some q2, "Balancing skill exposure: geometry (mastery: 0.85)"%string).
Proof. reflexivity. Qed.

Example select_next_question_no_band :
  let q2 := mkQuestion (Some "q2") "x^2 = 2" (Some "algebra") (Some "hard") in
  select_next_question default_model
    [("algebra"%string, 0.2); ("geometry"%string, 0.9)] [q2] 0.8 0.3 None 0
  = (Some q2, "Targeting weak skill: algebra (mastery: 0.20)"%string).
Proof. reflexivity. Qed.

Lemma preferred_difficulties_band (m : Q) (d : string) :
  d ∈ preferred_difficulties_for m <-> spec_preferred_band m d.
Proof.
  unfold preferred_difficulties_for, spec_preferred_band.
  qltb_cases; rewrite !elem_of_cons, elem_of_nil; split; intros H.
  - left. split; [assumption|]. tauto.
  - destruct H as [[_ H]|[(H & _)|(H & _)]]; [tauto|lra|lra].
  - right; left. split; [assumption|]. split; [assumption|]. tauto.
  - destruct H as [[H _]|[(_ & _ & H)|(H & _)]]; [lra|tauto|lra].
  - right; right. split; [assumption|]. tauto.
  - destruct H as [[H _]|[(_ & H & _)|(_ & H)]]; [lra|lra|tauto].
Qed.

Lemma random_choice_elem {A : Type} (rnd : nat) (x : A) (xs : list A) :
  random_choice rnd x xs ∈ x :: xs.
Proof.
  unfold random_choice. apply nth_elem_of.
  change (length (x :: xs)) with (S (length xs)).
  apply Nat.mod_upper_bound. discriminate.
Qed.

Lemma filter_excluded_subset (pool : list Question) (ex : option (list string))
    (q : Question) :
  q ∈ filter_excluded pool ex -> q ∈ pool.
Proof.
  unfold filter_excluded. destruct ex as [[|i ids]|]; try done.
  rewrite list_elem_of_filter. tauto.
Qed.

Lemma select_next_question_filtered
    (self : BKTModel) (m : list (string * Q)) (pool : list Question)
    (th dw : Q) (ex : option (list string)) (rnd : nat)
    (q0 : Question) (qs : list Question) :
  filter_excluded pool ex = q0 :: qs ->
  select_next_question self m pool th dw ex rnd =
  match select_weak_skill (weak_skills m th) (q0 :: qs) rnd with
  | Some decision => decision
  | None => select_by_exploration m q0 qs rnd
  end.
Proof.
  intros H. unfold select_next_question. destruct pool as [|q pool].
  - destruct ex as [[|i ids]|]; discriminate.
  - rewrite H. reflexivity.
Qed.

Lemma step1_reason_with_difficulty (t : string) (m : Q) (q : Question) :
  is_step1_reason (reason_targeting_with_difficulty t m q).
Proof. eexists. reflexivity. Qed.

Lemma step1_reason_plain (t : string) (m : Q) :
  is_step1_reason (reason_targeting t m).
Proof. eexists. reflexivity. Qed.

Lemma balancing_not_step1 (s : string) (m : Q) :
  ~ is_step1_reason (reason_balancing s m).
Proof.
  intros [rest H]. unfold reason_balancing in H.
  cbv [String.append] in H. discriminate.
Qed.

Lemma random_not_step1 : ~ is_step1_reason reason_random.
Proof.
  intros [rest H]. unfold reason_random in H.
  cbv [String.append] in H. discriminate.
Qed.

(** Strategy 1 answers exactly when the weakest weak skill has a question,
    and then with a question of that skill. *)
Lemma select_weak_skill_Some (weak : list (string * Q)) (pool : list Question)
    (rnd : nat) (t : string) (q : Question) :
  target_skill_of weak = Some t -> q ∈ pool -> q_skill q = Some t ->
  exists question reason,
    select_weak_skill weak pool rnd = Some (Some question, reason) /\
    question ∈ pool /\ q_skill question = Some t /\ is_step1_reason reason.
Proof.
  intros Ht Hq Hs. unfold select_weak_skill. rewrite Ht.
  set (matching := filter (fun q => q_skill q = Some t) pool).
  assert (Hm : forall x, x ∈ matching -> x ∈ pool /\ q_skill x = Some t).
  { intros x Hx. apply list_elem_of_filter in Hx. tauto. }
  assert (Hqm : q ∈ matching) by (apply list_elem_of_filter; done).
  destruct matching as [|m0 ms] eqn:Em; [by apply elem_of_nil in Hqm|].
  cbv zeta.
  match goal with |- context [filter ?P (m0 :: ms)] => set (preferred := filter P (m0 :: ms)) end.
  assert (Hp : forall x, x ∈ preferred -> x ∈ m0 :: ms).
  { intros x Hx. apply list_elem_of_filter in Hx. tauto. }
  destruct preferred as [|p0 ps] eqn:Ep; eexists _, _; (split; [reflexivity|]).
  - pose proof (random_choice_elem rnd m0 ms) as Hc. apply Hm in Hc.
    split; [apply Hc|]. split; [apply Hc|]. apply step1_reason_plain.
  - pose proof (random_choice_elem rnd p0 ps) as Hc. apply Hp, Hm in Hc.
    split; [apply Hc|]. split; [apply Hc|]. apply step1_reason_with_difficulty.
Qed.

Lemma select_weak_skill_None (weak : list (string * Q)) (pool : list Question)
    (rnd : nat) :
  select_weak_skill weak pool rnd = None ->
  weak = [] \/
  exists t, target_skill_of weak = Some t /\ forall q, q ∈ pool -> q_skill q <> Some t.
Proof.
  unfold select_weak_skill. destruct (target_skill_of weak) as [t|] eqn:Ht.
  - destruct (filter (fun q => q_skill q = Some t) pool) as [|m0 ms] eqn:Em.
    + intros _. right. exists t. split; [reflexivity|].
      intros q Hq Hs. eapply filter_nil_not_elem_of; [exact Em|exact Hs|exact Hq].
    + cbv zeta. destruct (filter _ (m0 :: ms)); discriminate.
  - intros _. left. destruct weak as [|[k v] weak]; [reflexivity|discriminate].
Qed.

Lemma select_by_exploration_reason (m : list (string * Q)) (q0 : Question)
    (qs : list Question) (rnd : nat) :
  let reason := (select_by_exploration m q0 qs rnd).2 in
  is_step2_reason reason \/ is_step3_reason reason.
Proof.
  cbv zeta. unfold select_by_exploration.
  repeat match goal with
  | |- context [if ?b then _ else _] => destruct b
  | |- context [match ?x with _ => _ end] => destruct x
  end; try (right; reflexivity); left; eexists; reflexivity.
Qed.

Lemma filter_all_rejected {A : Type} (P : A -> Prop) `{forall x, Decision (P x)}
    (l : list A) :
  (forall x, x ∈ l -> ~ P x) -> filter P l = [].
Proof.
  induction l as [|x l IH]; intros Hl; [reflexivity|].
  rewrite filter_cons_False by (apply Hl; left).
  apply IH. intros y Hy. apply Hl. right. exact Hy.
Qed.

(** C7. Empty-pool reasons: an empty candidate pool gives
    [(None, "No questions available")]; a non-empty pool whose every
    question id is in [exclude_ids] gives
    [(None, "No questions available after filtering")]; the two reason
    strings differ. The function is total, so neither case raises. *)
Theorem empty_pool_reasons
    (self : BKTModel) (skill_masteries : list (string * Q))
    (available_questions : list Question) (threshold difficulty_weight : Q)
    (exclude_ids : option (list string)) (ids : list string) (rnd : nat) :
  select_next_question self skill_masteries [] threshold difficulty_weight
    exclude_ids rnd = (None, "No questions available"%string) /\
  (available_questions <> [] ->
   (forall q, q ∈ available_questions -> exists i, q_id q = Some i /\ i ∈ ids) ->
   select_next_question self skill_masteries available_questions threshold
     difficulty_weight (Some ids) rnd
   = (None, "No questions available after filtering"%string)) /\
  "No questions available"%string <> "No questions available after filtering"%string.
Proof.
  split; [reflexivity|]. split; [|discriminate].
  intros Hne Hall. destruct available_questions as [|q0 qs]; [done|].
  unfold select_next_question.
  assert (Hnil : filter_excluded (q0 :: qs) (Some ids) = []).
  { destruct (Hall q0) as (i0 & _ & Hi0); [left|].
    destruct ids as [|i ids]; [by apply elem_of_nil in Hi0|].
    unfold filter_excluded. apply filter_all_rejected.
    intros q Hq Hnot. destruct (Hall q Hq) as (j & Hj & Hin).
    apply Hnot. rewrite Hj. apply list_elem_of_fmap. exists j. split; done. }
  rewrite Hnil. reflexivity.
Qed.

Lemma empty_pool_reasons_witness :
  let q1 := mkQuestion (Some "q1") "2 + 2 = ?" (Some "algebra") (Some "easy") in
  let q2 := mkQuestion (Some "q2") "3 * 3 = ?" (Some "algebra") (Some "hard") in
  [q1; q2] <> [] /\
  (forall q, q ∈ [q1; q2] -> exists i, q_id q = Some i /\ i ∈ ["q2"; "q1"]%string) /\
  select_next_question default_model [] [q1; q2] 0.8 0.3
    (Some ["q2"; "q1"]%string) 0
  = (None, "No questions available after filtering"%string).
Proof.
  intros q1 q2.
  assert (H1 : [q1; q2] <> []) by discriminate.
  assert (H2 : forall q, q ∈ [q1; q2] ->
                 exists i, q_id q = Some i /\ i ∈ ["q2"; "q1"]%string).
  { intros q Hq. apply elem_of_cons in Hq as [->|Hq].
    - exists "q1"%string. split; [reflexivity|]. right; left.
    - apply list_elem_of_singleton in Hq as ->.
      exists "q2"%string. split; [reflexivity|]. left. }
  split; [exact H1|]. split; [exact H2|].
  exact (proj1 (proj2 (empty_pool_reasons default_model [] [q1; q2] 0.8 0.3
                         None ["q2"; "q1"]%string 0%nat)) H1 H2).
Defined.

(** C6. Weak-skill targeting with difficulty banding. Part one: whenever the
    weak-skill branch has target skill [t] of mastery [m] and the filtered
    pool holds a question tagged [t] whose difficulty lies in the preferred
    band of [m], then for every draw the returned question is one of the
    pool, tagged [t], with a difficulty [d] in that band, and the reason is
    "Targeting weak skill: t (mastery: m to two decimals) with d difficulty".
    Part two: for threshold 0.8, mastery algebra: 0.2, geometry: 0.9 and a
    pool of only algebra questions of difficulties easy and hard, every
    returned question is an algebra question chosen by the weak-skill
    strategy. *)
Theorem weak_skill_targeting_banded
    (self : BKTModel) (skill_masteries : list (string * Q))
    (available_questions : list Question) (threshold difficulty_weight : Q)
    (exclude_ids : option (list string)) (rnd : nat) :
  (forall (t : string) (m : Q),
     target_skill_of (weak_skills skill_masteries threshold) = Some t ->
     dict_get (weak_skills skill_masteries threshold) t = Some m ->
     (exists q d, q ∈ filter_excluded available_questions exclude_ids /\
                  q_skill q = Some t /\ q_difficulty q = Some d /\
                  spec_preferred_band m d) ->
     exists question d,
       select_next_question self skill_masteries available_questions threshold
         difficulty_weight exclude_ids rnd
       = (Some question,
          "Targeting weak skill: " +:+ t +:+ " (mastery: " +:+ format_2f m +:+
          ") with " +:+ d +:+ " difficulty") /\
       question ∈ filter_excluded available_questions exclude_ids /\
       q_skill question = Some t /\ q_difficulty question = Some d /\
       spec_preferred_band m d) /\
  (filter_excluded available_questions exclude_ids <> [] ->
   (forall q, q ∈ available_questions ->
      q_skill q = Some "algebra"%string /\
      (q_difficulty q = Some "easy"%string \/ q_difficulty q = Some "hard"%string)) ->
   exists question reason,
     select_next_question self [("algebra"%string, 0.2); ("geometry"%string, 0.9)]
       available_questions 0.8 difficulty_weight exclude_ids rnd
     = (Some question, reason) /\
     question ∈ available_questions /\
     q_skill question = Some "algebra"%string /\
     q_skill question <> Some "geometry"%string /\
     is_step1_reason reason).
Proof.
  split.
  - intros t m Ht Hm (q & d & Hq & Hs & Hd & Hband).
    destruct (filter_excluded available_questions exclude_ids) as [|q0 qs] eqn:Ef;
      [by apply elem_of_nil in Hq|].
    rewrite (select_next_question_filtered _ _ _ _ _ _ _ q0 qs Ef).
    unfold select_weak_skill. rewrite Ht, Hm. cbn [default from_option id].
    set (matching := filter (fun q => q_skill q = Some t) (q0 :: qs)).
    assert (Hqm : q ∈ matching) by (apply list_elem_of_filter; done).
    destruct matching as [|m0 ms] eqn:Em; [by apply elem_of_nil in Hqm|].
    cbv zeta.
    set (preferred := filter _ (m0 :: ms)).
    assert (Hqp : q ∈ preferred).
    { apply list_elem_of_filter. split; [|exact Hqm].
      rewrite Hd. apply list_elem_of_fmap. exists d. split; [reflexivity|].
      apply preferred_difficulties_band. exact Hband. }
    destruct preferred as [|p0 ps] eqn:Ep; [by apply elem_of_nil in Hqp|].
    pose proof (random_choice_elem rnd p0 ps) as Hc.
    rewrite <- Ep in Hc. subst preferred.
    apply list_elem_of_filter in Hc as [Hcd Hcm].
    rewrite <- Em in Hcm. subst matching.
    apply list_elem_of_filter in Hcm as [Hcs Hcq].
    apply list_elem_of_fmap in Hcd as (d' & Hd' & Hin).
    exists (random_choice rnd p0 ps), d'.
    split; [|split; [exact Hcq|split; [exact Hcs|split; [exact Hd'|]]]].
    + unfold reason_targeting_with_difficulty. rewrite Hd'. reflexivity.
    + apply preferred_difficulties_band. exact Hin.
  - intros Hne Hall.
    destruct (filter_excluded available_questions exclude_ids) as [|q0 qs] eqn:Ef;
      [done|].
    rewrite (select_next_question_filtered _ _ _ _ _ _ _ q0 qs Ef).
    assert (Hsub : forall q, q ∈ q0 :: qs -> q ∈ available_questions).
    { intros q Hq. rewrite <- Ef in Hq. eapply filter_excluded_subset, Hq. }
    change (weak_skills [("algebra"%string, 0.2); ("geometry"%string, 0.9)] 0.8)
      with [("algebra"%string, 0.2)].
    assert (Hq0 : q_skill q0 = Some "algebra"%string) by (apply Hall, Hsub; left).
    destruct (select_weak_skill_Some [("algebra"%string, 0.2)] (q0 :: qs) rnd
                "algebra" q0 eq_refl ltac:(left) Hq0)
      as (question & reason & -> & Hin & Hskill & Hstep).
    exists question, reason. split; [reflexivity|].
    split; [apply Hsub, Hin|]. split; [exact Hskill|].
    split; [rewrite Hskill; discriminate|exact Hstep].
Qed.

Lemma weak_skill_targeting_banded_witness :
  let masteries := [("algebra"%string, 0.2); ("geometry"%string, 0.9)] in
  let q1 := mkQuestion (Some "q1") "2 + 2 = ?" (Some "algebra") (Some "easy") in
  let q2 := mkQuestion (Some "q2") "x^2 = 2" (Some "algebra") (Some "hard") in
  target_skill_of (weak_skills masteries 0.8) = Some "algebra"%string /\
  dict_get (weak_skills masteries 0.8) "algebra" = Some 0.2 /\
  (exists q d, q ∈ filter_excluded [q1; q2] None /\
               q_skill q = Some "algebra"%string /\ q_difficulty q = Some d /\
               spec_preferred_band 0.2 d) /\
  exists question d,
    select_next_question default_model masteries [q1; q2] 0.8 0.3 None 1
    = (Some question,
       "Targeting weak skill: " +:+ "algebra" +:+ " (mastery: " +:+ format_2f 0.2 +:+
       ") with " +:+ d +:+ " difficulty") /\
    question ∈ filter_excluded [q1; q2] None /\
    q_skill question = Some "algebra"%string /\ q_difficulty question = Some d /\
    spec_preferred_band 0.2 d.
Proof.
  intros masteries q1 q2.
  assert (H1 : target_skill_of (weak_skills masteries 0.8) = Some "algebra"%string)
    by reflexivity.
  assert (H2 : dict_get (weak_skills masteries 0.8) "algebra" = Some 0.2)
    by reflexivity.
  assert (H3 : exists q d, q ∈ filter_excluded [q1; q2] None /\
                 q_skill q = Some "algebra"%string /\ q_difficulty q = Some d /\
                 spec_preferred_band 0.2 d).
  { exists q1, "easy"%string. split; [left|]. split; [reflexivity|].
    split; [reflexivity|]. left. split; [reflexivity|]. right. reflexivity. }
  split; [exact H1|]. split; [exact H2|]. split; [exact H3|].
  exact (proj1 (weak_skill_targeting_banded default_model masteries [q1; q2]
                  0.8 0.3 None 1%nat) "algebra"%string 0.2 H1 H2 H3).
Defined.

(** ** Which strategy answers *)

Lemma min_by_elem {A : Type} (key : A -> Q) (best : A) (rest : list A) :
  min_by key best rest ∈ best :: rest.
Proof.
  revert best. induction rest as [|x rest IH]; intros best; cbn; [left|].
  specialize (IH (if Qltb (key x) (key best) then x else best)).
  apply elem_of_cons in IH as [->|IH].
  - destruct (Qltb (key x) (key best)); [right; left|left].
  - right. right. exact IH.
Qed.

Lemma min_by_le_best {A : Type} (key : A -> Q) (best : A) (rest : list A) :
  key (min_by key best rest) <= key best.
Proof.
  revert best. induction rest as [|x rest IH]; intros best; cbn; [lra|].
  specialize (IH (if Qltb (key x) (key best) then x else best)).
  destruct (Qltb (key x) (key best)) eqn:E; [apply Qltb_lt in E; lra|exact IH].
Qed.

Lemma min_by_minimal {A : Type} (key : A -> Q) (best : A) (rest : list A) (y : A) :
  y ∈ best :: rest -> key (min_by key best rest) <= key y.
Proof.
  revert best. induction rest as [|x rest IH]; intros best Hy.
  - apply list_elem_of_singleton in Hy as ->. cbn. lra.
  - cbn. pose proof (min_by_le_best key
                       (if Qltb (key x) (key best) then x else best) rest) as Hb.
    apply elem_of_cons in Hy as [->|Hy].
    + destruct (Qltb (key x) (key best)) eqn:E; [apply Qltb_lt in E; lra|exact Hb].
    + apply elem_of_cons in Hy as [->|Hy].
      * destruct (Qltb (key x) (key best)) eqn:E; [exact Hb|].
        apply Qltb_ge in E. lra.
      * apply IH. right. exact Hy.
Qed.

(** The target of strategy 1 is a weak skill of least mastery. *)
Lemma target_skill_of_weakest (weak : list (string * Q)) (t : string) :
  target_skill_of weak = Some t ->
  t ∈ weak.*1 /\
  forall s, s ∈ weak.*1 -> default 0 (dict_get weak t) <= default 0 (dict_get weak s).
Proof.
  unfold target_skill_of, py_min_by. destruct (weak.*1) as [|k ks]; [discriminate|].
  intros [= <-]. split; [apply min_by_elem|].
  intros s Hs. apply (min_by_minimal (fun k => default 0 (dict_get weak k))). exact Hs.
Qed.

Lemma step1_reason_exclusive (reason : string) :
  is_step1_reason reason -> ~ (is_step2_reason reason \/ is_step3_reason reason).
Proof.
  intros [r1 ->] [[r2 H]|H]; cbv [String.append] in H; discriminate.
Qed.

Lemma weak_skills_nil (skill_masteries : list (string * Q)) (threshold : Q) :
  weak_skills skill_masteries threshold = [] ->
  forall sm, sm ∈ skill_masteries -> threshold <= sm.2.
Proof.
  intros H sm Hsm. apply Qltb_ge.
  destruct (Qltb sm.2 threshold) eqn:E; [|reflexivity].
  exfalso. eapply filter_nil_not_elem_of; [exact H| |exact Hsm]. exact E.
Qed.

(** C5, as stated, fails: with masteries a: 0.1, b: 0.2 and a pool holding
    one question tagged b, skill b is below the threshold 0.8 and has a
    question in the pool, but strategy 1 targets only the weakest skill a,
    finds no question for it, and the random fallback answers. *)
Lemma weak_skill_with_question_falls_through :
  let masteries := [("a"%string, 0.1); ("b"%string, 0.2)] in
  let q := mkQuestion (Some "q1") "1 + 1 = ?" (Some "b") (Some "easy") in
  ("b"%string, 0.2) ∈ weak_skills masteries 0.8 /\
  q ∈ filter_excluded [q] None /\ q_skill q = Some "b"%string /\
  select_next_question default_model masteries [q] 0.8 0.3 None 0
  = (Some q, "Random selection (all skills above threshold or no skill match)"%string) /\
  ~ is_step1_reason "Random selection (all skills above threshold or no skill match)".
Proof.
  intros masteries q. split; [right; left|]. split; [left|].
  split; [reflexivity|]. split; [reflexivity|]. apply random_not_step1.
Qed.

(** C5, amended. On a non-empty filtered pool, strategy 1 targets only the
    weak skill of least mastery: whenever that skill has a question tagged
    with it in the filtered pool, strategy 1 produces the result; strategies
    2 and 3 are reached only when no skill is below the threshold or the
    target skill has no question in the filtered pool. *)
Theorem fallback_reachability
    (self : BKTModel) (skill_masteries : list (string * Q))
    (available_questions : list Question) (threshold difficulty_weight : Q)
    (exclude_ids : option (list string)) (rnd : nat) :
  filter_excluded available_questions exclude_ids <> [] ->
  let pool := filter_excluded available_questions exclude_ids in
  let weak := weak_skills skill_masteries threshold in
  let reason :=
    (select_next_question self skill_masteries available_questions threshold
       difficulty_weight exclude_ids rnd).2 in
  (forall t, target_skill_of weak = Some t ->
     t ∈ weak.*1 /\
     forall s, s ∈ weak.*1 -> default 0 (dict_get weak t) <= default 0 (dict_get weak s)) /\
  (forall t q, target_skill_of weak = Some t -> q ∈ pool -> q_skill q = Some t ->
     is_step1_reason reason) /\
  (is_step2_reason reason \/ is_step3_reason reason ->
   (forall sm, sm ∈ skill_masteries -> threshold <= sm.2) \/
   exists t, target_skill_of weak = Some t /\
             forall q, q ∈ pool -> q_skill q <> Some t) /\
  (is_step1_reason reason \/ is_step2_reason reason \/ is_step3_reason reason).
Proof.
  intros Hne pool weak reason. subst pool weak reason.
  destruct (filter_excluded available_questions exclude_ids) as [|q0 qs] eqn:Ef;
    [done|].
  rewrite (select_next_question_filtered _ _ _ _ _ _ _ q0 qs Ef).
  set (weak := weak_skills skill_masteries threshold).
  split; [apply target_skill_of_weakest|].
  split; [|split].
  - intros t q Ht Hq Hs.
    destruct (select_weak_skill_Some weak (q0 :: qs) rnd t q Ht Hq Hs)
      as (question & reason & -> & _ & _ & Hstep).
    exact Hstep.
  - intros H23.
    destruct (select_weak_skill weak (q0 :: qs) rnd) as [decision|] eqn:E.
    + exfalso. unfold select_weak_skill in E.
      destruct (target_skill_of weak) as [t|]; [|discriminate].
      destruct (filter (fun q => q_skill q = Some t) (q0 :: qs)); [discriminate|].
      cbv zeta in E. destruct (filter _ (_ :: _)) in E; injection E as <-;
        (eapply step1_reason_exclusive; [|exact H23]);
        [apply step1_reason_plain|apply step1_reason_with_difficulty].
    + apply select_weak_skill_None in E as [E|E]; [left|right; exact E].
      apply weak_skills_nil. exact E.
  - destruct (select_weak_skill weak (q0 :: qs) rnd) as [decision|] eqn:E.
    + left. unfold select_weak_skill in E.
      destruct (target_skill_of weak) as [t|]; [|discriminate].
      destruct (filter (fun q => q_skill q = Some t) (q0 :: qs)); [discriminate|].
      cbv zeta in E. destruct (filter _ (_ :: _)) in E; injection E as <-;
        [apply step1_reason_plain|apply step1_reason_with_difficulty].
    + right. apply select_by_exploration_reason.
Qed.

Lemma fallback_reachability_witness :
  let masteries := [("algebra"%string, 0.2); ("geometry"%string, 0.9)] in
  let q1 := mkQuestion (Some "q1") "2 + 2 = ?" (Some "algebra") (Some "easy") in
  let q2 := mkQuestion (Some "q2") "area?" (Some "geometry") (Some "hard") in
  filter_excluded [q1; q2] (Some ["q9"%string]) <> [] /\
  is_step1_reason
    (select_next_question default_model masteries [q1; q2] 0.8 0.3
       (Some ["q9"%string]) 3).2.
Proof.
  intros masteries q1 q2.
  assert (H : filter_excluded [q1; q2] (Some ["q9"%string]) <> []) by discriminate.
  split; [exact H|].
  refine (proj1 (proj2 (fallback_reachability default_model masteries [q1; q2]
                          0.8 0.3 (Some ["q9"%string]) 3%nat H))
            "algebra"%string q1 eq_refl _ eq_refl).
  left.
Defined.

(** * Properties of [select_assessment_questions] *)

Example slice_step_example : slice_step 3 [1; 2; 3; 4; 5; 6; 7; 8]%nat = [1; 4; 7]%nat.
Proof. reflexivity. Qed.

Example py_take_negative : py_take (-2) [1; 2; 3; 4; 5]%nat = [1; 2; 3]%nat.
Proof. reflexivity. Qed.

(** With every draw 0 the loop swaps [x[i]] with [x[0]] for i = 4, ..., 1. *)
Example shuffle_example :
  shuffle (fun _ => 0%nat) [1; 2; 3; 4; 5]%nat = [2; 3; 4; 5; 1]%nat.
Proof. reflexivity. Qed.

(** Seven questions over three skills, count 10: two per skill in the first
    pass (4, 6, 5, 3, 7), then the rest by difficulty (2, 1). *)
Example assessment_selection_example :
  let q := fun i s d => mkQuestion (Some i) "text" (Some s) (Some d) in
  q_id <$> assessment_selection
    [q "1" "A" "hard"; q "2" "A" "easy"; q "3" "B" "medium"; q "4" "A" "very_easy";
     q "5" "B" "easy"; q "6" "A" "medium"; q "7" "C" "tricky"]%string 10
  = Some <$> ["4"; "6"; "5"; "3"; "7"; "2"; "1"]%string.
Proof. reflexivity. Qed.

(** ** The shuffle only reorders *)

Lemma swap_perm {A : Type} (x : list A) (i j : nat) : swap x i j ≡ₚ x.
Proof.
  unfold swap. destruct (x !! i) as [xi|] eqn:Ei; [|reflexivity].
  destruct (x !! j) as [xj|] eqn:Ej; [|reflexivity].
  apply Permutation_insert_swap; assumption.
Qed.

Lemma shuffle_from_perm {A : Type} (rnd : nat -> nat) (i : nat) (x : list A) :
  shuffle_from rnd i x ≡ₚ x.
Proof.
  revert x. induction i as [|i IH]; intros x; [reflexivity|].
  cbn [shuffle_from]. rewrite IH. apply swap_perm.
Qed.

Lemma shuffle_perm {A : Type} (rnd : nat -> nat) (x : list A) : shuffle rnd x ≡ₚ x.
Proof. apply shuffle_from_perm. Qed.

Lemma select_assessment_questions_perm (questions : list Question) (count : Z)
    (rnd : nat -> nat) :
  questions <> [] ->
  select_assessment_questions questions count rnd
  ≡ₚ assessment_selection questions count.
Proof.
  intros H. destruct questions; [done|]. apply shuffle_perm.
Qed.

(** C9. Assessment selection is deterministic up to the final order: for a
    fixed pool and count, two runs with different randomness return the same
    multiset of questions; the draws only permute the presentation order. *)
Theorem assessment_selection_deterministic_up_to_order
    (questions : list Question) (count : Z) (rnd1 rnd2 : nat -> nat) :
  select_assessment_questions questions count rnd1
  ≡ₚ select_assessment_questions questions count rnd2.
Proof.
  destruct questions as [|q qs]; [reflexivity|].
  rewrite !select_assessment_questions_perm by discriminate. reflexivity.
Qed.

(** ** Sorting and grouping only reorder *)

Lemma insert_by_rank_perm (x : Question) (l : list Question) :
  insert_by_rank x l ≡ₚ x :: l.
Proof.
  induction l as [|y l IH]; [reflexivity|]. cbn.
  destruct (difficulty_rank x <=? difficulty_rank y)%Z; [reflexivity|].
  rewrite IH. apply Permutation_swap.
Qed.

Lemma sort_by_difficulty_perm (l : list Question) : sort_by_difficulty l ≡ₚ l.
Proof.
  induction l as [|x l IH]; [reflexivity|].
  cbn. rewrite insert_by_rank_perm, IH. reflexivity.
Qed.

Lemma group_append_perm (k : string) (q : Question)
    (groups : list (string * list Question)) :
  concat (group_append k q groups).*2 ≡ₚ q :: concat groups.*2.
Proof.
  induction groups as [|[k' qs] groups IH]; cbn; [reflexivity|].
  destruct (String.eqb k' k); cbn.
  - rewrite <- app_assoc. cbn. symmetry. apply Permutation_middle.
  - rewrite IH. symmetry. apply Permutation_middle.
Qed.

Lemma group_fold_perm (questions : list Question)
    (groups : list (string * list Question)) :
  concat (foldl (fun groups q => group_append (skill_or_unknown q) q groups)
            groups questions).*2
  ≡ₚ concat groups.*2 ++ questions.
Proof.
  revert groups. induction questions as [|q qs IH]; intros groups; cbn.
  - rewrite app_nil_r. reflexivity.
  - rewrite IH, group_append_perm. apply Permutation_middle.
Qed.

Lemma group_by_skill_perm (questions : list Question) :
  concat (group_by_skill questions).*2 ≡ₚ questions.
Proof. unfold group_by_skill. rewrite group_fold_perm. reflexivity. Qed.

Lemma sort_groups_perm (skills : list (string * list Question)) :
  concat (sort_groups skills).*2 ≡ₚ concat skills.*2.
Proof.
  induction skills as [|[k qs] skills IH]; [reflexivity|].
  cbn. rewrite sort_by_difficulty_perm. apply Permutation_app_head, IH.
Qed.

Lemma sorted_groups_perm (questions : list Question) :
  concat (sort_groups (group_by_skill questions)).*2 ≡ₚ questions.
Proof. rewrite sort_groups_perm. apply group_by_skill_perm. Qed.

(** ** The size of the selection *)

Lemma py_take_length {A : Type} (n : Z) (l : list A) :
  (0 <= n)%Z -> length (py_take n l) = Nat.min (Z.to_nat n) (length l).
Proof.
  intros H. unfold py_take. rewrite (proj2 (Z.leb_le 0 n) H). apply length_take.
Qed.

Lemma py_take_app_le {A : Type} (n : Z) (l k : list A) (x : A) :
  (Z.of_nat (length l) <= n)%Z -> x ∈ l -> x ∈ py_take n (l ++ k).
Proof.
  intros H Hx. unfold py_take. rewrite (proj2 (Z.leb_le 0 n)) by lia.
  replace (Z.to_nat n) with (length l + (Z.to_nat n - length l))%nat by lia.
  rewrite take_app_add. apply elem_of_app. left. exact Hx.
Qed.

Lemma py_take_all {A : Type} (n : Z) (l : list A) :
  (Z.of_nat (length l) <= n)%Z -> py_take n l = l.
Proof.
  intros H. unfold py_take. rewrite (proj2 (Z.leb_le 0 n)) by lia.
  apply take_ge. lia.
Qed.

(** Among distinct questions, those already selected number at most
    [length selected], so enough remain to fill up. *)
Lemma remaining_length (all selected : list Question) :
  NoDup all ->
  (length all - length selected <= length (filter (fun q => q ∉ selected) all))%nat.
Proof.
  intros Hnd.
  pose proof (filter_app_complement (fun q => q ∉ selected) all) as Hperm.
  apply Permutation_length in Hperm. rewrite length_app in Hperm.
  assert (Hsub : filter (fun q => ~ (q ∉ selected)) all ⊆+ selected).
  { apply NoDup_submseteq; [apply NoDup_filter, Hnd|].
    intros q Hq. apply list_elem_of_filter in Hq as [Hq _].
    destruct (decide (q ∈ selected)); [assumption|contradiction]. }
  apply submseteq_length in Hsub. lia.
Qed.

Lemma fill_remaining_length (count : Z) (skills : list (string * list Question))
    (selected : list Question) :
  NoDup (concat skills.*2) ->
  (0 <= count <= Z.of_nat (length (concat skills.*2)))%Z ->
  length (py_take count (fill_remaining count skills selected)) = Z.to_nat count.
Proof.
  intros Hnd Hc. rewrite py_take_length by lia.
  unfold fill_remaining. case_bool_decide as Hlt; [|lia].
  rewrite length_app, py_take_length by lia.
  rewrite (Permutation_length (sort_by_difficulty_perm _)).
  pose proof (remaining_length _ selected Hnd). lia.
Qed.

Lemma assessment_selection_length (questions : list Question) (count : Z) :
  NoDup questions -> (0 <= count)%Z ->
  Z.of_nat (length (assessment_selection questions count))
  = Z.min count (Z.of_nat (length questions)).
Proof.
  intros Hnd Hc. unfold assessment_selection. cbv zeta.
  pose proof (sorted_groups_perm questions) as Hperm.
  rewrite fill_remaining_length.
  - lia.
  - rewrite Hperm. exact Hnd.
  - rewrite (Permutation_length Hperm). lia.
Qed.

Lemma select_assessment_questions_length (questions : list Question) (count : Z)
    (rnd : nat -> nat) :
  NoDup questions -> (0 <= count)%Z ->
  Z.of_nat (length (select_assessment_questions questions count rnd))
  = Z.min count (Z.of_nat (length questions)).
Proof.
  intros Hnd Hc. destruct (decide (questions = [])) as [->|Hne]; [cbn; lia|].
  rewrite (Permutation_length (select_assessment_questions_perm _ count rnd Hne)).
  apply assessment_selection_length; assumption.
Qed.

(** ** Every skill group contributes to the first pass *)

Lemma group_append_consistent (q : Question) (groups : list (string * list Question)) :
  groups_consistent groups ->
  groups_consistent (group_append (skill_or_unknown q) q groups).
Proof.
  unfold groups_consistent.
  induction groups as [|[k qs] groups IH]; intros H; cbn.
  - repeat constructor. discriminate.
  - apply Forall_cons in H as [[Hne Hk] H].
    destruct (String.eqb k (skill_or_unknown q)) eqn:E.
    + apply String.eqb_eq in E. constructor; [|exact H]. cbn in *. split.
      * destruct qs; discriminate.
      * apply Forall_app. split; [exact Hk|]. repeat constructor. congruence.
    + constructor; [split; assumption|]. apply IH, H.
Qed.

Lemma group_append_keys (k : string) (q : Question)
    (groups : list (string * list Question)) (k' : string) :
  k' ∈ (group_append k q groups).*1 <-> k' = k \/ k' ∈ groups.*1.
Proof.
  induction groups as [|[k0 qs] groups IH]; cbn.
  - rewrite list_elem_of_singleton, elem_of_nil. tauto.
  - destruct (String.eqb k0 k) eqn:E; cbn; rewrite !elem_of_cons.
    + apply String.eqb_eq in E. subst. tauto.
    + rewrite IH. tauto.
Qed.

Lemma group_fold_invariant (questions : list Question)
    (groups : list (string * list Question)) :
  groups_consistent groups ->
  let result :=
    foldl (fun groups q => group_append (skill_or_unknown q) q groups)
      groups questions in
  groups_consistent result /\
  (forall k, k ∈ groups.*1 -> k ∈ result.*1) /\
  (forall q, q ∈ questions -> skill_or_unknown q ∈ result.*1).
Proof.
  revert groups. induction questions as [|q qs IH]; intros groups H; cbn.
  - split; [exact H|]. split; [auto|]. intros q Hq. by apply elem_of_nil in Hq.
  - destruct (IH _ (group_append_consistent q groups H)) as (H1 & H2 & H3).
    split; [exact H1|]. split.
    + intros k Hk. apply H2, group_append_keys. right. exact Hk.
    + intros q' Hq'. apply elem_of_cons in Hq' as [->|Hq']; [|apply H3, Hq'].
      apply H2, group_append_keys. left. reflexivity.
Qed.

Lemma group_by_skill_consistent (questions : list Question) :
  groups_consistent (group_by_skill questions) /\
  (forall q, q ∈ questions -> skill_or_unknown q ∈ (group_by_skill questions).*1).
Proof.
  destruct (group_fold_invariant questions [] (Forall_nil_2 _)) as (H1 & _ & H3).
  split; assumption.
Qed.

Lemma sort_groups_length (skills : list (string * list Question)) :
  length (sort_groups skills) = length skills.
Proof. apply length_fmap. Qed.

Lemma sort_groups_keys (skills : list (string * list Question)) :
  (sort_groups skills).*1 = skills.*1.
Proof. unfold sort_groups. rewrite <- list_fmap_compose. reflexivity. Qed.

Lemma sort_groups_consistent (skills : list (string * list Question)) :
  groups_consistent skills -> groups_consistent (sort_groups skills).
Proof.
  unfold groups_consistent, sort_groups. rewrite Forall_fmap.
  intros H. eapply Forall_impl; [exact H|]. intros [k qs] [Hne Hk].
  cbn [fst snd] in *.
  pose proof (sort_by_difficulty_perm qs) as Hperm. split.
  - intros E. cbn [fst snd] in E. rewrite E in Hperm.
    apply Permutation_nil_l in Hperm. done.
  - cbn [fst snd]. rewrite Hperm. exact Hk.
Qed.

Lemma pick_from_group_head (questions_per_skill : Z) (x : Question)
    (l : list Question) :
  (1 <= questions_per_skill)%Z -> x ∈ pick_from_group questions_per_skill (x :: l).
Proof.
  intros H. unfold pick_from_group, slice_step. cbn [slice_step_from].
  destruct (Z.to_nat questions_per_skill) eqn:E; [lia|]. left.
Qed.

Lemma pick_from_group_length (questions_per_skill : Z) (l : list Question) :
  (length (pick_from_group questions_per_skill l) <= Z.to_nat questions_per_skill)%nat.
Proof. unfold pick_from_group. rewrite length_take. lia. Qed.

Lemma first_pass_length (questions_per_skill : Z)
    (skills : list (string * list Question)) :
  (length (first_pass questions_per_skill skills)
   <= length skills * Z.to_nat questions_per_skill)%nat.
Proof.
  unfold first_pass. induction skills as [|g skills IH]; cbn; [lia|].
  rewrite length_app. pose proof (pick_from_group_length questions_per_skill g.2).
  lia.
Qed.

Lemma first_pass_covers (questions_per_skill : Z)
    (skills : list (string * list Question)) (k : string) :
  (1 <= questions_per_skill)%Z -> groups_consistent skills -> k ∈ skills.*1 ->
  exists x, x ∈ first_pass questions_per_skill skills /\ skill_or_unknown x = k.
Proof.
  intros Hq. unfold first_pass, groups_consistent.
  induction skills as [|[k' qs] skills IH]; intros H Hk; cbn in *.
  - by apply elem_of_nil in Hk.
  - apply Forall_cons in H as [[Hne Hskill] H].
    apply elem_of_cons in Hk as [->|Hk].
    + destruct qs as [|x qs]; [done|]. exists x. split.
      * apply elem_of_app. left. apply pick_from_group_head, Hq.
      * apply Forall_cons in Hskill as [Hx _]. exact Hx.
    + destruct (IH H Hk) as (x & Hx & Hs). exists x. split; [|exact Hs].
      apply elem_of_app. right. exact Hx.
Qed.

Lemma fill_remaining_keeps (count : Z) (skills : list (string * list Question))
    (selected : list Question) (x : Question) :
  (Z.of_nat (length selected) <= count)%Z -> x ∈ selected ->
  x ∈ py_take count (fill_remaining count skills selected).
Proof.
  intros Hlen Hx. unfold fill_remaining. case_bool_decide.
  - apply py_take_app_le; assumption.
  - rewrite py_take_all by assumption. exact Hx.
Qed.

(** The pool is non-empty exactly when there is a skill group, so the
    division by [skills_count] is defined. *)
Lemma group_by_skill_nonempty (q : Question) (questions : list Question) :
  (0 < length (group_by_skill (q :: questions)))%nat.
Proof.
  destruct (group_by_skill_consistent (q :: questions)) as [_ H].
  specialize (H q ltac:(left)).
  destruct (group_by_skill (q :: questions)); [by apply elem_of_nil in H|cbn; lia].
Qed.

Lemma assessment_selection_covers (questions : list Question) (count : Z)
    (q : Question) :
  (Z.of_nat (length (group_by_skill questions))
   <= Z.min count (Z.of_nat (length questions)))%Z ->
  q ∈ questions ->
  exists q', q' ∈ assessment_selection questions count /\
             skill_or_unknown q' = skill_or_unknown q.
Proof.
  intros Hk Hq. unfold assessment_selection. cbv zeta.
  set (count' := Z.min count (Z.of_nat (length questions))) in *.
  set (skills := group_by_skill questions) in *.
  destruct (group_by_skill_consistent questions) as [Hcons Hkeys].
  fold skills in Hcons, Hkeys.
  assert (Hpos : (0 < Z.of_nat (length skills))%Z).
  { specialize (Hkeys q Hq). destruct skills; [by apply elem_of_nil in Hkeys|].
    cbn. lia. }
  set (qps := Z.max 1 (count' / Z.of_nat (length skills))).
  assert (Hdiv : (1 <= count' / Z.of_nat (length skills))%Z).
  { apply Z.div_le_lower_bound; lia. }
  assert (Hqps : (1 <= qps)%Z) by (unfold qps; lia).
  destruct (first_pass_covers qps (sort_groups skills) (skill_or_unknown q) Hqps)
    as (x & Hx & Hs).
  - apply sort_groups_consistent, Hcons.
  - rewrite sort_groups_keys. apply Hkeys, Hq.
  - exists x. split; [|exact Hs]. apply fill_remaining_keeps; [|exact Hx].
    pose proof (first_pass_length qps (sort_groups skills)) as Hlen.
    rewrite sort_groups_length in Hlen.
    pose proof (Z.mul_div_le count' (Z.of_nat (length skills)) Hpos).
    unfold qps in *. nia.
Qed.

(** C8, as stated, fails in two ways. A pool that holds the same record
    several times: of [a; a; a; b] with count 4 only 3 questions come back,
    because the fill step drops every copy of a question already selected.
    A negative count: of [a; b] with count -1 one question comes back. *)
Lemma assessment_size_not_min :
  let a := mkQuestion (Some "a") "2 + 2 = ?" (Some "A") (Some "easy") in
  let b := mkQuestion (Some "b") "3 * 3 = ?" (Some "B") (Some "easy") in
  let rnd := fun _ : nat => 0%nat in
  (length (select_assessment_questions [a; a; a; b] 4 rnd) = 3%nat /\
   Z.of_nat (length (select_assessment_questions [a; a; a; b] 4 rnd))
   <> Z.min 4 (Z.of_nat (length [a; a; a; b]))) /\
  (length (select_assessment_questions [a; b] (-1) rnd) = 1%nat /\
   Z.of_nat (length (select_assessment_questions [a; b] (-1) rnd))
   <> Z.min (-1) (Z.of_nat (length [a; b]))).
Proof.
  intros a b rnd. split; (split; [reflexivity|]); vm_compute; discriminate.
Qed.

(** C8, amended. For every pool of pairwise distinct question records and
    every count that is not negative, [select_assessment_questions] returns
    exactly [min(count, len(pool))] questions, and when the number of skills
    in the pool is at most that size every skill of the pool is represented;
    in particular it returns exactly 7 questions for a pool of 7 with count
    10, and exactly 10 for a pool of 50 spanning two skills with count 10,
    both skills being represented. For an empty pool it returns the empty
    list, whatever the count. *)
Theorem assessment_set_sizing
    (questions : list Question) (count : Z) (rnd : nat -> nat) :
  select_assessment_questions [] count rnd = [] /\
  (NoDup questions -> (0 <= count)%Z ->
   Z.of_nat (length (select_assessment_questions questions count rnd))
   = Z.min count (Z.of_nat (length questions)) /\
   ((Z.of_nat (length (group_by_skill questions))
     <= Z.min count (Z.of_nat (length questions)))%Z ->
    forall q, q ∈ questions ->
      exists q', q' ∈ select_assessment_questions questions count rnd /\
                 skill_or_unknown q' = skill_or_unknown q)) /\
  (NoDup questions -> length questions = 7%nat ->
   length (select_assessment_questions questions 10 rnd) = 7%nat) /\
  (NoDup questions -> length questions = 50%nat ->
   length (group_by_skill questions) = 2%nat ->
   length (select_assessment_questions questions 10 rnd) = 10%nat /\
   forall q, q ∈ questions ->
     exists q', q' ∈ select_assessment_questions questions 10 rnd /\
                skill_or_unknown q' = skill_or_unknown q).
Proof.
  assert (Hcover : forall c, 
    (Z.of_nat (length (group_by_skill questions))
     <= Z.min c (Z.of_nat (length questions)))%Z ->
    forall q, q ∈ questions ->
      exists q', q' ∈ select_assessment_questions questions c rnd /\
                 skill_or_unknown q' = skill_or_unknown q).
  { intros c Hk q Hq.
    destruct (assessment_selection_covers questions c q Hk Hq) as (q' & Hq' & Hs).
    exists q'. split; [|exact Hs].
    rewrite select_assessment_questions_perm; [exact Hq'|].
    intros ->. by apply elem_of_nil in Hq. }
  split; [reflexivity|]. split; [|split].
  - intros Hnd Hc. split; [apply select_assessment_questions_length; assumption|].
    apply Hcover.
  - intros Hnd Hlen.
    pose proof (select_assessment_questions_length questions 10 rnd Hnd) as H.
    lia.
  - intros Hnd Hlen Hgroups. split.
    + pose proof (select_assessment_questions_length questions 10 rnd Hnd) as H.
      lia.
    + apply Hcover. lia.
Qed.

Lemma assessment_set_sizing_witness :
  let pool7 :=
    (fun i => mkQuestion (Some (pretty i)) "text" (Some "algebra") (Some "easy"))
      <$> seq 0 7 in
  let pool50 :=
    (fun i => mkQuestion (Some (pretty i)) "text"
                (Some (if Nat.even i then "algebra" else "geometry"))
                (Some (if (i <? 25)%nat then "easy" else "hard")))
      <$> seq 0 50 in
  let rnd := fun i : nat => (7 * i + 3)%nat in
  (NoDup pool7 /\ length pool7 = 7%nat /\
   length (select_assessment_questions pool7 10 rnd) = 7%nat) /\
  (NoDup pool50 /\ length pool50 = 50%nat /\
   length (group_by_skill pool50) = 2%nat /\
   length (select_assessment_questions pool50 10 rnd) = 10%nat /\
   forall q, q ∈ pool50 ->
     exists q', q' ∈ select_assessment_questions pool50 10 rnd /\
                skill_or_unknown q' = skill_or_unknown q).
Proof.
  intros pool7 pool50 rnd.
  assert (N7 : NoDup pool7)
    by (refine (bool_decide_unpack (NoDup pool7) _); vm_compute; exact I).
  assert (L7 : length pool7 = 7%nat) by reflexivity.
  assert (N50 : NoDup pool50)
    by (refine (bool_decide_unpack (NoDup pool50) _); vm_compute; exact I).
  assert (L50 : length pool50 = 50%nat) by reflexivity.
  assert (G50 : length (group_by_skill pool50) = 2%nat) by (vm_compute; reflexivity).
  split.
  - split; [exact N7|]. split; [exact L7|].
    exact (proj1 (proj2 (proj2 (assessment_set_sizing pool7 10 rnd))) N7 L7).
  - split; [exact N50|]. split; [exact L50|]. split; [exact G50|].
    exact (proj2 (proj2 (proj2 (assessment_set_sizing pool50 10 rnd))) N50 L50 G50).
Defined.

(** * Further properties of [update_mastery] *)

(** With slip and guess in [0,1] the posterior is a probability. *)
Lemma posterior_probability (c : Q) (b : bool) (s g : Q) :
  0 <= c <= 1 -> 0 <= s <= 1 -> 0 <= g <= 1 ->
  0 <= p_known_given_response c b s g <= 1.
Proof.
  intros Hc Hs Hg. unfold p_known_given_response.
  destruct (Qltb 0 (bayes_denominator c b s g)) eqn:E; [|exact Hc].
  apply Qltb_lt in E. unfold bayes_numerator, bayes_denominator in *.
  assert (H1 : 0 <= c * s) by (apply Qmult_le_0_compat; lra).
  assert (H2 : 0 <= c * (1 - s)) by (apply Qmult_le_0_compat; lra).
  assert (H3 : 0 <= (1 - c) * g) by (apply Qmult_le_0_compat; lra).
  assert (H4 : 0 <= (1 - c) * (1 - g)) by (apply Qmult_le_0_compat; lra).
  destruct b; (split; [apply Qle_shift_div_l | apply Qle_shift_div_r]);
    try assumption; lra.
Qed.

(** X1. A correct answer raises the mastery: when the adjusted parameters
    are probabilities with [p_slip' + p_guess <= 0.99] and the mastery [p]
    lies between 0.000001 and 0.999999, [update_mastery(p, True, d)] exceeds
    [p] by at least 9e-9, for every difficulty argument; rounding to
    binary64 does not close a distance of this size. *)
Theorem correct_answer_raises_mastery
    (self : BKTModel) (p : Q) (question_difficulty : option string) :
  0 <= adjusted_p_slip self question_difficulty ->
  0 <= p_guess self ->
  adjusted_p_slip self question_difficulty + p_guess self <= 0.99 ->
  0 <= adjusted_p_learn self question_difficulty <= 1 ->
  0.000001 <= p <= 0.999999 ->
  p < update_mastery self p true question_difficulty /\
  p + 0.000000009 <= update_mastery self p true question_difficulty.
Proof.
  intros Hs Hg Hsg Hl Hp'.
  assert (Hgap : p + 0.000000009 <= update_mastery self p true question_difficulty);
    [|split; lra].
  rewrite update_mastery_unfold. cbv zeta.
  set (s := adjusted_p_slip self question_difficulty) in *.
  set (l := adjusted_p_learn self question_difficulty) in *.
  set (g := p_guess self) in *.
  assert (Hp : 0 <= p <= 1) by lra.
  assert (Hsg' : s + g < 1) by lra.
  destruct (posterior_gap p s g Hs Hg Hsg Hp') as [_ Hy].
  pose proof (posterior_unit_interval p s g Hp Hsg' true Hs Hg) as Hy01.
  set (y := p_known_given_response p true s g) in *.
  rewrite (clamp_id (y + (1 - y) * l))
    by (apply learning_transition_unit_interval; lra).
  assert (H : 0 <= (1 - y) * l) by (apply Qmult_le_0_compat; lra).
  lra.
Qed.

Lemma correct_answer_raises_mastery_witness :
  0 <= adjusted_p_slip default_model (Some "easy"%string) /\
  0 <= p_guess default_model /\
  adjusted_p_slip default_model (Some "easy"%string) + p_guess default_model <= 0.99 /\
  0 <= adjusted_p_learn default_model (Some "easy"%string) <= 1 /\
  0.000001 <= 0.4 <= 0.999999 /\
  0.4 < update_mastery default_model 0.4 true (Some "easy"%string).
Proof.
  assert (H1 : 0 <= adjusted_p_slip default_model (Some "easy"%string))
    by discriminate.
  assert (H2 : 0 <= p_guess default_model) by discriminate.
  assert (H3 : adjusted_p_slip default_model (Some "easy"%string)
               + p_guess default_model <= 0.99) by discriminate.
  assert (H4 : 0 <= adjusted_p_learn default_model (Some "easy"%string) <= 1)
    by (split; discriminate).
  assert (H5 : 0.000001 <= 0.4 <= 0.999999) by (split; discriminate).
  repeat (split; [assumption|]).
  exact (proj1 (correct_answer_raises_mastery default_model 0.4
                  (Some "easy"%string) H1 H2 H3 H4 H5)).
Defined.

(** In exact arithmetic a correct answer never lowers the mastery when
    [p_slip' + p_guess < 1] and [0 <= p_learn' <= 1]. *)
Lemma exact_correct_answer_ge
    (self : BKTModel) (p : Q) (question_difficulty : option string) :
  0 <= p <= 1 ->
  adjusted_p_slip self question_difficulty + p_guess self < 1 ->
  0 <= adjusted_p_learn self question_difficulty <= 1 ->
  p <= update_mastery self p true question_difficulty.
Proof.
  intros Hp Hsg Hl. rewrite update_mastery_unfold. cbv zeta.
  set (s := adjusted_p_slip self question_difficulty) in *.
  set (l := adjusted_p_learn self question_difficulty) in *.
  pose proof (posterior_correct_ge p s (p_guess self) Hp Hsg) as Hc.
  set (y := p_known_given_response p true s (p_guess self)) in *.
  rewrite <- (clamp_id p Hp) at 1. apply clamp_mono.
  assert (H1 : 0 <= (y - p) * (1 - l)) by (apply Qmult_le_0_compat; lra).
  assert (H2 : 0 <= l * (1 - p)) by (apply Qmult_le_0_compat; lra).
  lra.
Qed.

(** In exact arithmetic, with probabilities as parameters, the new mastery
    is at least [p_learn'] after any answer. *)
Lemma exact_learning_floor
    (self : BKTModel) (c : Q) (is_correct : bool)
    (question_difficulty : option string) :
  0 <= c <= 1 ->
  0 <= adjusted_p_slip self question_difficulty <= 1 ->
  0 <= p_guess self <= 1 ->
  0 <= adjusted_p_learn self question_difficulty <= 1 ->
  adjusted_p_learn self question_difficulty
  <= update_mastery self c is_correct question_difficulty.
Proof.
  intros Hc Hs Hg Hl. rewrite update_mastery_unfold. cbv zeta.
  pose proof (posterior_probability c is_correct _ _ Hc Hs Hg) as Hp.
  set (x := p_known_given_response c is_correct _ _) in *.
  set (l := adjusted_p_learn self question_difficulty) in *.
  rewrite clamp_id by (apply learning_transition_unit_interval; assumption).
  assert (H : 0 <= x * (1 - l)) by (apply Qmult_le_0_compat; lra).
  lra.
Qed.

(** Neither of the two lemmas survives rounding for arbitrary parameters,
    and the update is not monotone in the prior either. In binary64:
    with [p_learn = 0], [p_slip = 0.25] and [p_guess] just below 0.75 a
    correct answer lowers the mastery 0.012500000000000008; with
    [p_learn = 0.9] and [p_slip = p_guess = 0.5] the mastery after an answer
    is below 0.9; and with the default parameters a very easy question
    answered correctly gives less from the prior 0.24509800389524863 than
    from the smaller prior 0.2450980038952486. Each time the difference is
    one unit in the last place. *)
Example binary64_rounding :
  let nearly_uninformative := Binary64.mkBKTModel 0.3 0 0.25 0.7499999999999999 in
  let fast_learner := Binary64.mkBKTModel 0.3 0.9 0.5 0.5 in
  Binary64.update_mastery nearly_uninformative 0.012500000000000008 true None
  = 0.012500000000000006%float /\
  Binary64.update_mastery fast_learner 1.6653345369377348e-16 false None
  = 0.8999999999999999%float /\
  Binary64.update_mastery Binary64.default_model 0.2450980038952486 true
    (Some "very_easy"%string) = 0.6060464700908407%float /\
  Binary64.update_mastery Binary64.default_model 0.24509800389524863 true
    (Some "very_easy"%string) = 0.6060464700908406%float.
Proof. repeat split; vm_compute; reflexivity. Qed.

(** X4. The difficulty adjustment keeps probabilities: when the base
    [p_slip] and [p_learn] lie in [0,1], so do the adjusted values, for every
    difficulty argument (any string, or none). *)
Theorem adjusted_parameters_probabilities
    (self : BKTModel) (question_difficulty : option string) :
  0 <= p_slip self <= 1 -> 0 <= p_learn self <= 1 ->
  0 <= adjusted_p_slip self question_difficulty <= 1 /\
  0 <= adjusted_p_learn self question_difficulty <= 1.
Proof.
  intros Hs Hl. unfold adjusted_p_slip, adjusted_p_learn.
  destruct (adjust_parameters_cases self question_difficulty) as [-> | [-> | [-> | ->]]];
    rewrite ?adjust_parameters_hard, ?adjust_parameters_easy,
      ?adjust_parameters_very_easy, ?adjust_parameters_none;
    cbn [fst snd]; unfold py_min, py_max; qltb_cases; lra.
Qed.

Lemma adjusted_parameters_probabilities_witness :
  0 <= p_slip default_model <= 1 /\ 0 <= p_learn default_model <= 1 /\
  0 <= adjusted_p_slip default_model (Some "hard"%string) <= 1 /\
  0 <= adjusted_p_learn default_model (Some "hard"%string) <= 1.
Proof.
  assert (H1 : 0 <= p_slip default_model <= 1) by (split; discriminate).
  assert (H2 : 0 <= p_learn default_model <= 1) by (split; discriminate).
  split; [exact H1|]. split; [exact H2|].
  exact (adjusted_parameters_probabilities default_model (Some "hard"%string) H1 H2).
Defined.

(** X5. The default model, the only one the backend instantiates: for every
    mastery in [0,1] and every difficulty argument, a correct answer never
    lowers the mastery, a wrong answer never gives more than a correct one,
    and after any answer the mastery is at least 0.12. *)
Theorem default_model_update
    (p : Q) (is_correct : bool) (question_difficulty : option string) :
  0 <= p <= 1 ->
  p <= update_mastery default_model p true question_difficulty /\
  update_mastery default_model p false question_difficulty
  <= update_mastery default_model p true question_difficulty /\
  0.12 <= update_mastery default_model p is_correct question_difficulty.
Proof.
  intros Hp. destruct (default_model_regime question_difficulty) as (Hs & Hsg & Hl).
  assert (Hg : 0 <= p_guess default_model <= 1) by (split; discriminate).
  split; [apply exact_correct_answer_ge; [exact Hp|exact Hsg|lra]|].
  split.
  - rewrite !update_mastery_unfold. cbv zeta.
    apply clamp_mono, learning_transition_mono; [lra|].
    pose proof (posterior_correct_ge p _ _ Hp Hsg).
    pose proof (posterior_incorrect_le p _ _ Hp Hsg). lra.
  - pose proof (exact_learning_floor default_model p is_correct
                  question_difficulty Hp ltac:(lra) Hg ltac:(lra)). lra.
Qed.

Lemma default_model_update_witness :
  0 <= 0.9 <= 1 /\
  0.9 <= update_mastery default_model 0.9 true (Some "hard"%string) /\
  update_mastery default_model 0.9 false (Some "hard"%string)
  <= update_mastery default_model 0.9 true (Some "hard"%string) /\
  0.12 <= update_mastery default_model 0.9 false (Some "hard"%string).
Proof.
  assert (H : 0 <= 0.9 <= 1) by (split; discriminate).
  split; [exact H|].
  exact (default_model_update 0.9 false (Some "hard"%string) H).
Defined.

(** * Further properties of [select_next_question] *)

Lemma dict_get_elem {V : Type} (d : list (string * V)) (k : string) (v : V) :
  dict_get d k = Some v -> (k, v) ∈ d.
Proof.
  induction d as [|[k' v'] d IH]; cbn; [discriminate|].
  destruct (String.eqb k' k) eqn:E.
  - apply String.eqb_eq in E. intros [= ->]. subst. left.
  - intros H. right. apply IH, H.
Qed.

Lemma concat_elem {A : Type} (x : A) (l : list A) (ls : list (list A)) :
  x ∈ l -> l ∈ ls -> x ∈ concat ls.
Proof.
  intros Hx Hl. induction ls as [|l' ls IH]; [by apply elem_of_nil in Hl|].
  cbn. apply elem_of_app. apply elem_of_cons in Hl as [->|Hl]; [left|right]; auto.
Qed.

(** A question found in a skill group is a question of the pool and carries
    the group's skill. *)
Lemma group_by_skill_lookup (questions : list Question) (s : string)
    (g : list Question) (q : Question) :
  dict_get (group_by_skill questions) s = Some g -> q ∈ g ->
  q ∈ questions /\ skill_or_unknown q = s.
Proof.
  intros Hg Hq. apply dict_get_elem in Hg. split.
  - rewrite <- (group_by_skill_perm questions).
    apply (concat_elem q g); [exact Hq|].
    apply list_elem_of_fmap. exists (s, g). split; [reflexivity|exact Hg].
  - destruct (group_by_skill_consistent questions) as [Hc _].
    unfold groups_consistent in Hc. rewrite Forall_forall in Hc.
    destruct (Hc _ Hg) as [_ Hs]. rewrite Forall_forall in Hs. apply (Hs q Hq).
Qed.

Lemma select_by_exploration_from_pool (m : list (string * Q)) (q0 : Question)
    (qs : list Question) (rnd : nat) :
  exists q reason, select_by_exploration m q0 qs rnd = (Some q, reason) /\
                   q ∈ q0 :: qs.
Proof.
  unfold select_by_exploration. cbv zeta.
  pose proof (random_choice_elem rnd q0 qs) as Hf.
  repeat match goal with
  | |- context [if ?b then _ else _] => destruct b
  | |- context [match dict_get ?d ?k with _ => _ end] =>
      destruct (dict_get d k) as [[|g0 gs]|] eqn:Eg
  | |- context [match ?x with _ => _ end] => destruct x
  end; eexists _, _; (split; [reflexivity|]); try exact Hf.
  all: eapply group_by_skill_lookup; [exact Eg|apply random_choice_elem].
Qed.

Lemma select_weak_skill_from_pool (weak : list (string * Q)) (pool : list Question)
    (rnd : nat) (decision : option Question * string) :
  select_weak_skill weak pool rnd = Some decision ->
  exists q, decision.1 = Some q /\ q ∈ pool.
Proof.
  unfold select_weak_skill. destruct (target_skill_of weak) as [t|]; [|discriminate].
  set (matching := filter (fun q => q_skill q = Some t) pool).
  assert (Hm : forall x, x ∈ matching -> x ∈ pool).
  { intros x Hx. apply list_elem_of_filter in Hx. tauto. }
  destruct matching as [|m0 ms] eqn:Em; [discriminate|]. cbv zeta.
  match goal with |- context [filter ?P (m0 :: ms)] =>
    set (preferred := filter P (m0 :: ms)) end.
  assert (Hp : forall x, x ∈ preferred -> x ∈ m0 :: ms).
  { intros x Hx. apply list_elem_of_filter in Hx. tauto. }
  destruct preferred as [|p0 ps] eqn:Ep; intros [= <-]; eexists;
    (split; [reflexivity|]).
  - apply Hm, random_choice_elem.
  - apply Hm, Hp, random_choice_elem.
Qed.

(** X6. [select_next_question] answers with a question exactly when the
    pool is not empty after the exclusion, and the question it returns is
    one of the candidates and never one whose id is excluded. *)
Theorem select_next_question_from_pool
    (self : BKTModel) (skill_masteries : list (string * Q))
    (available_questions : list Question) (threshold difficulty_weight : Q)
    (exclude_ids : option (list string)) (rnd : nat) :
  match (select_next_question self skill_masteries available_questions threshold
           difficulty_weight exclude_ids rnd).1 with
  | Some question =>
      question ∈ available_questions /\
      forall ids i, exclude_ids = Some ids -> q_id question = Some i -> i ∉ ids
  | None => filter_excluded available_questions exclude_ids = []
  end.
Proof.
  destruct (filter_excluded available_questions exclude_ids) as [|q0 qs] eqn:Ef.
  - unfold select_next_question. rewrite Ef.
    destruct available_questions; reflexivity.
  - rewrite (select_next_question_filtered _ _ _ _ _ _ _ q0 qs Ef).
    assert (Hin : exists q reason,
              match select_weak_skill (weak_skills skill_masteries threshold)
                      (q0 :: qs) rnd with
              | Some decision => decision
              | None => select_by_exploration skill_masteries q0 qs rnd
              end = (Some q, reason) /\ q ∈ q0 :: qs).
    { destruct (select_weak_skill _ _ _) as [[oq reason]|] eqn:E.
      - apply select_weak_skill_from_pool in E as (q & Hq & Hin).
        cbn in Hq. subst oq. eauto.
      - apply select_by_exploration_from_pool. }
    destruct Hin as (q & reason & -> & Hin). cbn [fst].
    rewrite <- Ef in Hin. split; [eapply filter_excluded_subset, Hin|].
    intros ids i -> Hi Hids. unfold filter_excluded in Hin.
    destruct ids as [|i0 ids]; [by apply elem_of_nil in Hids|].
    apply list_elem_of_filter in Hin as [Hnot _]. apply Hnot.
    rewrite Hi. apply list_elem_of_fmap. exists i. split; [reflexivity|exact Hids].
Qed.

Lemma step2_reason_not_random : ~ is_step2_reason reason_random.
Proof.
  intros [rest H]. unfold reason_random in H.
  cbv [String.append] in H. discriminate.
Qed.

Lemma py_min_by_spec {A : Type} (key : A -> Q) (seq : list A) (x : A) :
  py_min_by key seq = Some x ->
  x ∈ seq /\ forall y, y ∈ seq -> key x <= key y.
Proof.
  destruct seq as [|a seq]; [discriminate|]. intros [= <-].
  split; [apply min_by_elem|]. intros y Hy. apply min_by_minimal, Hy.
Qed.

(** What strategy 2 returns when it answers. *)
Lemma select_by_exploration_balancing (m : list (string * Q)) (q0 : Question)
    (qs : list Question) (rnd : nat) (oq : option Question) (reason : string) :
  select_by_exploration m q0 qs rnd = (oq, reason) ->
  is_step2_reason reason ->
  exists q s v,
    oq = Some q /\ reason = reason_balancing s v /\
    dict_get m s = Some v /\ q ∈ q0 :: qs /\ skill_or_unknown q = s /\
    (1 < length (group_by_skill (q0 :: qs)))%nat /\
    forall q' v', q' ∈ q0 :: qs ->
      dict_get m (skill_or_unknown q') = Some v' -> v <= v'.
Proof.
  unfold select_by_exploration. cbv zeta. intros H Hstep.
  assert (Hfb : (Some (random_choice rnd q0 qs), reason_random) = (oq, reason) ->
                False).
  { intros [= _ <-]. exact (step2_reason_not_random Hstep). }
  case_bool_decide as Hlen; [|by apply Hfb in H].
  destruct m as [|kv m'] eqn:Em; [by apply Hfb in H|].
  rewrite <- Em in *. clear Em kv m'.
  destruct (py_min_by _ _) as [s|] eqn:Emin; [|by apply Hfb in H].
  apply py_min_by_spec in Emin as [Hs Hmin].
  apply list_elem_of_filter in Hs as [[v Hv] Hs].
  destruct (negb (String.eqb s EmptyString)); [|by apply Hfb in H].
  destruct (dict_get (group_by_skill (q0 :: qs)) s) as [[|g0 gs]|] eqn:Eg;
    [by apply Hfb in H| |by apply Hfb in H].
  assert (Hoq : oq = Some (random_choice rnd g0 gs)) by congruence.
  assert (Hr : reason = reason_balancing s (default 0 (dict_get m s))) by congruence.
  subst oq reason.
  destruct (group_by_skill_lookup (q0 :: qs) s (g0 :: gs)
              (random_choice rnd g0 gs) Eg (random_choice_elem rnd g0 gs))
    as [Hin Hskill].
  exists (random_choice rnd g0 gs), s, v.
  rewrite Hv. cbn [default from_option id].
  repeat (split; [done|]).
  intros q' v' Hq' Hv'.
  specialize (Hmin (skill_or_unknown q')). rewrite Hv, Hv' in Hmin. apply Hmin.
  apply list_elem_of_filter. split; [eauto|].
  apply (proj2 (group_by_skill_consistent (q0 :: qs))), Hq'.
Qed.

(** X7. Exploration balancing: when [select_next_question] answers with a
    "Balancing skill exposure" reason, the returned question is a candidate
    of the skill [s] named in the reason, [s] has a mastery entry, the reason
    shows that mastery, and no candidate whose skill has a mastery entry has
    a smaller mastery. *)
Theorem balancing_picks_least_practiced
    (self : BKTModel) (skill_masteries : list (string * Q))
    (available_questions : list Question) (threshold difficulty_weight : Q)
    (exclude_ids : option (list string)) (rnd : nat)
    (oq : option Question) (reason : string) :
  select_next_question self skill_masteries available_questions threshold
    difficulty_weight exclude_ids rnd = (oq, reason) ->
  is_step2_reason reason ->
  exists q s v,
    oq = Some q /\
    reason = ("Balancing skill exposure: " +:+ s +:+ " (mastery: " +:+
              format_2f v +:+ ")")%string /\
    dict_get skill_masteries s = Some v /\
    q ∈ filter_excluded available_questions exclude_ids /\
    skill_or_unknown q = s /\
    forall q' v', q' ∈ filter_excluded available_questions exclude_ids ->
      dict_get skill_masteries (skill_or_unknown q') = Some v' -> v <= v'.
Proof.
  intros H Hstep.
  destruct (filter_excluded available_questions exclude_ids) as [|q0 qs] eqn:Ef.
  - exfalso. unfold select_next_question in H. rewrite Ef in H.
    destruct Hstep as [rest Hr].
    destruct available_questions; injection H as _ <-;
      cbv [String.append] in Hr; discriminate.
  - rewrite (select_next_question_filtered _ _ _ _ _ _ _ q0 qs Ef) in H.
    destruct (select_weak_skill _ _ _) as [decision|] eqn:E.
    + exfalso. unfold select_weak_skill in E.
      destruct (target_skill_of _) as [t|]; [|discriminate].
      destruct (filter (fun q => q_skill q = Some t) (q0 :: qs)); [discriminate|].
      cbv zeta in E. destruct (filter _ (_ :: _)) in E; injection E as <-;
        injection H as _ <-;
        (eapply step1_reason_exclusive; [|left; exact Hstep]);
        [apply step1_reason_plain|apply step1_reason_with_difficulty].
    + destruct (select_by_exploration_balancing _ _ _ _ _ _ H Hstep)
        as (q & s & v & -> & -> & Hv & Hin & Hs & _ & Hmin).
      exists q, s, v. repeat (split; [done|]). exact Hmin.
Qed.

Lemma balancing_picks_least_practiced_witness :
  let masteries := [("algebra"%string, 0.9); ("geometry"%string, 0.85)] in
  let q1 := mkQuestion (Some "q1") "2 + 2 = ?" (Some "algebra") (Some "easy") in
  let q2 := mkQuestion (Some "q2") "area?" (Some "geometry") (Some "hard") in
  select_next_question default_model masteries [q1; q2] 0.8 0.3 None 4
  = (Some q2, "Balancing skill exposure: geometry (mastery: 0.85)"%string) /\
  is_step2_reason "Balancing skill exposure: geometry (mastery: 0.85)" /\
  exists q s v,
    Some q2 = Some q /\
    "Balancing skill exposure: geometry (mastery: 0.85)"%string
    = ("Balancing skill exposure: " +:+ s +:+ " (mastery: " +:+
       format_2f v +:+ ")")%string /\
    dict_get masteries s = Some v /\
    q ∈ filter_excluded [q1; q2] None /\
    skill_or_unknown q = s /\
    forall q' v', q' ∈ filter_excluded [q1; q2] None ->
      dict_get masteries (skill_or_unknown q') = Some v' -> v <= v'.
Proof.
  intros masteries q1 q2.
  assert (H1 : select_next_question default_model masteries [q1; q2] 0.8 0.3 None 4
               = (Some q2, "Balancing skill exposure: geometry (mastery: 0.85)"%string))
    by reflexivity.
  assert (H2 : is_step2_reason "Balancing skill exposure: geometry (mastery: 0.85)")
    by (eexists; reflexivity).
  split; [exact H1|]. split; [exact H2|].
  exact (balancing_picks_least_practiced default_model masteries [q1; q2] 0.8 0.3
           None 4%nat (Some q2) _ H1 H2).
Defined.

(** X8. Weak-skill targeting outside the band: when the target skill [t] of
    mastery [m] has candidates but none with a difficulty in the preferred
    band of [m], the answer is one of the candidates tagged [t] and the
    reason is "Targeting weak skill: t (mastery: m)" without a difficulty. *)
Theorem weak_skill_targeting_unbanded
    (self : BKTModel) (skill_masteries : list (string * Q))
    (available_questions : list Question) (threshold difficulty_weight : Q)
    (exclude_ids : option (list string)) (rnd : nat) (t : string) (m : Q)
    (q : Question) :
  target_skill_of (weak_skills skill_masteries threshold) = Some t ->
  dict_get (weak_skills skill_masteries threshold) t = Some m ->
  q ∈ filter_excluded available_questions exclude_ids -> q_skill q = Some t ->
  (forall q' d, q' ∈ filter_excluded available_questions exclude_ids ->
     q_skill q' = Some t -> q_difficulty q' = Some d ->
     d ∉ preferred_difficulties_for m) ->
  exists question,
    select_next_question self skill_masteries available_questions threshold
      difficulty_weight exclude_ids rnd
    = (Some question,
       "Targeting weak skill: " +:+ t +:+ " (mastery: " +:+ format_2f m +:+ ")") /\
    question ∈ filter_excluded available_questions exclude_ids /\
    q_skill question = Some t.
Proof.
  intros Ht Hm Hq Hs Hnone.
  destruct (filter_excluded available_questions exclude_ids) as [|q0 qs] eqn:Ef;
    [by apply elem_of_nil in Hq|].
  rewrite (select_next_question_filtered _ _ _ _ _ _ _ q0 qs Ef).
  unfold select_weak_skill. rewrite Ht, Hm. cbn [default from_option id].
  set (matching := filter (fun q => q_skill q = Some t) (q0 :: qs)).
  assert (Hmatch : forall x, x ∈ matching -> x ∈ q0 :: qs /\ q_skill x = Some t).
  { intros x Hx. apply list_elem_of_filter in Hx. tauto. }
  assert (Hqm : q ∈ matching) by (apply list_elem_of_filter; done).
  destruct matching as [|m0 ms] eqn:Em; [by apply elem_of_nil in Hqm|].
  cbv zeta. rewrite filter_all_rejected.
  - exists (random_choice rnd m0 ms). split; [reflexivity|].
    apply Hmatch, random_choice_elem.
  - intros x Hx Hband. apply list_elem_of_fmap in Hband as (d & Hd & Hin).
    destruct (Hmatch x Hx) as [Hpool Hskill].
    exact (Hnone x d Hpool Hskill Hd Hin).
Qed.

Lemma weak_skill_targeting_unbanded_witness :
  let masteries := [("algebra"%string, 0.2); ("geometry"%string, 0.9)] in
  let q2 := mkQuestion (Some "q2") "x^2 = 2" (Some "algebra") (Some "hard") in
  target_skill_of (weak_skills masteries 0.8) = Some "algebra"%string /\
  dict_get (weak_skills masteries 0.8) "algebra" = Some 0.2 /\
  q2 ∈ filter_excluded [q2] None /\ q_skill q2 = Some "algebra"%string /\
  exists question,
    select_next_question default_model masteries [q2] 0.8 0.3 None 0
    = (Some question,
       "Targeting weak skill: " +:+ "algebra" +:+ " (mastery: " +:+
       format_2f 0.2 +:+ ")") /\
    question ∈ filter_excluded [q2] None /\
    q_skill question = Some "algebra"%string.
Proof.
  intros masteries q2.
  assert (H1 : target_skill_of (weak_skills masteries 0.8) = Some "algebra"%string)
    by reflexivity.
  assert (H2 : dict_get (weak_skills masteries 0.8) "algebra" = Some 0.2)
    by reflexivity.
  assert (H3 : q2 ∈ filter_excluded [q2] None) by left.
  assert (H4 : q_skill q2 = Some "algebra"%string) by reflexivity.
  assert (H5 : forall q' d, q' ∈ filter_excluded [q2] None ->
                 q_skill q' = Some "algebra"%string -> q_difficulty q' = Some d ->
                 d ∉ preferred_difficulties_for 0.2).
  { intros q' d Hq' _ Hd. apply list_elem_of_singleton in Hq' as ->.
    injection Hd as <-. intros Hin.
    change (preferred_difficulties_for 0.2) with ["very_easy"; "easy"]%string in Hin.
    apply elem_of_cons in Hin as [Hin|Hin]; [discriminate|].
    apply list_elem_of_singleton in Hin. discriminate. }
  repeat (split; [assumption|]).
  exact (weak_skill_targeting_unbanded default_model masteries [q2] 0.8 0.3 None
           0%nat "algebra"%string 0.2 q2 H1 H2 H3 H4 H5).
Defined.

(** X9. No mastery data: with an empty mastery map and a pool that is not
    empty after the exclusion, the answer is always the random fallback, a
    candidate of the filtered pool. *)
Theorem empty_masteries_random_fallback
    (self : BKTModel) (available_questions : list Question)
    (threshold difficulty_weight : Q) (exclude_ids : option (list string))
    (rnd : nat) :
  filter_excluded available_questions exclude_ids <> [] ->
  exists question,
    select_next_question self [] available_questions threshold difficulty_weight
      exclude_ids rnd
    = (Some question,
       "Random selection (all skills above threshold or no skill match)"%string) /\
    question ∈ filter_excluded available_questions exclude_ids.
Proof.
  intros Hne.
  destruct (filter_excluded available_questions exclude_ids) as [|q0 qs] eqn:Ef;
    [done|].
  rewrite (select_next_question_filtered _ _ _ _ _ _ _ q0 qs Ef).
  change (weak_skills [] threshold) with (@nil (string * Q)).
  change (select_weak_skill [] (q0 :: qs) rnd)
    with (@None (option Question * string)).
  unfold select_by_exploration. cbv zeta.
  exists (random_choice rnd q0 qs). split; [|apply random_choice_elem].
  case_bool_decide; reflexivity.
Qed.

Lemma empty_masteries_random_fallback_witness :
  let q1 := mkQuestion (Some "q1") "2 + 2 = ?" (Some "algebra") (Some "easy") in
  let q2 := mkQuestion (Some "q2") "area?" (Some "geometry") (Some "hard") in
  filter_excluded [q1; q2] (Some ["q1"%string]) <> [] /\
  exists question,
    select_next_question default_model [] [q1; q2] 0.8 0.3 (Some ["q1"%string]) 7
    = (Some question,
       "Random selection (all skills above threshold or no skill match)"%string) /\
    question ∈ filter_excluded [q1; q2] (Some ["q1"%string]).
Proof.
  intros q1 q2.
  assert (H : filter_excluded [q1; q2] (Some ["q1"%string]) <> []) by discriminate.
  split; [exact H|].
  exact (empty_masteries_random_fallback default_model [q1; q2] 0.8 0.3
           (Some ["q1"%string]) 7%nat H).
Defined.

(** * Further properties of [select_assessment_questions] *)

Lemma filter_submseteq_mono {A : Type} (P : A -> Prop) `{forall x, Decision (P x)}
    (l k : list A) :
  l ⊆+ k -> filter P l ⊆+ filter P k.
Proof.
  induction 1 as [|x l k _ IH|x y l|x l k _ IH|l1 l2 l3 _ IH1 _ IH2].
  - constructor.
  - rewrite !filter_cons. destruct (decide (P x)); [constructor|]; exact IH.
  - rewrite !filter_cons.
    destruct (decide (P x)), (decide (P y)); try reflexivity. constructor.
  - rewrite filter_cons. destruct (decide (P x)); [constructor|]; exact IH.
  - etransitivity; eassumption.
Qed.

Lemma filter_all_accepted {A : Type} (P : A -> Prop) `{forall x, Decision (P x)}
    (l : list A) :
  (forall x, x ∈ l -> P x) -> filter P l = l.
Proof.
  induction l as [|x l IH]; intros Hl; [reflexivity|].
  rewrite filter_cons_True by (apply Hl; left).
  f_equal. apply IH. intros y Hy. apply Hl. right. exact Hy.
Qed.

Lemma slice_step_from_sublist {A : Type} (step skip : nat) (l : list A) :
  slice_step_from step skip l `sublist_of` l.
Proof.
  revert skip. induction l as [|x l IH]; intros skip; cbn; [constructor|].
  destruct skip; [apply sublist_skip|apply sublist_cons]; apply IH.
Qed.

Lemma pick_from_group_sublist (questions_per_skill : Z) (l : list Question) :
  pick_from_group questions_per_skill l `sublist_of` l.
Proof.
  unfold pick_from_group, slice_step. etransitivity; [apply sublist_take|].
  apply slice_step_from_sublist.
Qed.

Lemma first_pass_sublist (questions_per_skill : Z)
    (skills : list (string * list Question)) :
  first_pass questions_per_skill skills `sublist_of` concat skills.*2.
Proof.
  unfold first_pass. induction skills as [|g skills IH]; cbn; [constructor|].
  apply sublist_app; [apply pick_from_group_sublist|exact IH].
Qed.

Lemma py_take_submseteq {A : Type} (n : Z) (l : list A) : py_take n l ⊆+ l.
Proof. unfold py_take. destruct (0 <=? n)%Z; apply submseteq_take. Qed.

(** The fill step adds only questions the pool still has to offer. *)
Lemma fill_remaining_submseteq (count : Z) (skills : list (string * list Question))
    (selected : list Question) :
  selected ⊆+ concat skills.*2 ->
  fill_remaining count skills selected ⊆+ concat skills.*2.
Proof.
  intros Hsel. unfold fill_remaining. case_bool_decide; [|exact Hsel].
  set (all := concat skills.*2) in *.
  apply (submseteq_trans _
           (filter (fun q => ~ (q ∉ selected)) all
            ++ filter (fun q => q ∉ selected) all)).
  - apply submseteq_app.
    + rewrite <- (filter_all_accepted (fun q => ~ (q ∉ selected)) selected) at 1.
      * apply filter_submseteq_mono, Hsel.
      * intros x Hx Hnot. exact (Hnot Hx).
    + etransitivity; [apply py_take_submseteq|].
      apply Permutation_submseteq, sort_by_difficulty_perm.
  - apply Permutation_submseteq. rewrite Permutation_app_comm.
    apply filter_app_complement.
Qed.

Lemma assessment_selection_submseteq (questions : list Question) (count : Z) :
  assessment_selection questions count ⊆+ questions.
Proof.
  unfold assessment_selection. cbv zeta.
  etransitivity; [apply py_take_submseteq|].
  etransitivity; [|apply Permutation_submseteq, (sorted_groups_perm questions)].
  apply fill_remaining_submseteq, sublist_submseteq, first_pass_sublist.
Qed.

(** X10. The assessment set is drawn from the pool without repetition: for
    every pool and count, every question occurs in the result at most as
    often as in the pool; so every returned question is one of the pool,
    the result is never longer than the pool, and a pool of distinct
    questions gives distinct questions. *)
Theorem assessment_set_within_pool
    (questions : list Question) (count : Z) (rnd : nat -> nat) :
  select_assessment_questions questions count rnd ⊆+ questions /\
  (forall q, q ∈ select_assessment_questions questions count rnd -> q ∈ questions) /\
  (length (select_assessment_questions questions count rnd) <= length questions)%nat /\
  (NoDup questions -> NoDup (select_assessment_questions questions count rnd)).
Proof.
  assert (H : select_assessment_questions questions count rnd ⊆+ questions).
  { destruct (decide (questions = [])) as [->|Hne]; [reflexivity|].
    rewrite (select_assessment_questions_perm _ count rnd Hne).
    apply assessment_selection_submseteq. }
  split; [exact H|]. split; [|split].
  - intros q Hq. eapply elem_of_submseteq; eassumption.
  - apply submseteq_length, H.
  - intros Hnd. apply submseteq_sublist_l in H as (l2 & Hsub & Hperm).
    eapply sublist_NoDup; [|exact Hsub]. rewrite Hperm. exact Hnd.
Qed.

(** X11. The count is an upper bound whatever the pool holds: for every
    pool, also one with repeated records, and every count that is not
    negative, at most [count] questions are returned. *)
Theorem assessment_set_at_most_count
    (questions : list Question) (count : Z) (rnd : nat -> nat) :
  (0 <= count)%Z ->
  (Z.of_nat (length (select_assessment_questions questions count rnd)) <= count)%Z.
Proof.
  intros Hc. destruct (decide (questions = [])) as [->|Hne]; [cbn; lia|].
  rewrite (Permutation_length (select_assessment_questions_perm _ count rnd Hne)).
  unfold assessment_selection. cbv zeta. rewrite py_take_length by lia. lia.
Qed.

Lemma assessment_set_at_most_count_witness :
  let a := mkQuestion (Some "a") "2 + 2 = ?" (Some "A") (Some "easy") in
  let b := mkQuestion (Some "b") "3 * 3 = ?" (Some "B") (Some "easy") in
  (0 <= 2)%Z /\
  (Z.of_nat (length (select_assessment_questions [a; a; a; b] 2 (fun _ => 0%nat)))
   <= 2)%Z.
Proof.
  intros a b. assert (H : (0 <= 2)%Z) by lia. split; [exact H|].
  exact (assessment_set_at_most_count [a; a; a; b] 2 (fun _ => 0%nat) H).
Defined.

(** X12. Asking for at least as many questions as the pool holds returns
    the whole pool: for distinct questions and [count >= len(pool)] the
    result is a permutation of the pool. *)
Theorem assessment_set_whole_pool
    (questions : list Question) (count : Z) (rnd : nat -> nat) :
  NoDup questions -> (Z.of_nat (length questions) <= count)%Z ->
  select_assessment_questions questions count rnd ≡ₚ questions.
Proof.
  intros Hnd Hc.
  destruct (decide (questions = [])) as [->|Hne]; [reflexivity|].
  rewrite (select_assessment_questions_perm _ count rnd Hne).
  apply submseteq_length_Permutation; [apply assessment_selection_submseteq|].
  pose proof (assessment_selection_length questions count Hnd ltac:(lia)). lia.
Qed.

Lemma assessment_set_whole_pool_witness :
  let pool :=
    [mkQuestion (Some "1") "2 + 2 = ?" (Some "A") (Some "hard");
     mkQuestion (Some "2") "3 * 3 = ?" (Some "B") (Some "easy");
     mkQuestion (Some "3") "5 - 1 = ?" (Some "A") None] in
  NoDup pool /\ (Z.of_nat (length pool) <= 10)%Z /\
  select_assessment_questions pool 10 (fun i => i) ≡ₚ pool.
Proof.
  intros pool.
  assert (H1 : NoDup pool)
    by (refine (bool_decide_unpack (NoDup pool) _); vm_compute; exact I).
  assert (H2 : (Z.of_nat (length pool) <= 10)%Z) by (cbn; lia).
  split; [exact H1|]. split; [exact H2|].
  exact (assessment_set_whole_pool pool 10 (fun i => i) H1 H2).
Defined.

(** * Properties of [analyze_assessment_results] *)

Lemma classify_fold (ms : list (string * Q)) (acc : SkillAnalysis) :
  let a := foldl classify_skill acc ms in
  strengths a
  = strengths acc ++ (filter (fun sm => Qltb sm.2 0.75 = false) ms).*1 /\
  weaknesses a
  = weaknesses acc
    ++ (filter (fun sm => Qltb sm.2 0.75 = true /\ Qltb 0.4 sm.2 = false) ms).*1 /\
  needs_practice a
  = needs_practice acc
    ++ (filter (fun sm => Qltb sm.2 0.75 = true /\ Qltb 0.4 sm.2 = true) ms).*1.
Proof.
  revert acc. induction ms as [|[s v] ms IH]; intros acc; cbn [foldl].
  - cbn. rewrite !app_nil_r. done.
  - destruct (IH (classify_skill acc (s, v))) as (H1 & H2 & H3).
    cbv zeta. rewrite H1, H2, H3. clear IH H1 H2 H3.
    rewrite !filter_cons. cbn [snd classify_skill].
    destruct (Qltb v 0.75) eqn:E1; destruct (Qltb 0.4 v) eqn:E2; cbn [negb];
      repeat (destruct (decide _) as [?|?]; try (exfalso; intuition congruence));
      cbn; rewrite <- ?app_assoc; done.
Qed.

Lemma analyze_skills_members (skill_masteries : list (string * Q)) :
  let a := analyze_skills skill_masteries in
  (forall s, s ∈ strengths a <->
     exists v, (s, v) ∈ skill_masteries /\ 0.75 <= v) /\
  (forall s, s ∈ weaknesses a <->
     exists v, (s, v) ∈ skill_masteries /\ v <= 0.4) /\
  (forall s, s ∈ needs_practice a <->
     exists v, (s, v) ∈ skill_masteries /\ 0.4 < v /\ v < 0.75).
Proof.
  unfold analyze_skills.
  destruct (classify_fold skill_masteries (mkSkillAnalysis [] [] []))
    as (H1 & H2 & H3).
  cbv zeta in *. cbn [strengths weaknesses needs_practice app] in *.
  rewrite H1, H2, H3. clear H1 H2 H3.
  split; [|split].
  - intros s. rewrite list_elem_of_fmap. split.
    + intros ([s' v] & -> & Hin). apply list_elem_of_filter in Hin as [Hv Hin].
      exists v. split; [exact Hin|]. apply Qltb_ge, Hv.
    + intros (v & Hin & Hv). exists (s, v). split; [reflexivity|].
      apply list_elem_of_filter. split; [apply Qltb_ge, Hv|exact Hin].
  - intros s. rewrite list_elem_of_fmap. split.
    + intros ([s' v] & -> & Hin). apply list_elem_of_filter in Hin as [[_ Hv] Hin].
      exists v. split; [exact Hin|]. apply Qltb_ge, Hv.
    + intros (v & Hin & Hv). exists (s, v). split; [reflexivity|].
      apply list_elem_of_filter. split; [|exact Hin]. cbn [snd]. split.
      * apply Qltb_lt. lra.
      * apply Qltb_ge, Hv.
  - intros s. rewrite list_elem_of_fmap. split.
    + intros ([s' v] & -> & Hin). apply list_elem_of_filter in Hin as [[Hv1 Hv2] Hin].
      exists v. split; [exact Hin|]. cbn [snd] in *.
      split; apply Qltb_lt; assumption.
    + intros (v & Hin & Hv1 & Hv2). exists (s, v). split; [reflexivity|].
      apply list_elem_of_filter. split; [|exact Hin]. cbn [snd].
      split; apply Qltb_lt; assumption.
Qed.

Lemma analyze_skills_perm (skill_masteries : list (string * Q)) :
  let a := analyze_skills skill_masteries in
  strengths a ++ weaknesses a ++ needs_practice a ≡ₚ skill_masteries.*1.
Proof.
  unfold analyze_skills.
  destruct (classify_fold skill_masteries (mkSkillAnalysis [] [] []))
    as (H1 & H2 & H3).
  cbv zeta in *. cbn [strengths weaknesses needs_practice app] in *.
  rewrite H1, H2, H3. clear H1 H2 H3.
  rewrite <- !fmap_app. apply fmap_Permutation.
  induction skill_masteries as [|[s v] ms IH]; [reflexivity|].
  rewrite !filter_cons. cbn [snd].
  destruct (Qltb v 0.75) eqn:E1; destruct (Qltb 0.4 v) eqn:E2;
    repeat (destruct (decide _) as [?|?]; try (exfalso; intuition congruence));
    cbn [app].
  - rewrite (app_assoc _ _ (_ :: _)). rewrite <- Permutation_middle.
    rewrite <- app_assoc. constructor. exact IH.
  - rewrite <- Permutation_middle. constructor. exact IH.
  - constructor. exact IH.
  - constructor. exact IH.
Qed.

(** X13. The skill analysis is a partition by mastery: a skill is a strength
    exactly when its mastery is at least 0.75, a weakness when it is at most
    0.4, and needs practice in between, and the three lists together hold
    every skill of the mastery map exactly as often as the map does. *)
Theorem skill_analysis_partition
    (self : BKTModel) (skill_masteries : list (string * Q))
    (answers : list (string * Answer)) (question_details : list (string * Question)) :
  let a := an_skill_analysis
             (analyze_assessment_results self skill_masteries answers
                question_details) in
  (forall s, s ∈ strengths a <->
     exists v, (s, v) ∈ skill_masteries /\ 0.75 <= v) /\
  (forall s, s ∈ weaknesses a <->
     exists v, (s, v) ∈ skill_masteries /\ v <= 0.4) /\
  (forall s, s ∈ needs_practice a <->
     exists v, (s, v) ∈ skill_masteries /\ 0.4 < v /\ v < 0.75) /\
  strengths a ++ weaknesses a ++ needs_practice a ≡ₚ skill_masteries.*1.
Proof.
  cbn [an_skill_analysis analyze_assessment_results].
  destruct (analyze_skills_members skill_masteries) as (H1 & H2 & H3).
  pose proof (analyze_skills_perm skill_masteries) as H4.
  cbv zeta in *. repeat split; try assumption; apply H1 || apply H2 || apply H3.
Qed.

Lemma inject_nat_nonneg (n : nat) : 0 <= inject_Z (Z.of_nat n).
Proof. change 0 with (inject_Z 0). rewrite <- Zle_Qle. lia. Qed.

Lemma inject_nat_pos (n : nat) : (0 < n)%nat -> 0 < inject_Z (Z.of_nat n).
Proof. intros H. change 0 with (inject_Z 0). rewrite <- Zlt_Qlt. lia. Qed.

Lemma inject_nat_le (n m : nat) :
  (n <= m)%nat -> inject_Z (Z.of_nat n) <= inject_Z (Z.of_nat m).
Proof. intros H. rewrite <- Zle_Qle. lia. Qed.

Lemma percentage_of_bounds (part whole : nat) :
  (part <= whole)%nat -> 0 <= percentage_of part whole <= 100.
Proof.
  intros H. unfold percentage_of.
  destruct (0 <? whole)%nat eqn:E; [|split; discriminate].
  apply Nat.ltb_lt in E.
  pose proof (inject_nat_nonneg part) as Hp.
  pose proof (inject_nat_pos whole E) as Hw.
  pose proof (inject_nat_le part whole H) as Hle.
  set (a := inject_Z (Z.of_nat part)) in *.
  set (b := inject_Z (Z.of_nat whole)) in *.
  assert (H0 : 0 <= a / b) by (apply Qle_shift_div_l; lra).
  assert (H1 : a / b <= 1) by (apply Qle_shift_div_r; lra).
  lra.
Qed.

Lemma percentage_of_all (n : nat) : (0 < n)%nat -> percentage_of n n == 100.
Proof.
  intros H. unfold percentage_of. rewrite (proj2 (Nat.ltb_lt 0 n) H).
  pose proof (inject_nat_pos n H). field. lra.
Qed.

(** X14. The score of an analysis: the total is the number of answers, the
    correct count never exceeds it, the percentage lies in [0,100], is 0 for
    no answers (no division by zero) and 100 when every answer is correct. *)
Theorem analysis_score_bounds
    (self : BKTModel) (skill_masteries : list (string * Q))
    (answers : list (string * Answer)) (question_details : list (string * Question)) :
  let sc := an_score (analyze_assessment_results self skill_masteries answers
                        question_details) in
  score_total sc = length answers /\
  (score_correct sc <= score_total sc)%nat /\
  0 <= score_percentage sc <= 100 /\
  (answers = [] -> score_percentage sc = 0) /\
  (answers <> [] -> (forall a, a ∈ answers.*2 -> a_is_correct a = Some true) ->
   score_percentage sc == 100).
Proof.
  cbn [an_score analyze_assessment_results score_total score_correct score_percentage].
  assert (Hle : (length (filter (fun a => answer_correct a = true) answers.*2)
                 <= length answers)%nat).
  { etransitivity; [apply length_filter|]. rewrite length_fmap. lia. }
  split; [reflexivity|]. split; [exact Hle|].
  split; [apply percentage_of_bounds, Hle|]. split.
  - intros ->. reflexivity.
  - intros Hne Hall. rewrite filter_all_accepted.
    + rewrite length_fmap. apply percentage_of_all.
      destruct answers; [done|cbn; lia].
    + intros a Ha. unfold answer_correct. rewrite (Hall a Ha). reflexivity.
Qed.

(** The number of answers counted by the difficulty statistics. *)
Lemma record_answer_keys (d : string) (c : bool) (perf : list (string * DifficultyStats)) :
  (record_answer d c perf).*1 = perf.*1.
Proof.
  unfold record_answer. rewrite <- list_fmap_compose. apply list_fmap_ext.
  intros i [k st] _. cbn. destruct (String.eqb k d); reflexivity.
Qed.

Lemma record_answer_correct_le (d : string) (c : bool)
    (perf : list (string * DifficultyStats)) :
  Forall (fun e => (ds_correct e.2 <= ds_total e.2)%nat) perf ->
  Forall (fun e => (ds_correct e.2 <= ds_total e.2)%nat) (record_answer d c perf).
Proof.
  intros H. unfold record_answer. rewrite Forall_fmap.
  eapply Forall_impl; [exact H|]. intros [k st] Hle. cbn in *.
  destruct (String.eqb k d); cbn; [|exact Hle]. destruct c; lia.
Qed.

Lemma record_answer_totals (d : string) (c : bool)
    (perf : list (string * DifficultyStats)) :
  perf.*1 = performance_init.*1 ->
  sum_list ((fun e => ds_total e.2) <$> record_answer d c perf)
  = (sum_list ((fun e => ds_total e.2) <$> perf)
     + if bool_decide (d ∈ performance_init.*1) then 1 else 0)%nat.
Proof.
  intros Hk.
  destruct perf as [|[k1 s1] [|[k2 s2] [|[k3 s3] [|[k4 s4] [|? ?]]]]];
    try discriminate.
  injection Hk as -> -> -> ->. unfold record_answer. cbn [fmap list_fmap fst snd].
  assert (Hin : forall x, x ∈ performance_init.*1 ->
                  (if bool_decide (x ∈ performance_init.*1) then 1 else 0)%nat = 1%nat)
    by (intros x Hx; rewrite bool_decide_eq_true_2 by exact Hx; reflexivity).
  destruct (decide (d = "very_easy"%string)) as [->|N1];
    [rewrite Hin by (cbn; rewrite !elem_of_cons; tauto); cbn; lia|].
  destruct (decide (d = "easy"%string)) as [->|N2];
    [rewrite Hin by (cbn; rewrite !elem_of_cons; tauto); cbn; lia|].
  destruct (decide (d = "medium"%string)) as [->|N3];
    [rewrite Hin by (cbn; rewrite !elem_of_cons; tauto); cbn; lia|].
  destruct (decide (d = "hard"%string)) as [->|N4];
    [rewrite Hin by (cbn; rewrite !elem_of_cons; tauto); cbn; lia|].
  clear Hin.
  rewrite bool_decide_eq_false_2.
  - rewrite !(proj2 (String.eqb_neq _ _)) by congruence. cbn. lia.
  - cbn. rewrite !elem_of_cons, elem_of_nil. intuition congruence.
Qed.

Lemma performance_fold (question_details : list (string * Question))
    (answers : list (string * Answer)) (perf : list (string * DifficultyStats)) :
  perf.*1 = performance_init.*1 ->
  Forall (fun e => (ds_correct e.2 <= ds_total e.2)%nat) perf ->
  let result := foldl (record_item question_details) perf answers in
  result.*1 = performance_init.*1 /\
  Forall (fun e => (ds_correct e.2 <= ds_total e.2)%nat) result /\
  (sum_list ((fun e => ds_total e.2) <$> perf)
   <= sum_list ((fun e => ds_total e.2) <$> result)
   <= sum_list ((fun e => ds_total e.2) <$> perf) + length answers)%nat.
Proof.
  revert perf. induction answers as [|item answers IH]; intros perf Hk Hle; cbn.
  - split; [exact Hk|]. split; [exact Hle|]. lia.
  - assert (Hstep : (record_item question_details perf item).*1 = performance_init.*1
                    /\ Forall (fun e => (ds_correct e.2 <= ds_total e.2)%nat)
                         (record_item question_details perf item)
                    /\ (sum_list ((fun e => ds_total e.2) <$> perf)
                        <= sum_list ((fun e => ds_total e.2)
                                       <$> record_item question_details perf item)
                        <= sum_list ((fun e => ds_total e.2) <$> perf) + 1)%nat).
    { unfold record_item. destruct (dict_get question_details item.1) as [details|].
      - split; [rewrite record_answer_keys; exact Hk|].
        split; [apply record_answer_correct_le, Hle|].
        rewrite (record_answer_totals _ _ _ Hk). case_bool_decide; lia.
      - split; [exact Hk|]. split; [exact Hle|]. lia. }
    destruct Hstep as (Hk' & Hle' & Hsum).
    destruct (IH _ Hk' Hle') as (H1 & H2 & H3).
    split; [exact H1|]. split; [exact H2|]. lia.
Qed.

(** X15. The difficulty statistics: the analysis always reports the four
    levels very_easy, easy, medium, hard in this order; in each level the
    correct count is at most the total and the percentage lies in [0,100];
    and the totals together never exceed the number of answers. *)
Theorem difficulty_analysis_bounds
    (self : BKTModel) (skill_masteries : list (string * Q))
    (answers : list (string * Answer)) (question_details : list (string * Question)) :
  let da := an_difficulty_analysis
              (analyze_assessment_results self skill_masteries answers
                 question_details) in
  da.*1 = ["very_easy"; "easy"; "medium"; "hard"]%string /\
  (forall level st pct, (level, (st, pct)) ∈ da ->
     (ds_correct st <= ds_total st)%nat /\
     pct = percentage_of (ds_correct st) (ds_total st) /\
     0 <= pct <= 100) /\
  (sum_list ((fun e => ds_total e.2.1) <$> da) <= length answers)%nat.
Proof.
  cbn [an_difficulty_analysis analyze_assessment_results].
  unfold performance_by_difficulty.
  destruct (performance_fold question_details answers performance_init eq_refl)
    as (Hk & Hle & Hsum).
  { repeat constructor. }
  cbv zeta in *. set (perf := foldl _ _ _) in *.
  split; [|split].
  - rewrite <- list_fmap_compose. exact Hk.
  - intros level st pct Hin. apply list_elem_of_fmap in Hin as ([k st'] & Heq & Hin).
    cbn in Heq. injection Heq as -> -> ->.
    rewrite Forall_forall in Hle. specialize (Hle _ Hin). cbn in Hle.
    split; [exact Hle|]. split; [reflexivity|].
    apply percentage_of_bounds, Hle.
  - rewrite <- list_fmap_compose. cbn in Hsum.
    etransitivity; [|apply Hsum]. apply Nat.eq_le_incl. f_equal.
Qed.

Lemma sum_fold_bounds (lo hi : Q) (l : list Q) (acc : Q) :
  Forall (fun v => lo <= v <= hi) l ->
  acc + inject_Z (Z.of_nat (length l)) * lo <= foldl Qplus acc l /\
  foldl Qplus acc l <= acc + inject_Z (Z.of_nat (length l)) * hi.
Proof.
  revert acc. induction l as [|v l IH]; intros acc Hl; cbn [foldl length].
  - change (inject_Z (Z.of_nat 0)) with 0. split; lra.
  - apply Forall_cons in Hl as [Hv Hl]. destruct (IH (acc + v) Hl) as [H1 H2].
    rewrite Nat2Z.inj_succ, <- Z.add_1_r, inject_Z_plus.
    change (inject_Z 1) with 1. split; lra.
Qed.

(** X16. The overall mastery is a probability: when every mastery of the
    map lies in [0,1], so does the overall mastery; for an empty map it
    is 0. *)
Theorem overall_mastery_bounds
    (self : BKTModel) (skill_masteries : list (string * Q))
    (answers : list (string * Answer)) (question_details : list (string * Question)) :
  (forall s v, (s, v) ∈ skill_masteries -> 0 <= v <= 1) ->
  let om := an_overall_mastery
              (analyze_assessment_results self skill_masteries answers
                 question_details) in
  0 <= om <= 1 /\ (skill_masteries = [] -> om = 0).
Proof.
  intros Hall. cbn [an_overall_mastery analyze_assessment_results]. cbv zeta.
  split; [|intros ->; reflexivity].
  unfold overall_mastery_of.
  destruct skill_masteries as [|sm ms] eqn:E; [split; discriminate|].
  rewrite <- E in *.
  assert (Hpos : 0 < inject_Z (Z.of_nat (length skill_masteries))).
  { apply inject_nat_pos. subst. cbn. lia. }
  destruct (sum_fold_bounds 0 1 skill_masteries.*2 0) as [H1 H2].
  { rewrite Forall_fmap, Forall_forall. intros [s v] Hin. exact (Hall s v Hin). }
  rewrite length_fmap in H1, H2.
  split; [apply Qle_shift_div_l|apply Qle_shift_div_r]; try exact Hpos; lra.
Qed.

Lemma overall_mastery_bounds_witness :
  let ms := [("loops"%string, 0.8); ("oop"%string, 0.1)] in
  (forall s v, (s, v) ∈ ms -> 0 <= v <= 1) /\
  0 <= an_overall_mastery (analyze_assessment_results default_model ms [] []) <= 1.
Proof.
  intros ms.
  assert (H : forall s v, (s, v) ∈ ms -> 0 <= v <= 1).
  { intros s v Hin. apply elem_of_cons in Hin as [[= -> ->]|Hin];
      [split; discriminate|].
    apply list_elem_of_singleton in Hin as [= -> ->]. split; discriminate. }
  split; [exact H|].
  exact (proj1 (overall_mastery_bounds default_model ms [] [] H)).
Defined.

(** * Properties of [generate_learning_recommendations] *)

Lemma insert_by_mastery_perm (x : string * Q) (l : list (string * Q)) :
  insert_by_mastery x l ≡ₚ x :: l.
Proof.
  induction l as [|y l IH]; [reflexivity|]. cbn.
  destruct (Qltb y.2 x.2); [|reflexivity].
  rewrite IH. apply Permutation_swap.
Qed.

Lemma sort_by_mastery_perm (l : list (string * Q)) : sort_by_mastery l ≡ₚ l.
Proof.
  induction l as [|x l IH]; [reflexivity|].
  cbn. rewrite insert_by_mastery_perm, IH. reflexivity.
Qed.

Lemma StronglySorted_lookup {A : Type} (R : A -> A -> Prop) (l : list A)
    (i j : nat) (x y : A) :
  StronglySorted R l -> (i < j)%nat -> l !! i = Some x -> l !! j = Some y -> R x y.
Proof.
  intros Hs. revert i j. induction Hs as [|a l Hs IH Ha]; intros i j Hij Hi Hj.
  - discriminate.
  - destruct j as [|j]; [lia|]. destruct i as [|i].
    + cbn in Hi, Hj. injection Hi as <-.
      rewrite Forall_forall in Ha. apply Ha.
      apply list_elem_of_lookup. eauto.
    + cbn in Hi, Hj. apply (IH i j); [lia|assumption|assumption].
Qed.

Lemma insert_by_mastery_sorted (x : string * Q) (l : list (string * Q)) :
  StronglySorted (fun a b => a.2 <= b.2) l ->
  StronglySorted (fun a b => a.2 <= b.2) (insert_by_mastery x l).
Proof.
  induction 1 as [|y l Hs IH Hy]; cbn; [repeat constructor|].
  destruct (Qltb y.2 x.2) eqn:E.
  - apply Qltb_lt in E. constructor; [exact IH|].
    rewrite insert_by_mastery_perm. constructor; [lra|exact Hy].
  - apply Qltb_ge in E. constructor; [constructor; assumption|].
    constructor; [exact E|]. eapply Forall_impl; [exact Hy|].
    intros z Hz. cbn in *. lra.
Qed.

Lemma sort_by_mastery_sorted (l : list (string * Q)) :
  StronglySorted (fun a b => a.2 <= b.2) (sort_by_mastery l).
Proof.
  induction l as [|x l IH]; [constructor|]. cbn. apply insert_by_mastery_sorted, IH.
Qed.

(** The rank of a module type in the order remedial, practice, advanced. *)
Lemma recommend_fields (subject : string) (s : string) (v : Q) :
  let r := recommend subject (s, v) in
  r_skill r = s /\ r_recommended_duration r = None /\
  ((v < 0.4 /\ r_type r = "remedial"%string /\ r_priority r = "high"%string /\
    r_mastery_level r = "basic"%string /\
    r_id r = (subject +:+ "_remedial_" +:+ s)%string) \/
   (0.4 <= v /\ v < 0.7 /\ r_type r = "practice"%string /\
    r_priority r = "medium"%string /\ r_mastery_level r = "intermediate"%string /\
    r_id r = (subject +:+ "_practice_" +:+ s)%string) \/
   (0.7 <= v /\ r_type r = "advanced"%string /\ r_priority r = "low"%string /\
    r_mastery_level r = "advanced"%string /\
    r_id r = (subject +:+ "_advanced_" +:+ s)%string)).
Proof.
  cbv zeta. unfold recommend.
  destruct (Qltb v 0.4) eqn:E1; [apply Qltb_lt in E1|apply Qltb_ge in E1];
    [|destruct (Qltb v 0.7) eqn:E2; [apply Qltb_lt in E2|apply Qltb_ge in E2]];
    cbn; (split; [reflexivity|]); (split; [reflexivity|]).
  - left. done.
  - right; left. done.
  - right; right. done.
Qed.

(** X17. The recommendations: one module per skill of the mastery map, the
    module of a skill carries the type, priority, level and id of its
    mastery band (below 0.4 remedial, below 0.7 practice, else advanced), and
    the modules come in order of mastery, so that no practice or advanced
    module precedes a remedial one and no advanced one precedes a practice
    one. *)
Theorem recommendations_banded_and_ordered
    (self : BKTModel) (skill_masteries : list (string * Q)) (subject : string) :
  let recs := generate_learning_recommendations self skill_masteries subject in
  length recs = length skill_masteries /\
  r_skill <$> recs ≡ₚ skill_masteries.*1 /\
  (forall s v, (s, v) ∈ skill_masteries ->
     exists r, r ∈ recs /\ r_skill r = s /\
       r_id r = (subject +:+ "_" +:+ r_type r +:+ "_" +:+ s)%string /\
       ((v < 0.4 /\ r_type r = "remedial"%string /\ r_priority r = "high"%string) \/
        (0.4 <= v /\ v < 0.7 /\ r_type r = "practice"%string /\
         r_priority r = "medium"%string) \/
        (0.7 <= v /\ r_type r = "advanced"%string /\ r_priority r = "low"%string))) /\
  (forall i j ri rj, (i < j)%nat -> recs !! i = Some ri -> recs !! j = Some rj ->
     (r_type rj = "remedial"%string -> r_type ri = "remedial"%string) /\
     (r_type ri = "advanced"%string -> r_type rj = "advanced"%string)).
Proof.
  cbv zeta. unfold generate_learning_recommendations.
  pose proof (sort_by_mastery_perm skill_masteries) as Hperm.
  pose proof (sort_by_mastery_sorted skill_masteries) as Hsorted.
  set (sorted := sort_by_mastery skill_masteries) in *.
  split; [rewrite length_fmap; apply Permutation_length, Hperm|].
  split; [|split].
  - rewrite <- list_fmap_compose, <- Hperm.
    assert (E : (r_skill ∘ recommend subject) <$> sorted = sorted.*1).
    { apply list_fmap_ext. intros i [s v] _. cbn.
      apply (recommend_fields subject s v). }
    rewrite E. reflexivity.
  - intros s v Hin. rewrite <- Hperm in Hin.
    exists (recommend subject (s, v)).
    split; [apply list_elem_of_fmap; eauto|].
    destruct (recommend_fields subject s v) as (Hs & _ & Hband).
    cbv zeta in *. split; [exact Hs|].
    destruct Hband as [(Hv & -> & -> & _ & ->)|[(Hv1 & Hv2 & -> & -> & _ & ->)
                      |(Hv & -> & -> & _ & ->)]];
      (split; [reflexivity|]); [left|right; left|right; right]; done.
  - intros i j ri rj Hij Hi Hj.
    apply list_lookup_fmap_Some in Hi as ([si vi] & -> & Ei).
    apply list_lookup_fmap_Some in Hj as ([sj vj] & -> & Ej).
    assert (Hle : vi <= vj).
    { exact (StronglySorted_lookup (fun a b : string * Q => a.2 <= b.2) sorted
               i j (si, vi) (sj, vj) Hsorted Hij Ei Ej). }
    destruct (recommend_fields subject si vi) as (_ & _ & Hbi).
    destruct (recommend_fields subject sj vj) as (_ & _ & Hbj).
    cbv zeta in *.
    destruct Hbi as [(Hvi & Hti & _)|[(Hvi1 & Hvi2 & Hti & _)|(Hvi & Hti & _)]];
      destruct Hbj as [(Hvj & Htj & _)|[(Hvj1 & Hvj2 & Htj & _)|(Hvj & Htj & _)]];
      rewrite Hti, Htj; split; intros; try done; try lra.
Qed.

(** * Properties of [generate_learning_path] *)

Lemma module_hours_add_duration (m : Recommendation) :
  module_hours (add_duration m)
  = Some (if String.eqb (r_type m) "remedial" then 2
          else if String.eqb (r_type m) "practice" then 3 else 4)%Z.
Proof.
  unfold module_hours, add_duration. cbn [r_recommended_duration].
  destruct (String.eqb (r_type m) "remedial"); [reflexivity|].
  destruct (String.eqb (r_type m) "practice"); reflexivity.
Qed.

Lemma r_type_add_duration (m : Recommendation) : r_type (add_duration m) = r_type m.
Proof. reflexivity. Qed.

(** Summing the hours never fails on modules that went through
    [add_duration]. *)
Lemma sum_hours_add_duration (modules : list Recommendation) :
  sum_hours (add_duration <$> modules)
  = Some (2 * Z.of_nat (length (filter (fun m => r_type m = "remedial"%string) modules))
          + 3 * Z.of_nat (length (filter (fun m => r_type m = "practice"%string) modules))
          + 4 * Z.of_nat (length (filter (fun m => r_type m <> "remedial"%string /\
                                                   r_type m <> "practice"%string)
                                    modules)))%Z.
Proof.
  induction modules as [|m modules IH]; [reflexivity|].
  cbn [fmap list_fmap sum_hours]. fold (fmap add_duration modules).
  rewrite module_hours_add_duration, IH. rewrite !filter_cons.
  destruct (String.eqb (r_type m) "remedial") eqn:E1.
  - apply String.eqb_eq in E1. rewrite E1.
    repeat (destruct (decide _) as [?|?]; try (exfalso; intuition congruence)).
    f_equal. cbn [length]. lia.
  - apply String.eqb_neq in E1.
    destruct (String.eqb (r_type m) "practice") eqn:E2.
    + apply String.eqb_eq in E2. rewrite E2.
      repeat (destruct (decide _) as [?|?]; try (exfalso; intuition congruence)).
      f_equal. cbn [length]. lia.
    + apply String.eqb_neq in E2.
      repeat (destruct (decide _) as [?|?]; try (exfalso; intuition congruence)).
      f_equal. cbn [length]. lia.
Qed.

Lemma filter_ext_elem {A : Type} (P Q : A -> Prop)
    `{forall x, Decision (P x)} `{forall x, Decision (Q x)} (l : list A) :
  (forall x, x ∈ l -> P x <-> Q x) -> filter P l = filter Q l.
Proof.
  induction l as [|x l IH]; intros Hl; [reflexivity|].
  rewrite !filter_cons.
  rewrite IH by (intros y Hy; apply Hl; right; exact Hy).
  pose proof (Hl x ltac:(left)) as Hx.
  destruct (decide (P x)), (decide (Q x)); tauto || reflexivity.
Qed.

Lemma filter_three_way {A : Type} (P Q : A -> Prop)
    `{forall x, Decision (P x)} `{forall x, Decision (Q x)} (l : list A) :
  (forall x, P x -> Q x -> False) ->
  (length (filter P l) + length (filter Q l)
   + length (filter (fun x => ~ P x /\ ~ Q x) l) = length l)%nat.
Proof.
  intros Hdisj. induction l as [|x l IH]; [reflexivity|].
  rewrite !filter_cons.
  repeat (destruct (decide _) as [?|?]; try (exfalso; intuition eauto; fail));
    cbn [length]; lia.
Qed.

Lemma generate_learning_path_unfold (skill_masteries : list (string * Q))
    (answers : list (string * Answer)) (question_details : list (string * Question))
    (subject : string) :
  exists lp,
    generate_learning_path skill_masteries answers question_details subject = Some lp /\
    lp_subject lp = subject /\
    lp_modules lp
    = add_duration <$> generate_learning_recommendations default_model
                         skill_masteries subject /\
    lp_strengths lp = strengths (analyze_skills skill_masteries) /\
    lp_areas_for_improvement lp = weaknesses (analyze_skills skill_masteries) /\
    sum_hours (lp_modules lp)
    = Some (default 0%Z (sum_hours (lp_modules lp))) /\
    lp_estimated_completion_time lp
    = (pretty (default 0%Z (sum_hours (lp_modules lp))) +:+ " hours")%string.
Proof.
  unfold generate_learning_path. cbv zeta.
  set (recs := generate_learning_recommendations default_model skill_masteries subject).
  rewrite (sum_hours_add_duration recs). eexists. split; [reflexivity|].
  cbn [lp_subject lp_modules lp_strengths lp_areas_for_improvement
       lp_estimated_completion_time an_skill_analysis analyze_assessment_results].
  rewrite (sum_hours_add_duration recs). done.
Qed.

(** X18. Estimated completion time: [generate_learning_path] always returns
    a path (summing the hours never raises), with one module per skill, each
    carrying the duration of its type (remedial 2, practice 3, advanced 4
    hours); the estimate is "N hours" where N is twice the number of
    remedial modules plus three times the practice ones plus four times the
    advanced ones, so N lies between 2 and 4 times the number of skills. *)
Theorem learning_path_hours
    (skill_masteries : list (string * Q)) (answers : list (string * Answer))
    (question_details : list (string * Question)) (subject : string) :
  exists lp total,
    generate_learning_path skill_masteries answers question_details subject = Some lp /\
    length (lp_modules lp) = length skill_masteries /\
    (forall m, m ∈ lp_modules lp ->
       (r_type m = "remedial"%string /\ r_recommended_duration m = Some "2 hours"%string) \/
       (r_type m = "practice"%string /\ r_recommended_duration m = Some "3 hours"%string) \/
       (r_type m = "advanced"%string /\ r_recommended_duration m = Some "4 hours"%string)) /\
    lp_estimated_completion_time lp = (pretty total +:+ " hours")%string /\
    total
    = (2 * Z.of_nat (length (filter (fun m => r_type m = "remedial"%string) (lp_modules lp)))
       + 3 * Z.of_nat (length (filter (fun m => r_type m = "practice"%string) (lp_modules lp)))
       + 4 * Z.of_nat (length (filter (fun m => r_type m = "advanced"%string) (lp_modules lp))))%Z /\
    (2 * Z.of_nat (length skill_masteries) <= total
     <= 4 * Z.of_nat (length skill_masteries))%Z.
Proof.
  destruct (generate_learning_path_unfold skill_masteries answers question_details
              subject) as (lp & Hlp & _ & Hmods & _ & _ & Hsum & Htime).
  set (recs := generate_learning_recommendations default_model skill_masteries subject) in *.
  assert (Hlen : length recs = length skill_masteries).
  { unfold recs, generate_learning_recommendations. rewrite length_fmap.
    apply Permutation_length, sort_by_mastery_perm. }
  assert (Htypes : forall m, m ∈ recs ->
            r_type m = "remedial"%string \/ r_type m = "practice"%string \/
            r_type m = "advanced"%string).
  { intros m Hm. unfold recs, generate_learning_recommendations in Hm.
    apply list_elem_of_fmap in Hm as ([s v] & -> & _).
    destruct (recommend_fields subject s v) as (_ & _ & Hb). cbv zeta in Hb.
    destruct Hb as [(_ & Ht & _)|[(_ & _ & Ht & _)|(_ & Ht & _)]]; tauto. }
  assert (Hfilter : forall (P : string -> Prop) `{forall x, Decision (P x)},
            length (filter (fun m => P (r_type m)) (lp_modules lp))
            = length (filter (fun m => P (r_type m)) recs)).
  { intros P HP. rewrite Hmods. clear. induction recs as [|m recs IH]; [reflexivity|].
    cbn [fmap list_fmap]. fold (fmap add_duration recs). rewrite !filter_cons.
    rewrite r_type_add_duration. destruct (decide (P (r_type m))); cbn [length]; lia. }
  exists lp, (default 0%Z (sum_hours (lp_modules lp))).
  split; [exact Hlp|]. split; [rewrite Hmods, length_fmap; exact Hlen|].
  split; [|split; [exact Htime|]].
  - intros m Hm. rewrite Hmods in Hm. apply list_elem_of_fmap in Hm as (m0 & -> & Hm0).
    rewrite r_type_add_duration. unfold add_duration. cbn [r_recommended_duration].
    destruct (Htypes m0 Hm0) as [-> | [-> | ->]]; cbn; tauto.
  - assert (Hadv : filter (fun m => r_type m <> "remedial"%string /\
                                    r_type m <> "practice"%string) recs
                   = filter (fun m => r_type m = "advanced"%string) recs).
    { apply filter_ext_elem. intros m Hm.
      destruct (Htypes m Hm) as [-> | [-> | ->]]; split; intros; try done;
        intuition congruence. }
    pose proof (Hfilter (fun t => t = "remedial"%string) _) as Hr.
    pose proof (Hfilter (fun t => t = "practice"%string) _) as Hp.
    pose proof (Hfilter (fun t => t = "advanced"%string) _) as Ha.
    cbv beta in Hr, Hp, Ha. rewrite Hr, Hp, Ha.
    rewrite Hmods, (sum_hours_add_duration recs), Hadv. cbn [default from_option id].
    split; [reflexivity|].
    pose proof (filter_three_way (fun m => r_type m = "remedial"%string)
                  (fun m => r_type m = "practice"%string) recs) as H3.
    cbv beta in H3. change (fun x : Recommendation =>
                              ~ r_type x = "remedial"%string /\
                              ~ r_type x = "practice"%string)
      with (fun m : Recommendation =>
              r_type m <> "remedial"%string /\ r_type m <> "practice"%string) in H3.
    rewrite Hadv in H3. rewrite <- Hlen. specialize (H3 ltac:(intros m ->; discriminate)).
    lia.
Qed.

(** X19. The modules agree with the analysis in one direction: in the
    learning path every remedial module belongs to a skill listed under
    areas for improvement, and every skill listed as a strength gets an
    advanced module of 4 hours. *)
Theorem learning_path_modules_match_analysis
    (skill_masteries : list (string * Q)) (answers : list (string * Answer))
    (question_details : list (string * Question)) (subject : string) :
  exists lp,
    generate_learning_path skill_masteries answers question_details subject = Some lp /\
    (forall m, m ∈ lp_modules lp -> r_type m = "remedial"%string ->
       r_skill m ∈ lp_areas_for_improvement lp) /\
    (forall s, s ∈ lp_strengths lp ->
       exists m, m ∈ lp_modules lp /\ r_skill m = s /\
                 r_type m = "advanced"%string /\
                 r_recommended_duration m = Some "4 hours"%string).
Proof.
  destruct (generate_learning_path_unfold skill_masteries answers question_details
              subject) as (lp & Hlp & _ & Hmods & Hstr & Hweak & _ & _).
  destruct (analyze_skills_members skill_masteries) as (Hs & Hw & _).
  cbv zeta in Hs, Hw.
  exists lp. split; [exact Hlp|]. rewrite Hmods, Hstr, Hweak.
  unfold generate_learning_recommendations. split.
  - intros m Hm Ht. apply list_elem_of_fmap in Hm as (m0 & -> & Hm0).
    apply list_elem_of_fmap in Hm0 as ([s v] & -> & Hin).
    rewrite sort_by_mastery_perm in Hin.
    destruct (recommend_fields subject s v) as (Hskill & _ & Hb). cbv zeta in *.
    rewrite r_type_add_duration in Ht. change (r_skill (add_duration ?x)) with (r_skill x).
    rewrite Hskill. apply Hw. exists v. split; [exact Hin|].
    destruct Hb as [(Hv & _)|[(_ & _ & Ht' & _)|(_ & Ht' & _)]];
      [lra|rewrite Ht' in Ht; discriminate|rewrite Ht' in Ht; discriminate].
  - intros s Hin. apply Hs in Hin as (v & Hin & Hv).
    exists (add_duration (recommend subject (s, v))). split.
    + apply list_elem_of_fmap. eexists. split; [reflexivity|].
      apply list_elem_of_fmap. exists (s, v). split; [reflexivity|].
      rewrite sort_by_mastery_perm. exact Hin.
    + destruct (recommend_fields subject s v) as (Hskill & _ & Hb). cbv zeta in *.
      split; [exact Hskill|].
      destruct Hb as [(Hv' & _)|[(_ & Hv' & _)|(_ & Ht & _)]]; [lra|lra|].
      split; [exact Ht|]. unfold add_duration. cbn [r_recommended_duration].
      rewrite Ht. reflexivity.
Qed.

(** * Properties of [submit_assessment_answer] *)

Lemma dict_get_set_eq {V : Type} (d : list (string * V)) (k : string) (v : V) :
  dict_get (dict_set d k v) k = Some v.
Proof.
  induction d as [|[k' v'] d IH]; cbn.
  - rewrite String.eqb_refl. reflexivity.
  - destruct (String.eqb k' k) eqn:E; cbn; rewrite E; [reflexivity|exact IH].
Qed.

Lemma dict_get_set_ne {V : Type} (d : list (string * V)) (k k' : string) (v : V) :
  k <> k' -> dict_get (dict_set d k v) k' = dict_get d k'.
Proof.
  intros Hne. induction d as [|[k0 v0] d IH]; cbn.
  - rewrite (proj2 (String.eqb_neq k k') Hne). reflexivity.
  - destruct (String.eqb k0 k) eqn:E; cbn.
    + apply String.eqb_eq in E. subst k0.
      rewrite (proj2 (String.eqb_neq k k') Hne). reflexivity.
    + destruct (String.eqb k0 k'); [reflexivity|exact IH].
Qed.

Lemma dict_set_elem {V : Type} (d : list (string * V)) (k : string) (v : V)
    (k' : string) (v' : V) :
  (k', v') ∈ dict_set d k v -> (k', v') ∈ d \/ (k' = k /\ v' = v).
Proof.
  induction d as [|[k0 v0] d IH]; cbn.
  - intros H. apply list_elem_of_singleton in H as [= -> ->]. right. done.
  - destruct (String.eqb k0 k) eqn:E.
    + apply String.eqb_eq in E. subst k0. intros H.
      apply elem_of_cons in H as [[= -> ->]|H]; [right; done|left; right; exact H].
    + intros H. apply elem_of_cons in H as [->|H]; [left; left|].
      destruct (IH H) as [H'|H']; [left; right; exact H'|right; exact H'].
Qed.

Lemma dict_set_keys {V : Type} (d : list (string * V)) (k : string) (v : V)
    (k' : string) :
  k' ∈ (dict_set d k v).*1 -> k' = k \/ k' ∈ d.*1.
Proof.
  intros H. apply list_elem_of_fmap in H as ([k0 v0] & -> & H).
  apply dict_set_elem in H as [H|[-> _]]; [right|left; reflexivity].
  apply list_elem_of_fmap. exists (k0, v0). done.
Qed.

(** What the handler computes once every check has passed. *)
Lemma submit_assessment_answer_saved (normalize : string -> string)
    (assessment : option Assessment) (find_question : string -> option StoredQuestion)
    (request : AssessmentAnswerRequest) (t_answer t_completed t_updated : string)
    (saved : Assessment) (outcome : Outcome AnswerResponse) :
  submit_assessment_answer normalize assessment find_question request
    t_answer t_completed t_updated = (Some saved, outcome) ->
  exists a question correct_answer,
    assessment = Some a /\
    as_status a = "in_progress"%string /\
    find_question (req_question_id request) = Some question /\
    sq_correct_answer question = Some correct_answer /\
    (as_current_index a < Z.of_nat (length (as_questions a)))%Z /\
    py_list_get (as_questions a) (as_current_index a) = Some (req_question_id request) /\
    let is_correct :=
      String.eqb (normalize (req_answer request)) (normalize correct_answer) in
    let skill := skill_or_unknown (sq_fields question) in
    let is_complete :=
      (Z.of_nat (length (as_questions a)) <=? as_current_index a + 1)%Z in
    saved =
    mkAssessment (as_assessment_id a) (as_user_id a) (as_subject a) (as_questions a)
      (as_current_index a + 1)
      (dict_set (as_answers a) (req_question_id request)
         (mkAnswer (req_answer request) (Some is_correct) t_answer))
      (dict_set (as_skill_masteries a) skill
         (update_mastery default_model
            (default (p_init default_model) (dict_get (as_skill_masteries a) skill))
            is_correct
            (Some (default "medium"%string (q_difficulty (sq_fields question))))))
      (if is_complete then "completed"%string else as_status a)
      (as_created_at a) t_updated
      (if is_complete then Some t_completed else as_completed_at a) /\
    outcome = answer_response find_question request saved is_correct correct_answer
                skill is_complete.
Proof.
  unfold submit_assessment_answer. destruct assessment as [a|]; [|discriminate].
  destruct (String.eqb (as_status a) "in_progress") eqn:Es; [|discriminate].
  apply String.eqb_eq in Es. cbn [negb].
  destruct (find_question (req_question_id request)) as [question|] eqn:Eq;
    [|discriminate].
  cbv zeta.
  destruct (Z.of_nat (length (as_questions a)) <=? as_current_index a)%Z eqn:Ei;
    [discriminate|]. apply Z.leb_gt in Ei.
  destruct (py_list_get (as_questions a) (as_current_index a)) as [expected|] eqn:Eg;
    [|discriminate].
  destruct (String.eqb expected (req_question_id request)) eqn:Ee; [|discriminate].
  apply String.eqb_eq in Ee. subst expected. cbn [negb].
  destruct (sq_correct_answer question) as [correct_answer|] eqn:Ec; [|discriminate].
  intros [= <- <-]. exists a, question, correct_answer. done.
Qed.

(** X20. An answer is accepted, and the assessment saved, exactly when the
    assessment exists and is in progress, the question exists and has a
    correct answer, and it is the question expected at the current index;
    the saved assessment then has the same questions, the index advanced by
    one, the answer stored under the question id, and is completed exactly
    when the new index reaches the number of questions. *)
Theorem assessment_answer_step
    (normalize : string -> string) (assessment : option Assessment)
    (find_question : string -> option StoredQuestion)
    (request : AssessmentAnswerRequest) (t_answer t_completed t_updated : string) :
  let result := submit_assessment_answer normalize assessment find_question
                  request t_answer t_completed t_updated in
  (is_Some result.1 <->
   exists a question,
     assessment = Some a /\ as_status a = "in_progress"%string /\
     find_question (req_question_id request) = Some question /\
     is_Some (sq_correct_answer question) /\
     (as_current_index a < Z.of_nat (length (as_questions a)))%Z /\
     py_list_get (as_questions a) (as_current_index a)
     = Some (req_question_id request)) /\
  (forall a saved, assessment = Some a -> result.1 = Some saved ->
     as_questions saved = as_questions a /\
     as_assessment_id saved = as_assessment_id a /\
     as_current_index saved = (as_current_index a + 1)%Z /\
     (exists is_correct,
        dict_get (as_answers saved) (req_question_id request)
        = Some (mkAnswer (req_answer request) (Some is_correct) t_answer)) /\
     (as_status saved = "completed"%string <->
      (Z.of_nat (length (as_questions a)) <= as_current_index a + 1)%Z) /\
     (as_status saved = "in_progress"%string <->
      (as_current_index a + 1 < Z.of_nat (length (as_questions a)))%Z)).
Proof.
  cbv zeta. split; [split|].
  - intros [saved Hs].
    destruct (submit_assessment_answer _ _ _ _ _ _ _) as [o outcome] eqn:E.
    cbn in Hs. subst o.
    apply submit_assessment_answer_saved in E
      as (a & question & ca & -> & H1 & H2 & H3 & H4 & H5 & _).
    exists a, question. rewrite H3. eauto 10.
  - intros (a & question & -> & Hs & Hq & [ca Hc] & Hi & Hg).
    unfold submit_assessment_answer. rewrite Hs, Hq.
    change (negb (String.eqb "in_progress" "in_progress")) with false.
    cbv zeta iota.
    rewrite (proj2 (Z.leb_gt _ _) Hi), Hg, String.eqb_refl, Hc. cbn. eauto.
  - intros a saved -> Hs.
    destruct (submit_assessment_answer _ _ _ _ _ _ _) as [o outcome] eqn:E.
    cbn in Hs. subst o.
    apply submit_assessment_answer_saved in E
      as (a' & question & ca & [= <-] & H1 & H2 & H3 & H4 & H5 & -> & _).
    cbn [as_questions as_assessment_id as_current_index as_answers as_status].
    split; [reflexivity|]. split; [reflexivity|]. split; [reflexivity|].
    split; [eexists; apply dict_get_set_eq|].
    destruct (Z.of_nat (length (as_questions a)) <=? as_current_index a + 1)%Z eqn:Ec;
      [apply Z.leb_le in Ec|apply Z.leb_gt in Ec]; rewrite ?H1;
      split; split; intros; try done; lia.
Qed.

Lemma update_mastery_unit_interval (self : BKTModel) (c : Q) (b : bool)
    (d : option string) :
  0 <= update_mastery self c b d <= 1.
Proof. rewrite update_mastery_unfold. apply clamp_range. Qed.

Lemma py_list_get_nonneg {A : Type} (l : list A) (i : Z) (x : A) :
  (0 <= i)%Z -> py_list_get l i = Some x -> l !! Z.to_nat i = Some x.
Proof.
  intros Hi. unfold py_list_get. rewrite (proj2 (Z.leb_le 0 i) Hi). done.
Qed.

(** X21. The assessment invariant is kept by every accepted answer: the
    assessment stays in progress with its index inside the question list or
    becomes completed with the index at the end and a completion time; the
    answered ids stay among the questions already asked; every mastery stays
    in [0,1]. *)
Theorem assessment_invariant_preserved
    (normalize : string -> string) (a : Assessment)
    (find_question : string -> option StoredQuestion)
    (request : AssessmentAnswerRequest) (t_answer t_completed t_updated : string)
    (saved : Assessment) (outcome : Outcome AnswerResponse) :
  assessment_invariant a ->
  submit_assessment_answer normalize (Some a) find_question request
    t_answer t_completed t_updated = (Some saved, outcome) ->
  assessment_invariant saved.
Proof.
  intros (Hst & Hans & Hm) E.
  apply submit_assessment_answer_saved in E
    as (a' & question & ca & [= <-] & H1 & H2 & H3 & H4 & H5 & -> & _).
  destruct Hst as [[_ Hidx]|[Hc _]]; [|rewrite H1 in Hc; discriminate].
  unfold assessment_invariant.
  cbn [as_status as_current_index as_questions as_completed_at as_answers
       as_skill_masteries].
  split; [|split].
  - destruct (Z.of_nat (length (as_questions a)) <=? as_current_index a + 1)%Z eqn:Ec;
      [apply Z.leb_le in Ec|apply Z.leb_gt in Ec].
    + right. split; [reflexivity|]. split; [lia|eauto].
    + left. split; [exact H1|lia].
  - intros k Hk. apply elem_of_take.
    apply dict_set_keys in Hk as [->|Hk].
    + exists (Z.to_nat (as_current_index a)).
      split; [apply py_list_get_nonneg; [lia|exact H5]|lia].
    + apply Hans, elem_of_take in Hk as (i & Hi & Hlt). exists i. split; [exact Hi|lia].
  - intros s v Hin. apply dict_set_elem in Hin as [Hin|[_ ->]]; [exact (Hm s v Hin)|].
    apply update_mastery_unit_interval.
Qed.

Lemma assessment_invariant_preserved_witness :
  let a := mkAssessment "a1" "u1" "python" ["q1"; "q2"]%string 0 []
             [("loops"%string, 0.3)] "in_progress" "t0" "t0" None in
  let db := fun id : string =>
    if String.eqb id "q1" then
      Some (mkStoredQuestion
              (mkQuestion (Some "q1") "for?" (Some "loops") (Some "easy"))
              (Some "for?") None (Some "B"))%string
    else if String.eqb id "q2" then
      Some (mkStoredQuestion
              (mkQuestion (Some "q2") "while?" (Some "loops") (Some "hard"))
              (Some "while?") None (Some "A"))%string
    else None in
  let result := submit_assessment_answer (fun s => s) (Some a) db
                  (mkAssessmentAnswerRequest "a1" "q1" "B") "t1" "t2" "t3" in
  assessment_invariant a /\
  exists saved, result.1 = Some saved /\ assessment_invariant saved.
Proof.
  intros a db result.
  assert (Hinv : assessment_invariant a).
  { split; [left; split; [reflexivity|cbn; lia]|]. split.
    - intros k Hk. by apply elem_of_nil in Hk.
    - intros s v Hin. apply list_elem_of_singleton in Hin as [= -> ->].
      split; discriminate. }
  split; [exact Hinv|].
  destruct result as [[saved|] outcome] eqn:E; [|discriminate].
  exists saved. split; [reflexivity|].
  exact (assessment_invariant_preserved (fun s => s) a db
           (mkAssessmentAnswerRequest "a1" "q1" "B") "t1" "t2" "t3"
           saved outcome Hinv E).
Defined.

(** X22. An accepted answer changes the mastery of the question's skill
    only: its new mastery is the BKT update of the old one (of [p_init] for
    a skill not seen before) for the graded answer and the question's
    difficulty (medium when missing); every other skill keeps its mastery. *)
Theorem assessment_answer_updates_one_skill
    (normalize : string -> string) (a : Assessment)
    (find_question : string -> option StoredQuestion)
    (request : AssessmentAnswerRequest) (t_answer t_completed t_updated : string)
    (saved : Assessment) (outcome : Outcome AnswerResponse) :
  submit_assessment_answer normalize (Some a) find_question request
    t_answer t_completed t_updated = (Some saved, outcome) ->
  exists question correct_answer,
    find_question (req_question_id request) = Some question /\
    sq_correct_answer question = Some correct_answer /\
    let skill := default "unknown"%string (q_skill (sq_fields question)) in
    dict_get (as_skill_masteries saved) skill
    = Some (update_mastery default_model
              (default 0.3 (dict_get (as_skill_masteries a) skill))
              (String.eqb (normalize (req_answer request)) (normalize correct_answer))
              (Some (default "medium"%string (q_difficulty (sq_fields question))))) /\
    forall s, s <> skill ->
      dict_get (as_skill_masteries saved) s = dict_get (as_skill_masteries a) s.
Proof.
  intros E.
  apply submit_assessment_answer_saved in E
    as (a' & question & ca & [= <-] & H1 & H2 & H3 & H4 & H5 & -> & _).
  exists question, ca. split; [exact H2|]. split; [exact H3|].
  cbv zeta. cbn [as_skill_masteries]. split.
  - apply dict_get_set_eq.
  - intros s Hs. apply dict_get_set_ne. intros Heq. apply Hs.
    rewrite <- Heq. reflexivity.
Qed.

Lemma assessment_answer_updates_one_skill_witness :
  let a := mkAssessment "a1" "u1" "python" ["q1"]%string 0 []
             [("loops"%string, 0.5)] "in_progress" "t0" "t0" None in
  let question :=
    mkStoredQuestion (mkQuestion (Some "q1") "for?" None None)
      (Some "for?"%string) None (Some "B"%string) in
  let db := fun id : string => if String.eqb id "q1" then Some question else None in
  let request := mkAssessmentAnswerRequest "a1" "q1" "B" in
  exists saved outcome,
    submit_assessment_answer (fun s => s) (Some a) db request "t1" "t2" "t3"
    = (Some saved, outcome) /\
    dict_get (as_skill_masteries saved) "unknown"
    = Some (update_mastery default_model 0.3 true (Some "medium"%string)) /\
    dict_get (as_skill_masteries saved) "loops" = Some 0.5.
Proof.
  intros a question db request.
  destruct (submit_assessment_answer (fun s => s) (Some a) db request "t1" "t2" "t3")
    as [[saved|] outcome] eqn:E; [|discriminate].
  exists saved, outcome. split; [reflexivity|].
  destruct (assessment_answer_updates_one_skill (fun s => s) a db request
              "t1" "t2" "t3" saved outcome E)
    as (q' & ca & Hq & Hca & Hskill & Hother).
  injection Hq as <-. injection Hca as <-.
  split; [exact Hskill|]. apply (Hother "loops"%string). discriminate.
Defined.

(** X23. The answer is saved before the next question is looked up: when an
    accepted answer leaves the assessment in progress and the next question
    id is not found, the assessment is saved all the same while the
    request fails with a [TypeError]. *)
Theorem assessment_answer_saved_before_lookup
    (normalize : string -> string) (a : Assessment)
    (find_question : string -> option StoredQuestion)
    (request : AssessmentAnswerRequest) (t_answer t_completed t_updated : string)
    (saved : Assessment) (outcome : Outcome AnswerResponse) (next_id : string) :
  submit_assessment_answer normalize (Some a) find_question request
    t_answer t_completed t_updated = (Some saved, outcome) ->
  as_status saved = "in_progress"%string ->
  py_list_get (as_questions saved) (as_current_index saved) = Some next_id ->
  find_question next_id = None ->
  outcome = Raised "TypeError" /\
  as_current_index saved = (as_current_index a + 1)%Z /\
  is_Some (dict_get (as_answers saved) (req_question_id request)).
Proof.
  intros E Hst Hnext Hnone.
  apply submit_assessment_answer_saved in E
    as (a' & question & ca & [= <-] & H1 & H2 & H3 & H4 & H5 & Hsaved & ->).
  cbv zeta in Hsaved.
  assert (Hc : (Z.of_nat (length (as_questions a)) <=? as_current_index a + 1)%Z
               = false).
  { destruct (_ <=? _)%Z eqn:Ec; [|reflexivity].
    rewrite Hsaved in Hst. cbn [as_status] in Hst. discriminate. }
  split; [|split].
  - rewrite Hc. unfold answer_response. rewrite Hnext, Hnone. reflexivity.
  - rewrite Hsaved. reflexivity.
  - rewrite Hsaved. cbn [as_answers]. rewrite dict_get_set_eq. eauto.
Qed.

Lemma assessment_answer_saved_before_lookup_witness :
  let a := mkAssessment "a1" "u1" "python" ["q1"; "q2"]%string 0 []
             [("loops"%string, 0.3)] "in_progress" "t0" "t0" None in
  let question :=
    mkStoredQuestion (mkQuestion (Some "q1") "for?" (Some "loops") None)
      (Some "for?"%string) None (Some "B"%string) in
  let db := fun id : string => if String.eqb id "q1" then Some question else None in
  let request := mkAssessmentAnswerRequest "a1" "q1" "C" in
  exists saved,
    submit_assessment_answer (fun s => s) (Some a) db request "t1" "t2" "t3"
    = (Some saved, Raised "TypeError") /\
    as_status saved = "in_progress"%string /\
    py_list_get (as_questions saved) (as_current_index saved) = Some "q2"%string /\
    db "q2"%string = None /\
    as_current_index saved = 1%Z.
Proof.
  intros a question db request.
  destruct (submit_assessment_answer (fun s => s) (Some a) db request "t1" "t2" "t3")
    as [[saved|] outcome] eqn:E; [|discriminate].
  assert (H1 : as_status saved = "in_progress"%string)
    by (injection E as <- _; reflexivity).
  assert (H2 : py_list_get (as_questions saved) (as_current_index saved)
               = Some "q2"%string)
    by (injection E as <- _; reflexivity).
  assert (H3 : db "q2"%string = None) by reflexivity.
  destruct (assessment_answer_saved_before_lookup (fun s => s) a db request
              "t1" "t2" "t3" saved outcome "q2"%string E H1 H2 H3) as (-> & Hi & _).
  exists saved. repeat (split; [done|]). exact Hi.
Defined.

(** * The in-memory database *)

Lemma filter_three_way_length {A : Type} (P : A -> Prop) `{forall x, Decision (P x)}
    (l : list A) :
  (length (filter P l) + length (filter (fun x => ~ P x) l) = length l)%nat.
Proof.
  induction l as [|x l IH]; [reflexivity|]. rewrite !filter_cons.
  destruct (decide (P x)).
  - rewrite decide_False by tauto. cbn [length]. lia.
  - rewrite decide_True by tauto. cbn [length]. lia.
Qed.

Lemma match_filter_spec `{PyValue Value} (doc filter_dict : Document Value) :
  match_filter doc filter_dict = true <->
  forall key value, (key, value) ∈ filter_dict -> dict_get doc key = Some value.
Proof.
  assert (E : match_filter doc filter_dict
              = forallb (fun item => match dict_get doc item.1 with
                                     | None => false
                                     | Some value => bool_decide (value = item.2)
                                     end) filter_dict)
    by (destruct filter_dict; reflexivity).
  rewrite E, forallb_forall. split.
  - intros Hall key value Hin. apply list_elem_of_In in Hin.
    specialize (Hall _ Hin). cbn in Hall.
    destruct (dict_get doc key) as [v|]; [|discriminate].
    apply bool_decide_eq_true in Hall. by subst.
  - intros Hall [key value] Hin. apply list_elem_of_In in Hin.
    cbn [fst snd]. rewrite (Hall _ _ Hin). by apply bool_decide_eq_true.
Qed.

Lemma find_head_filter {A : Type} (p : A -> bool) (l : list A) :
  List.find p l = head (filter (fun x => p x = true) l).
Proof.
  induction l as [|x l IH]; [reflexivity|]. cbn [List.find].
  rewrite filter_cons. destruct (p x) eqn:E.
  - rewrite decide_True by done. reflexivity.
  - rewrite decide_False by discriminate. exact IH.
Qed.

Lemma sum_ones_length {A : Type} (l : list A) (acc : Z) :
  foldl Z.add acc ((fun _ => 1%Z) <$> l) = (acc + Z.of_nat (length l))%Z.
Proof.
  revert acc. induction l as [|x l IH]; intros acc; cbn [fmap list_fmap foldl length].
  - lia.
  - rewrite IH. lia.
Qed.

Lemma dict_set_same {V : Type} (d : list (string * V)) (k : string) (v : V) :
  dict_get d k = Some v -> dict_set d k v = d.
Proof.
  induction d as [|[k' v'] d IH]; [discriminate|]. cbn.
  destruct (String.eqb k' k) eqn:E.
  - intros [= ->]. reflexivity.
  - intros Hd. by rewrite IH.
Qed.

(** X24. The three queries of a collection agree. On a collection that
    exists, [find] gives the stored documents that contain every item of the
    filter, in stored order (all of them for no filter or an empty one),
    [find_one] gives the first of these or [None], [count_documents] their
    number, and [to_list] of the cursor all of them or, with a length, a
    prefix; on a name without collection all three queries raise
    [KeyError]. *)
Theorem collection_queries_agree `{PyValue Value} (self : InMemoryDatabase Value)
    (name : string) (filter_dict : Document Value) :
  match dict_get (collections self) name with
  | None =>
      find self name (Some filter_dict) = Raised "KeyError" /\
      find_one self name filter_dict = Raised "KeyError" /\
      count_documents self name filter_dict = Raised "KeyError"
  | Some docs =>
      exists matching,
        find self name (Some filter_dict) = Ok (mkInMemoryCursor matching 0) /\
        sublist matching docs /\
        (forall doc, doc ∈ matching <->
           doc ∈ docs /\
           forall key value, (key, value) ∈ filter_dict ->
                             dict_get doc key = Some value) /\
        (filter_dict = [] -> matching = docs) /\
        find self name None = Ok (mkInMemoryCursor docs 0) /\
        find_one self name filter_dict = Ok (head matching) /\
        count_documents self name filter_dict = Ok (Z.of_nat (length matching)) /\
        to_list (mkInMemoryCursor matching 0) None = matching /\
        forall length, to_list (mkInMemoryCursor matching 0) (Some length)
                       `prefix_of` matching
  end.
Proof.
  unfold find, find_one, count_documents. cbn [default].
  destruct (dict_get (collections self) name) as [docs|]; [|done].
  eexists. split; [reflexivity|]. split; [apply sublist_filter|].
  split; [|split; [|split; [|split; [|split; [|split]]]]].
  - intros doc. rewrite list_elem_of_filter, match_filter_spec. tauto.
  - intros ->. apply filter_all_accepted. intros doc _. reflexivity.
  - f_equal. f_equal. apply filter_all_accepted. intros doc _. reflexivity.
  - by rewrite find_head_filter.
  - by rewrite sum_ones_length.
  - reflexivity.
  - intros n. unfold to_list, py_take. cbn [cursor_data].
    destruct (0 <=? n)%Z; apply prefix_take.
Qed.

Lemma dict_get_set_cases {V : Type} (d : list (string * V)) (k k' : string) (v : V) :
  dict_get (dict_set d k v) k' = if String.eqb k k' then Some v else dict_get d k'.
Proof.
  destruct (String.eqb k k') eqn:E.
  - apply String.eqb_eq in E as <-. apply dict_get_set_eq.
  - apply String.eqb_neq in E. by apply dict_get_set_ne.
Qed.

Lemma counters_cover_new `{PyValue Value}
    (questions_data : option (list (string * Document Value))) :
  counters_cover (new_database questions_data).
Proof.
  intros name. unfold new_database. cbn [collections id_counters dict_get].
  repeat (destruct (String.eqb _ name); [eauto|]). by intros [? ?].
Qed.

Lemma counters_cover_get_collection {Value : Type} (self : InMemoryDatabase Value)
    (name : string) :
  counters_cover self -> counters_cover (get_collection self name).
Proof.
  intros Hc other. unfold get_collection.
  destruct (dict_get (collections self) name) eqn:E; [apply Hc|].
  cbn [collections id_counters]. rewrite !dict_get_set_cases.
  destruct (String.eqb name other); [eauto|apply Hc].
Qed.

Lemma get_collection_present {Value : Type} (self : InMemoryDatabase Value)
    (name : string) :
  is_Some (dict_get (collections (get_collection self name)) name).
Proof.
  unfold get_collection. destruct (dict_get (collections self) name) eqn:E.
  - rewrite E. eauto.
  - cbn [collections]. rewrite dict_get_set_eq. eauto.
Qed.

(** What [insert_one] does on a collection that exists and has a counter. *)
Lemma insert_one_present `{PyValue Value} (self : InMemoryDatabase Value)
    (name : string) (document : Document Value) (docs : list (Document Value))
    (counter : Z) :
  dict_get (collections self) name = Some docs ->
  dict_get (id_counters self) name = Some counter ->
  insert_one self name document
  = match dict_get document "_id" with
    | Some id =>
        (mkInMemoryDatabase (dict_set (collections self) name (docs ++ [document]))
           (id_counters self), Ok (document, id))
    | None =>
        let id := VStr (pretty counter) in
        let stored := dict_set document "_id" id in
        (mkInMemoryDatabase (dict_set (collections self) name (docs ++ [stored]))
           (dict_set (id_counters self) name (counter + 1)%Z), Ok (stored, id))
    end.
Proof.
  intros Hd Hc. unfold insert_one, assign_id, append_copy.
  destruct (dict_get document "_id") as [id|] eqn:Ei.
  - rewrite Hd, Ei. reflexivity.
  - rewrite Hc. cbn [collections id_counters]. rewrite Hd, dict_get_set_eq. reflexivity.
Qed.

(** X25. Every collection of a database keeps an id counter, so a
    collection obtained from [get_collection] accepts every document:
    [insert_one] returns, the document is stored last with an [_id] that is
    the one returned, a document that brings its [_id] is stored as it is
    and leaves the counter alone, a document without gets the counter as a
    string and moves the counter by one; the other collections and counters
    are untouched and every collection still has its counter. *)
Theorem insert_one_after_get_collection `{PyValue Value}
    (self : InMemoryDatabase Value) (name : string) (document : Document Value) :
  counters_cover self ->
  let db := get_collection self name in
  exists db' stored id docs counter,
    insert_one db name document = (db', Ok (stored, id)) /\
    dict_get stored "_id" = Some id /\
    dict_get (collections db) name = Some docs /\
    dict_get (id_counters db) name = Some counter /\
    dict_get (collections db') name = Some (docs ++ [stored]) /\
    match dict_get document "_id" with
    | Some _ => stored = document /\ dict_get (id_counters db') name = Some counter
    | None =>
        stored = dict_set document "_id" (VStr (pretty counter)) /\
        dict_get (id_counters db') name = Some (counter + 1)%Z
    end /\
    (forall other, other <> name ->
       dict_get (collections db') other = dict_get (collections self) other /\
       dict_get (id_counters db') other = dict_get (id_counters self) other) /\
    counters_cover db'.
Proof.
  intros Hcover db.
  pose proof (counters_cover_get_collection self name Hcover) as Hcover'.
  fold db in Hcover'.
  destruct (get_collection_present self name) as [docs Hd]. fold db in Hd.
  destruct (Hcover' name (mk_is_Some _ _ Hd)) as [counter Hc].
  assert (Hother : forall other, other <> name ->
            dict_get (collections db) other = dict_get (collections self) other /\
            dict_get (id_counters db) other = dict_get (id_counters self) other).
  { intros other Hne. unfold db, get_collection.
    destruct (dict_get (collections self) name); [done|].
    cbn [collections id_counters]. by rewrite !dict_get_set_ne. }
  rewrite (insert_one_present db name document docs counter Hd Hc).
  destruct (dict_get document "_id") as [id|] eqn:Ei.
  - eexists _, document, id, docs, counter. split; [reflexivity|].
    cbn [collections id_counters]. rewrite dict_get_set_eq.
    repeat (split; [done|]). split.
    + intros other Hne. rewrite dict_get_set_ne by done. by apply Hother.
    + intros other. cbn [collections id_counters]. rewrite dict_get_set_cases.
      destruct (String.eqb name other) eqn:E; [|apply Hcover'].
      apply String.eqb_eq in E as <-. eauto.
  - cbv zeta. eexists _, _, _, docs, counter. split; [reflexivity|].
    cbn [collections id_counters]. rewrite !dict_get_set_eq.
    repeat (split; [done|]). split.
    + intros other Hne. rewrite !dict_get_set_ne by done. by apply Hother.
    + intros other. cbn [collections id_counters]. rewrite !dict_get_set_cases.
      destruct (String.eqb name other) eqn:E; [eauto|apply Hcover'].
Qed.

Lemma insert_one_after_get_collection_witness :
  let self : InMemoryDatabase Scalar := new_database None in
  counters_cover self /\
  exists db' stored,
    insert_one (get_collection self "progress") "progress"
      [("user_id"%string, SStr "u1")] = (db', Ok (stored, SStr "1")) /\
    dict_get (collections db') "progress" = Some [stored] /\
    dict_get (id_counters db') "progress" = Some 2%Z.
Proof.
  intros self.
  assert (Hc : counters_cover self) by apply counters_cover_new.
  split; [exact Hc|].
  destruct (insert_one_after_get_collection self "progress"
              [("user_id"%string, SStr "u1")] Hc)
    as (db' & stored & id & docs & counter & Hi & Hid & Hd & Hn & Hs & Hm & _).
  injection Hd as <-. injection Hn as <-.
  cbn [dict_get String.eqb Ascii.eqb Bool.eqb] in Hm. destruct Hm as [-> Hm].
  injection Hid as <-.
  exists db'. eexists. split; [exact Hi|]. split; [exact Hs|exact Hm].
Defined.

(** When [insert_one] returns, the collection existed, and had a counter if
    the document came without [_id]. *)
Lemma insert_one_ok_inv `{PyValue Value} (self db' : InMemoryDatabase Value)
    (name : string) (document : Document Value) (result : Document Value * Value) :
  insert_one self name document = (db', Ok result) ->
  exists docs, dict_get (collections self) name = Some docs /\
    (dict_get document "_id" = None ->
     exists counter, dict_get (id_counters self) name = Some counter).
Proof.
  unfold insert_one, assign_id, append_copy.
  destruct (dict_get document "_id") as [id|] eqn:Ei.
  - destruct (dict_get (collections self) name) as [docs|]; [|discriminate].
    intros _. exists docs. split; [reflexivity|discriminate].
  - destruct (dict_get (id_counters self) name) as [counter|]; [|discriminate].
    cbn [collections].
    destruct (dict_get (collections self) name) as [docs|]; [|discriminate].
    intros _. exists docs. eauto.
Qed.

Lemma match_filter_id `{PyValue Value} (doc : Document Value) (id : Value) :
  match_filter doc [("_id"%string, id)] = true <-> dict_get doc "_id" = Some id.
Proof.
  rewrite match_filter_spec. split.
  - intros Hall. apply Hall. apply list_elem_of_singleton. reflexivity.
  - intros Hd key value Hin. apply list_elem_of_singleton in Hin as [= -> ->]. exact Hd.
Qed.

(** X26. Ids handed out by the collection are fresh. If no stored [_id] is
    the string of a number at or above the counter, a document inserted
    without [_id] is the only one with the id returned: [find_one] by that
    id gives back the stored document, [count_documents] gives 1, and the
    condition holds again after the insertion. *)
Theorem auto_id_round_trip `{PyValue Value} (self db' : InMemoryDatabase Value)
    (name : string) (document stored : Document Value) (id : Value) :
  Inj (=) (=) (VStr (Value:=Value)) ->
  ids_below_counter self name ->
  dict_get document "_id" = None ->
  insert_one self name document = (db', Ok (stored, id)) ->
  find_one db' name [("_id"%string, id)] = Ok (Some stored) /\
  count_documents db' name [("_id"%string, id)] = Ok 1%Z /\
  ids_below_counter db' name.
Proof.
  intros Hinj Hbelow Hnone Hins.
  destruct (insert_one_ok_inv _ _ _ _ _ Hins) as (docs & Hd & Hc).
  destruct (Hc Hnone) as [counter Hcounter].
  rewrite (insert_one_present self name document docs counter Hd Hcounter), Hnone
    in Hins.
  cbv zeta in Hins. injection Hins as <- <- <-.
  set (id := VStr (pretty counter)).
  set (stored := dict_set document "_id" id).
  assert (Hstored : dict_get stored "_id" = Some id) by apply dict_get_set_eq.
  assert (Hfilter : filter (fun doc => match_filter doc [("_id"%string, id)] = true)
                      (docs ++ [stored]) = [stored]).
  { rewrite filter_app, filter_all_rejected.
    - cbn [app]. apply filter_all_accepted. intros doc Hin.
      apply list_elem_of_singleton in Hin as ->. by apply match_filter_id.
    - intros doc Hin Hm. apply match_filter_id in Hm.
      pose proof (Hbelow docs counter doc counter Hd Hcounter Hin Hm). lia. }
  unfold find_one, count_documents. cbn [collections id_counters].
  rewrite dict_get_set_eq, find_head_filter, Hfilter.
  split; [reflexivity|]. split; [reflexivity|].
  intros docs' counter' doc n. cbn [collections id_counters].
  rewrite !dict_get_set_eq. intros [= <-] [= <-] Hin Hid.
  apply elem_of_app in Hin as [Hin|Hin].
  - pose proof (Hbelow docs counter doc n Hd Hcounter Hin Hid). lia.
  - apply list_elem_of_singleton in Hin as ->. rewrite Hstored in Hid.
    injection Hid as Hid. apply Hinj in Hid.
    apply (inj pretty) in Hid. lia.
Qed.

Lemma auto_id_round_trip_witness :
  let self : InMemoryDatabase Scalar := new_database None in
  let document := [("user_id"%string, SStr "u1")] in
  Inj (=) (=) SStr /\ ids_below_counter self "sessions" /\
  dict_get document "_id" = None /\
  exists db' stored,
    insert_one self "sessions" document = (db', Ok (stored, SStr "1")) /\
    find_one db' "sessions" [("_id"%string, SStr "1")] = Ok (Some stored).
Proof.
  intros self document.
  assert (Hinj : Inj (=) (=) SStr) by (intros x y [= ->]; reflexivity).
  assert (Hbelow : ids_below_counter self "sessions").
  { intros docs counter doc n [= <-] _ Hin. by apply elem_of_nil in Hin. }
  assert (Hnone : dict_get document "_id" = None) by reflexivity.
  repeat (split; [assumption|]).
  destruct (insert_one self "sessions" document) as [db' [[stored id]| |]] eqn:E;
    try discriminate.
  assert (Hid : id = SStr "1") by (injection E as _ _ <-; reflexivity).
  subst id. exists db', stored. split; [reflexivity|].
  exact (proj1 (auto_id_round_trip self db' "sessions" document stored (SStr "1")
                  Hinj Hbelow Hnone E)).
Defined.

(** X27. [insert_one] never checks an id against the stored ones. A
    document that brings as [_id] the string of the current counter is
    stored, the next document without [_id] is given the same id, and
    [find_one] by the id returned for the second document gives the first
    one; [count_documents] finds two documents with this id. *)
Theorem explicit_id_shadows_auto_id `{PyValue Value} (self : InMemoryDatabase Value)
    (name : string) (docs : list (Document Value)) (counter : Z)
    (first second : Document Value) :
  dict_get (collections self) name = Some docs ->
  dict_get (id_counters self) name = Some counter ->
  (forall doc, doc ∈ docs -> dict_get doc "_id" <> Some (VStr (pretty counter))) ->
  dict_get first "_id" = Some (VStr (pretty counter)) ->
  dict_get second "_id" = None ->
  let id := VStr (pretty counter) in
  exists db1 db2 stored,
    insert_one self name first = (db1, Ok (first, id)) /\
    insert_one db1 name second = (db2, Ok (stored, id)) /\
    dict_get (collections db2) name = Some (docs ++ [first; stored]) /\
    find_one db2 name [("_id"%string, id)] = Ok (Some first) /\
    count_documents db2 name [("_id"%string, id)] = Ok 2%Z.
Proof.
  intros Hd Hc Hfresh Hfirst Hsecond id.
  rewrite (insert_one_present self name first docs counter Hd Hc), Hfirst.
  fold id.
  eexists _, _, _. split; [reflexivity|].
  erewrite insert_one_present;
    [|cbn [collections]; apply dict_get_set_eq|cbn [id_counters]; exact Hc].
  rewrite Hsecond. cbv zeta. fold id. split; [reflexivity|].
  cbn [collections id_counters]. unfold find_one, count_documents.
  cbn [collections]. rewrite !dict_get_set_eq, <- !app_assoc. cbn [app].
  split; [reflexivity|].
  assert (Hfilter : filter (fun doc => match_filter doc [("_id"%string, id)] = true)
                      (docs ++ [first; dict_set second "_id" id])
                    = [first; dict_set second "_id" id]).
  { rewrite filter_app, filter_all_rejected.
    - cbn [app]. apply filter_all_accepted. intros doc Hin.
      apply match_filter_id.
      apply elem_of_cons in Hin as [->|Hin]; [exact Hfirst|].
      apply list_elem_of_singleton in Hin as ->. apply dict_get_set_eq.
    - intros doc Hin Hm. apply match_filter_id in Hm. exact (Hfresh doc Hin Hm). }
  rewrite find_head_filter, Hfilter. split; reflexivity.
Qed.

Lemma explicit_id_shadows_auto_id_witness :
  let self : InMemoryDatabase Scalar := new_database None in
  let first := [("_id"%string, SStr "1"); ("user_id"%string, SStr "u1")] in
  let second := [("user_id"%string, SStr "u2")] in
  exists db1 db2 stored,
    insert_one self "sessions" first = (db1, Ok (first, SStr "1")) /\
    insert_one db1 "sessions" second = (db2, Ok (stored, SStr "1")) /\
    find_one db2 "sessions" [("_id"%string, SStr "1")] = Ok (Some first).
Proof.
  intros self first second.
  assert (Hfresh : forall doc : Document Scalar, doc ∈ [] ->
            dict_get doc "_id" <> Some (VStr (pretty 1%Z)))
    by (intros doc Hin; by apply elem_of_nil in Hin).
  destruct (explicit_id_shadows_auto_id self "sessions" [] 1 first second
              eq_refl eq_refl Hfresh eq_refl eq_refl)
    as (db1 & db2 & stored & H1 & H2 & _ & H3 & _).
  exists db1, db2, stored. split; [exact H1|]. split; [exact H2|exact H3].
Defined.

(** X28. [delete_many] removes exactly the matching documents of the
    collection: the others stay in their order, [deleted_count] is the
    number of matching documents, which is what [count_documents] gave
    before, and afterwards [count_documents] gives 0 and [find_one] gives
    [None] for the same filter; an empty filter empties the collection. The
    id counters stay as they are, so ids are not handed out again, and the
    other collections are untouched. Without the collection the call raises
    [KeyError] and changes nothing. *)
Theorem delete_many_removes_matches `{PyValue Value} (self : InMemoryDatabase Value)
    (name : string) (filter_dict : Document Value) :
  match dict_get (collections self) name with
  | None => delete_many self name filter_dict = (self, Raised "KeyError")
  | Some docs =>
      exists db' remaining deleted_count,
        delete_many self name filter_dict = (db', Ok deleted_count) /\
        dict_get (collections db') name = Some remaining /\
        sublist remaining docs /\
        (forall doc, doc ∈ remaining <->
           doc ∈ docs /\ match_filter doc filter_dict = false) /\
        (filter_dict = [] -> remaining = []) /\
        (deleted_count + Z.of_nat (length remaining) = Z.of_nat (length docs))%Z /\
        count_documents self name filter_dict = Ok deleted_count /\
        count_documents db' name filter_dict = Ok 0%Z /\
        find_one db' name filter_dict = Ok None /\
        id_counters db' = id_counters self /\
        (forall other, other <> name ->
           dict_get (collections db') other = dict_get (collections self) other)
  end.
Proof.
  unfold delete_many.
  destruct (dict_get (collections self) name) as [docs|] eqn:Hd; [|reflexivity].
  cbv zeta. eexists _, _, _. split; [reflexivity|].
  cbn [collections id_counters]. rewrite dict_get_set_eq.
  split; [reflexivity|]. split; [apply sublist_filter|].
  set (remaining := filter (fun doc => match_filter doc filter_dict <> true) docs).
  assert (Hnone : filter (fun doc => match_filter doc filter_dict = true) remaining = []).
  { apply filter_all_rejected. intros doc Hin.
    apply list_elem_of_filter in Hin as [Hn _]. exact Hn. }
  assert (Hlen : (length (filter (fun doc => match_filter doc filter_dict = true) docs)
                  + length remaining = length docs)%nat)
    by apply filter_three_way_length.
  split; [|split; [|split; [|split; [|split; [|split; [|split]]]]]].
  - intros doc. unfold remaining. rewrite list_elem_of_filter.
    destruct (match_filter doc filter_dict); split; intros [? ?]; done.
  - intros ->. apply filter_all_rejected. intros doc _ Hn. by apply Hn.
  - lia.
  - unfold count_documents. rewrite Hd, sum_ones_length. f_equal. lia.
  - unfold count_documents. cbn [collections]. rewrite dict_get_set_eq, Hnone.
    reflexivity.
  - unfold find_one. cbn [collections].
    rewrite dict_get_set_eq, find_head_filter, Hnone. reflexivity.
  - reflexivity.
  - intros other Hne. by apply dict_get_set_ne.
Qed.

Lemma dict_get_app {V : Type} (d1 d2 : list (string * V)) (k : string) :
  dict_get (d1 ++ d2) k
  = match dict_get d1 k with Some v => Some v | None => dict_get d2 k end.
Proof.
  induction d1 as [|[k' v'] d1 IH]; [reflexivity|]. cbn.
  destruct (String.eqb k' k); [reflexivity|exact IH].
Qed.

(** [doc.update(fields)] read key by key: the last value given for a key
    wins, keys not given keep their value. *)
Lemma dict_update_get {V : Type} (doc fields : list (string * V)) (key : string) :
  dict_get (dict_update doc fields) key
  = match dict_get (reverse fields) key with
    | Some value => Some value
    | None => dict_get doc key
    end.
Proof.
  unfold dict_update. revert doc.
  induction fields as [|[k v] fields IH]; intros doc; [reflexivity|].
  cbn [foldl fst snd]. rewrite IH, reverse_cons, dict_get_app.
  destruct (dict_get (reverse fields) key); [reflexivity|].
  cbn [dict_get]. rewrite dict_get_set_cases.
  destruct (String.eqb k key); reflexivity.
Qed.

Lemma update_first_spec `{PyValue Value} (docs : list (Document Value))
    (filter_dict : Document Value) (update : Update Value) :
  match List.find (fun doc => match_filter doc filter_dict) docs with
  | None => update_first docs filter_dict update = (docs, Ok 0%Z)
  | Some doc =>
      exists before after,
        docs = before ++ doc :: after /\
        (forall d, d ∈ before -> match_filter d filter_dict = false) /\
        match_filter doc filter_dict = true /\
        let doc1 := match upd_set update with
                    | Some fields => dict_update doc fields
                    | None => doc
                    end in
        update_first docs filter_dict update
        = match upd_inc update with
          | Some inc =>
              (before ++ (apply_inc doc1 inc).1 :: after,
               if (apply_inc doc1 inc).2 then Ok 1%Z else Raised "TypeError")
          | None => (before ++ doc1 :: after, Ok 1%Z)
          end
  end.
Proof.
  induction docs as [|doc docs IH]; [reflexivity|].
  cbn [List.find update_first].
  destruct (match_filter doc filter_dict) eqn:Em.
  - exists [], docs. split; [reflexivity|]. split.
    { intros d Hin. by apply elem_of_nil in Hin. }
    split; [exact Em|]. cbv zeta. cbn [app].
    destruct (upd_inc update) as [inc|]; [|reflexivity].
    destruct (apply_inc _ inc) as [doc2 ok]. reflexivity.
  - destruct (List.find _ docs) as [found|].
    + destruct IH as (before & after & -> & Hb & Hf & IH).
      exists (doc :: before), after. split; [reflexivity|]. split.
      { intros d Hin. apply elem_of_cons in Hin as [->|Hin]; [exact Em|by apply Hb]. }
      split; [exact Hf|]. cbv zeta in *. rewrite IH.
      destruct (upd_inc update); reflexivity.
    + rewrite IH. reflexivity.
Qed.

(** X29. [update_one] changes the first matching document only. The
    collection keeps its length and its other documents, the counters and
    the other collections are untouched; without a match nothing changes
    and [modified_count] is 0. With a match and a [$set] only,
    [modified_count] is 1 and the document has the given fields, the last
    value given for a key, and its other fields as before; if it still
    contains the filter, [find_one] with the same filter returns it. With
    [$inc] the call returns 1 or raises [TypeError]. *)
Theorem update_one_first_match `{PyValue Value} (self : InMemoryDatabase Value)
    (name : string) (filter_dict : Document Value) (update : Update Value) :
  match dict_get (collections self) name with
  | None => update_one self name filter_dict update = (self, Raised "KeyError")
  | Some docs =>
      exists db' docs' result,
        update_one self name filter_dict update = (db', result) /\
        dict_get (collections db') name = Some docs' /\
        length docs' = length docs /\
        id_counters db' = id_counters self /\
        (forall other, other <> name ->
           dict_get (collections db') other = dict_get (collections self) other) /\
        match List.find (fun doc => match_filter doc filter_dict) docs with
        | None => docs' = docs /\ result = Ok 0%Z
        | Some doc =>
            exists before after doc',
              docs = before ++ doc :: after /\
              docs' = before ++ doc' :: after /\
              (forall d, d ∈ before -> match_filter d filter_dict = false) /\
              (result = Ok 1%Z \/ result = Raised "TypeError") /\
              (upd_inc update = None ->
               result = Ok 1%Z /\
               (forall key,
                  dict_get doc' key
                  = match upd_set update with
                    | None => dict_get doc key
                    | Some fields =>
                        match dict_get (reverse fields) key with
                        | Some value => Some value
                        | None => dict_get doc key
                        end
                    end) /\
               (match_filter doc' filter_dict = true ->
                find_one db' name filter_dict = Ok (Some doc')))
        end
  end.
Proof.
  unfold update_one.
  destruct (dict_get (collections self) name) as [docs|] eqn:Hd; [|reflexivity].
  pose proof (update_first_spec docs filter_dict update) as Hspec.
  destruct (update_first docs filter_dict update) as [docs' result] eqn:Eu.
  eexists _, docs', result. split; [reflexivity|].
  cbn [collections id_counters]. rewrite dict_get_set_eq.
  split; [reflexivity|].
  assert (Hother : forall other, other <> name ->
            dict_get (dict_set (collections self) name docs') other
            = dict_get (collections self) other)
    by (intros other Hne; by apply dict_get_set_ne).
  destruct (List.find _ docs) as [doc|].
  - destruct Hspec as (before & after & -> & Hb & Hf & Hspec). cbv zeta in Hspec.
    set (doc1 := match upd_set update with
                 | Some fields => dict_update doc fields
                 | None => doc
                 end) in *.
    assert (H1 : forall key,
              dict_get doc1 key
              = match upd_set update with
                | None => dict_get doc key
                | Some fields =>
                    match dict_get (reverse fields) key with
                    | Some value => Some value
                    | None => dict_get doc key
                    end
                end).
    { intros key. unfold doc1. destruct (upd_set update); [|reflexivity].
      apply dict_update_get. }
    destruct (upd_inc update) as [inc|] eqn:Ei.
    + injection Hspec as -> ->.
      split; [rewrite !length_app; reflexivity|]. split; [reflexivity|].
      split; [exact Hother|].
      exists before, after, (apply_inc doc1 inc).1.
      split; [reflexivity|]. split; [reflexivity|]. split; [exact Hb|].
      split; [destruct (apply_inc doc1 inc).2; eauto|discriminate].
    + injection Hspec as -> ->.
      split; [rewrite !length_app; reflexivity|]. split; [reflexivity|].
      split; [exact Hother|].
      exists before, after, doc1.
      split; [reflexivity|]. split; [reflexivity|]. split; [exact Hb|].
      split; [eauto|]. intros _. split; [reflexivity|]. split; [exact H1|].
      intros Hm. unfold find_one. cbn [collections]. rewrite dict_get_set_eq.
      f_equal. rewrite find_head_filter, filter_app, filter_all_rejected.
      * cbn [app]. rewrite filter_cons_True by exact Hm. reflexivity.
      * intros d Hin. rewrite (Hb d Hin). discriminate.
  - injection Hspec as -> ->. split; [reflexivity|]. split; [reflexivity|].
    split; [exact Hother|]. split; reflexivity.
Qed.

(** The accumulators of the [insert_many] loop are prefixes of its result. *)
Lemma insert_many_loop_acc `{PyValue Value} (documents : list (Document Value))
    (self : InMemoryDatabase Value) (name : string)
    (handled : list (Document Value)) (inserted_ids : list Value) :
  insert_many_loop self name documents handled inserted_ids
  = match insert_many_loop self name documents [] [] with
    | (db, Ok (handled', ids')) => (db, Ok (handled ++ handled', inserted_ids ++ ids'))
    | (db, HTTPError status_code detail) => (db, HTTPError status_code detail)
    | (db, Raised exception) => (db, Raised exception)
    end.
Proof.
  revert self handled inserted_ids.
  induction documents as [|doc documents IH]; intros self handled inserted_ids.
  - cbn. by rewrite !app_nil_r.
  - cbn [insert_many_loop].
    destruct (dict_get doc "_id") as [id|].
    + destruct (dict_get (collections self) name) as [docs|]; [|reflexivity].
      rewrite IH. rewrite (IH _ ([] ++ [doc]) ([] ++ [id])).
      destruct (insert_many_loop _ name documents [] []) as [db [[h i]| |]];
        [|reflexivity..].
      cbn [app]. by rewrite <- !app_assoc.
    + destruct (dict_get (id_counters self) name) as [counter|]; [|reflexivity].
      cbv zeta. cbn [collections id_counters].
      destruct (dict_get (collections self) name) as [docs|]; [|reflexivity].
      rewrite IH. rewrite (IH _ ([] ++ [_]) ([] ++ [_])).
      destruct (insert_many_loop _ name documents [] []) as [db [[h i]| |]];
        [|reflexivity..].
      cbn [app]. by rewrite <- !app_assoc.
Qed.

Lemma insert_many_cons `{PyValue Value} (self : InMemoryDatabase Value)
    (name : string) (doc : Document Value) (documents : list (Document Value)) :
  insert_many self name (doc :: documents)
  = match insert_one self name doc with
    | (db, Ok (stored, id)) =>
        match insert_many db name documents with
        | (db', Ok (handled, ids)) => (db', Ok (stored :: handled, id :: ids))
        | (db', HTTPError status_code detail) => (db', HTTPError status_code detail)
        | (db', Raised exception) => (db', Raised exception)
        end
    | (db, HTTPError status_code detail) => (db, HTTPError status_code detail)
    | (db, Raised exception) => (db, Raised exception)
    end.
Proof.
  unfold insert_many, insert_one, assign_id, append_copy.
  cbn [insert_many_loop].
  destruct (dict_get doc "_id") as [id|] eqn:Ei.
  - destruct (dict_get (collections self) name) as [docs|]; [|reflexivity].
    rewrite Ei, insert_many_loop_acc.
    destruct (insert_many_loop _ name documents [] []) as [db [[h i]| |]];
      reflexivity.
  - destruct (dict_get (id_counters self) name) as [counter|]; [|reflexivity].
    cbv zeta. cbn [collections id_counters].
    destruct (dict_get (collections self) name) as [docs|]; [|reflexivity].
    rewrite dict_get_set_eq, insert_many_loop_acc.
    destruct (insert_many_loop _ name documents [] []) as [db [[h i]| |]];
      reflexivity.
Qed.

Lemma insert_one_stored `{PyValue Value} (self db' : InMemoryDatabase Value)
    (name : string) (document stored : Document Value) (id : Value)
    (docs : list (Document Value)) :
  insert_one self name document = (db', Ok (stored, id)) ->
  dict_get (collections self) name = Some docs ->
  dict_get stored "_id" = Some id /\
  dict_get (collections db') name = Some (docs ++ [stored]).
Proof.
  unfold insert_one, assign_id, append_copy. intros Hi Hd.
  destruct (dict_get document "_id") as [id'|] eqn:Ei.
  - rewrite Hd, Ei in Hi. injection Hi as <- <- <-.
    cbn [collections]. by rewrite dict_get_set_eq.
  - destruct (dict_get (id_counters self) name) as [counter|]; [|discriminate].
    cbn [collections] in Hi. rewrite Hd, dict_get_set_eq in Hi.
    injection Hi as <- <- <-. cbn [collections]. by rewrite !dict_get_set_eq.
Qed.

(** X30. [insert_many] is [insert_one] document by document: no document
    gives back the database with two empty lists; otherwise the first
    document is inserted as [insert_one] does it and the rest follows on the
    database this leaves, and an exception on the way leaves the documents
    inserted before it in the collection. When the call returns there is
    one id per document, each the [_id] of the document stored for it, and
    the collection holds its former documents followed by the stored
    ones. *)
Theorem insert_many_iterates_insert_one `{PyValue Value}
    (self : InMemoryDatabase Value) (name : string) :
  insert_many self name [] = (self, Ok ([], [])) /\
  (forall doc documents,
     insert_many self name (doc :: documents)
     = match insert_one self name doc with
       | (db, Ok (stored, id)) =>
           match insert_many db name documents with
           | (db', Ok (handled, ids)) => (db', Ok (stored :: handled, id :: ids))
           | (db', HTTPError status_code detail) => (db', HTTPError status_code detail)
           | (db', Raised exception) => (db', Raised exception)
           end
       | (db, HTTPError status_code detail) => (db, HTTPError status_code detail)
       | (db, Raised exception) => (db, Raised exception)
       end) /\
  (forall documents db' handled ids,
     insert_many self name documents = (db', Ok (handled, ids)) ->
     Forall2 (fun stored id => dict_get stored "_id" = Some id) handled ids /\
     length handled = length documents /\
     forall docs, dict_get (collections self) name = Some docs ->
                  dict_get (collections db') name = Some (docs ++ handled)).
Proof.
  split; [reflexivity|]. split; [apply insert_many_cons|].
  intros documents. revert self.
  induction documents as [|doc documents IH]; intros self db' handled ids.
  - intros [= <- <- <-]. split; [constructor|]. split; [reflexivity|].
    intros docs Hd. by rewrite app_nil_r.
  - rewrite insert_many_cons.
    destruct (insert_one self name doc) as [db [[stored id]| |]] eqn:Ei;
      [|discriminate..].
    destruct (insert_many db name documents) as [db2 [[h i]| |]] eqn:Em;
      [|discriminate..].
    intros [= <- <- <-].
    destruct (IH db db2 h i Em) as (Hids & Hlen & Hcol).
    destruct (insert_one_ok_inv _ _ _ _ _ Ei) as (docs0 & Hd0 & _).
    destruct (insert_one_stored _ _ _ _ _ _ _ Ei Hd0) as [Hid Hdb].
    split; [by constructor|]. split; [cbn [length]; by rewrite Hlen|].
    intros docs Hd. rewrite Hd in Hd0. injection Hd0 as <-.
    rewrite (Hcol _ Hdb), <- app_assoc. reflexivity.
Qed.
